(** * Review submission pipeline (app-reviews): shallow embedding and properties

    The two entry points of the repository, [api/index.ts] (serverless,
    dev-token credential) and [web/index.ts] (Prisma session store), each
    define a [/reviews/submit] handler, a [sendHtml] reporter and share the
    same [toProductGid] normalizer.  This file embeds them as Rocq functions
    over a model of the JavaScript values and built-ins they use, and proves
    the properties of the submission pipeline. *)

From Stdlib Require Import ZArith QArith Qround Qpower List String Ascii Bool Lia.
From Stdlib Require Import SpecFloat.
Import ListNotations.
Open Scope string_scope.
Open Scope Z_scope.

(** ** The JavaScript runtime the handlers rely on

    Strings are sequences of code units below 256.  Numbers are the IEEE-754
    binary64 values, kept by their exact rational value ([+0] and [-0] are
    identified: no operation used by the handlers tells them apart); the
    rounding of a decimal literal to binary64 is the round-to-nearest-even
    division of [SpecFloat]. *)

Module JS.

Inductive number : Type :=
| NaN
| Infinity (negative : bool)
| Finite (q : Q).

Definition of_spec_float (x : spec_float) : number :=
  match x with
  | S754_zero _ => Finite 0
  | S754_infinity s => Infinity s
  | S754_nan => NaN
  | S754_finite s m e =>
      let v := if 0 <=? e then inject_Z (Zpos m * 2 ^ e)
               else Qmake (Zpos m) (Z.to_pos (2 ^ (- e))) in
      Finite (Qred (if s then Qopp v else v))
  end.

(** The binary64 value nearest to the rational [q] (ties to even, overflow to
    an infinity, gradual underflow): the correctly rounded quotient of the
    numerator and denominator of [q] in lowest terms. *)
Definition round64 (q : Q) : number :=
  let r := Qred q in
  match Qnum r with
  | Z0 => Finite 0
  | Zpos p => of_spec_float
      (SFdiv 53 1024 (S754_finite false p 0) (S754_finite false (Qden r) 0))
  | Zneg p => of_spec_float
      (SFdiv 53 1024 (S754_finite true p 0) (S754_finite false (Qden r) 0))
  end.

Definition pow10 (e : Z) : Q :=
  if 0 <=? e then inject_Z (10 ^ e) else Qmake 1 (Z.to_pos (10 ^ (- e))).

Definition code (c : ascii) : Z := Z.of_nat (nat_of_ascii c).

(** *** [StringToNumber]: the grammar [StringNumericLiteral] *)

Definition is_white_space (c : ascii) : bool :=
  let n := code c in
  ((9 <=? n) && (n <=? 13)) || (n =? 32) || (n =? 160).

Definition digit_of (radix : Z) (c : ascii) : option Z :=
  let n := code c in
  let d := if (48 <=? n) && (n <=? 57) then n - 48
           else if (97 <=? n) && (n <=? 122) then n - 87
           else if (65 <=? n) && (n <=? 90) then n - 55
           else 36 in
  if d <? radix then Some d else None.

Fixpoint span_digits (radix : Z) (cs : list ascii) : list Z * list ascii :=
  match cs with
  | [] => ([], [])
  | c :: rest =>
      match digit_of radix c with
      | Some d => let (ds, tl) := span_digits radix rest in (d :: ds, tl)
      | None => ([], cs)
      end
  end.

Definition digits_value (radix : Z) (ds : list Z) : Z :=
  fold_left (fun acc d => radix * acc + d) ds 0.

Fixpoint drop_white_space (cs : list ascii) : list ascii :=
  match cs with
  | c :: rest => if is_white_space c then drop_white_space rest else cs
  | [] => []
  end.

Definition trim (cs : list ascii) : list ascii :=
  rev (drop_white_space (rev (drop_white_space cs))).

(** [ExponentPart], or nothing: the exponent, when [cs] is exactly that. *)
Definition exponent_part (cs : list ascii) : option Z :=
  match cs with
  | [] => Some 0
  | e :: rest =>
      if (code e =? 101) || (code e =? 69) then
        let '(neg, rest') :=
          match rest with
          | s :: tl => if code s =? 43 then (false, tl)
                       else if code s =? 45 then (true, tl)
                       else (false, rest)
          | [] => (false, rest)
          end in
        match span_digits 10 rest' with
        | ((_ :: _) as ds, []) =>
            let v := digits_value 10 ds in Some (if neg then - v else v)
        | _ => None
        end
      else None
  end.

(** [StrUnsignedDecimalLiteral] without [Infinity]: its mathematical value. *)
Definition unsigned_decimal (cs : list ascii) : option Q :=
  let (ip, r1) := span_digits 10 cs in
  let '(fp, r2) :=
    match r1 with
    | dot :: tl => if code dot =? 46 then span_digits 10 tl else ([], r1)
    | [] => ([], r1)
    end in
  match (ip ++ fp)%list with
  | [] => None
  | ds =>
      match exponent_part r2 with
      | Some e =>
          let scale := pow10 (e - Z.of_nat (List.length fp)) in
          Some (inject_Z (digits_value 10 ds) * scale)%Q
      | None => None
      end
  end.

Definition str_decimal (neg : bool) (cs : list ascii) : number :=
  if String.eqb (string_of_list_ascii cs) "Infinity" then Infinity neg
  else match unsigned_decimal cs with
       | Some q => round64 (if neg then Qopp q else q)
       | None => NaN
       end.

(** [NonDecimalIntegerLiteral]: [0x], [0o], [0b] in either case. *)
Definition non_decimal (cs : list ascii) : option number :=
  match cs with
  | z :: x :: rest =>
      if code z =? 48 then
        let radix :=
          if (code x =? 120) || (code x =? 88) then 16
          else if (code x =? 111) || (code x =? 79) then 8
          else if (code x =? 98) || (code x =? 66) then 2
          else 0 in
        if radix =? 0 then None
        else match span_digits radix rest with
             | ((_ :: _) as ds, []) =>
                 Some (round64 (inject_Z (digits_value radix ds)))
             | _ => Some NaN
             end
      else None
  | _ => None
  end.

Definition StringToNumber (s : string) : number :=
  match trim (list_ascii_of_string s) with
  | [] => Finite 0
  | (c :: rest) as cs =>
      match non_decimal cs with
      | Some n => n
      | None =>
          if code c =? 43 then str_decimal false rest
          else if code c =? 45 then str_decimal true rest
          else str_decimal false cs
      end
  end.

(** *** [Number::toString]: the shortest digits that read back as the number *)

Definition number_eqb (a b : number) : bool :=
  match a, b with
  | Infinity s, Infinity t => Bool.eqb s t
  | Finite p, Finite q => Qeq_bool p q
  | _, _ => false
  end.

(** [q] is the value of a binary64 number. *)
Definition is_binary64 (q : Q) : bool := number_eqb (round64 q) (Finite q).

Fixpoint climb (fuel : nat) (v : Q) (n : Z) : Z :=
  match fuel with
  | O => n
  | S fuel' => if Qle_bool (pow10 n) v then climb fuel' v (n + 1) else n
  end.

Fixpoint descend (fuel : nat) (v : Q) (n : Z) : Z :=
  match fuel with
  | O => n
  | S fuel' =>
      if Qle_bool (pow10 (n - 1)) v then n else descend fuel' v (n - 1)
  end.

(** The [n] with [10^(n-1) <= v < 10^n], for [v > 0]. *)
Definition decade (v : Q) : Z :=
  let bits := Z.log2 (Qnum v) - Z.log2 (Zpos (Qden v)) in
  let fuel := Z.to_nat (Z.abs bits / 100 + 4) in
  descend fuel v (climb fuel v (bits * 30103 / 100000)).

(** [s * 10^(n-k)] reads back as [v]. *)
Definition reads_back (v : Q) (n k s : Z) : bool :=
  number_eqb (round64 (inject_Z s * pow10 (n - k))) (Finite v).

(** A [k]-digit integer [s] with [s * 10^(n-k)] reading back as [v]; of two,
    the nearer to [v], and the even one on a tie. *)
Definition candidate (v : Q) (n k : Z) : option Z :=
  let scaled := (v * pow10 (k - n))%Q in
  let lo := Qfloor scaled in
  let hi := lo + 1 in
  match reads_back v n k lo, reads_back v n k hi with
  | true, false => Some lo
  | false, true => Some hi
  | false, false => None
  | true, true =>
      match Qcompare (scaled - inject_Z lo) (inject_Z hi - scaled) with
      | Lt => Some lo
      | Gt => Some hi
      | Eq => Some (if Z.even lo then lo else hi)
      end
  end.

(** The least [k] from [k] on with a candidate [s]: the pair of [s] and the
    power of ten it is scaled by. *)
Fixpoint shortest (fuel : nat) (v : Q) (n k : Z) : Z * Z :=
  match fuel with
  | O => (Qfloor (v * pow10 (k - n)), n - k)
  | S fuel' =>
      match candidate v n k with
      | Some s => if s =? 10 ^ k then (10 ^ (k - 1), n + 1 - k) else (s, n - k)
      | None => shortest fuel' v n (k + 1)
      end
  end.

Definition digit_char (d : Z) : ascii := ascii_of_nat (48 + Z.to_nat (d mod 10)).

(** The decimal digits of [z >= 0], most significant first, before [acc]. *)
Fixpoint digits_before (fuel : nat) (z : Z) (acc : list ascii) : list ascii :=
  match fuel with
  | O => acc
  | S fuel' =>
      if z <? 10 then digit_char z :: acc
      else digits_before fuel' (z / 10) (digit_char z :: acc)
  end.

Definition decimal_digits (z : Z) : list ascii :=
  digits_before (S (Z.to_nat (Z.log2 z))) z [].

(** Digit strings and their values; the characters of a printed number. *)
Definition is_digit (c : ascii) : bool := (48 <=? code c) && (code c <=? 57).

Definition all_digits (cs : list ascii) : bool := forallb is_digit cs.

Definition digit_values (cs : list ascii) : list Z :=
  map (fun c => code c - 48) cs.

Definition value_of (cs : list ascii) : Z := digits_value 10 (digit_values cs).

Definition plain (c : ascii) : bool :=
  is_digit c || Ascii.eqb c "." || Ascii.eqb c "e" || Ascii.eqb c "+"
  || Ascii.eqb c "-".

(** The exponent part of a printed number. *)
Definition exponent_chars (e : Z) : list ascii :=
  "e"%char :: (if e <? 0 then "-"%char else "+"%char)
    :: decimal_digits (Z.abs e).

(** The text of the number with digits [ds] and [n] of them before the
    decimal point. *)
Definition format_digits (ds : list ascii) (n : Z) : list ascii :=
  let k := Z.of_nat (List.length ds) in
  if (k <=? n) && (n <=? 21)
  then (ds ++ repeat "0"%char (Z.to_nat (n - k)))%list
  else if (0 <? n) && (n <=? 21)
  then (firstn (Z.to_nat n) ds ++ "."%char :: skipn (Z.to_nat n) ds)%list
  else if (-6 <? n) && (n <=? 0)
  then ("0"%char :: "."%char :: repeat "0"%char (Z.to_nat (- n)) ++ ds)%list
  else
    match ds with
    | d :: ((_ :: _) as rest) =>
        (d :: "."%char :: rest ++ exponent_chars (n - 1))%list
    | _ => (ds ++ exponent_chars (n - 1))%list
    end.

(** The digit search tries up to 17 digits, which suffice for a binary64
    value, and goes on to the exact decimal expansion otherwise. *)
Definition positive_to_chars (v : Q) : list ascii :=
  let n := decade v in
  let fuel := Z.to_nat (Z.max 17 (n + Z.log2 (Zpos (Qden v)))) in
  let '(s, e) := shortest fuel v n 1 in
  let ds := decimal_digits s in
  format_digits ds (e + Z.of_nat (List.length ds)).

Definition to_string (x : number) : string :=
  match x with
  | NaN => "NaN"
  | Infinity false => "Infinity"
  | Infinity true => "-Infinity"
  | Finite q =>
      let v := Qred q in
      match Qnum v with
      | Z0 => "0"
      | Zpos _ => string_of_list_ascii (positive_to_chars v)
      | Zneg _ => String "-" (string_of_list_ascii (positive_to_chars (Qopp v)))
      end
  end.

(** *** Values, exceptions and the conversions between primitives

    An object is the list of its own properties in enumeration order; the
    values here are those a JSON or form body parser builds, so a property
    never holds a function. *)

#[warnings="-register-all"]
Inductive value : Type :=
| Undefined
| Null
| Bool (b : bool)
| Num (n : number)
| Str (s : string)
| Arr (items : list value)
| Obj (props : list (string * value)).

Inductive exn : Type :=
| TypeError
| DbError
| NetworkError.

Inductive completion (A : Type) : Type :=
| Normal (a : A)
| Throw (e : exn).

Arguments Normal {A} a.
Arguments Throw {A} e.

Definition and_then {A B} (c : completion A) (k : A -> completion B)
  : completion B :=
  match c with
  | Normal a => k a
  | Throw e => Throw e
  end.

Fixpoint lookup (k : string) (props : list (string * value)) : option value :=
  match props with
  | [] => None
  | (k', v) :: rest => if String.eqb k k' then Some v else lookup k rest
  end.

Definition is_nullish (v : value) : bool :=
  match v with
  | Undefined | Null => true
  | _ => false
  end.

(** [ToString]: an array joins its elements with commas ([null] and
    [undefined] elements give the empty string); an object gives
    ["[object Object]"] through [Object.prototype.toString], unless an own
    [toString] property, which is not callable, hides that method: then
    no method yields a primitive and a [TypeError] is thrown. *)
Fixpoint ToString (v : value) : completion string :=
  match v with
  | Undefined => Normal "undefined"
  | Null => Normal "null"
  | Bool true => Normal "true"
  | Bool false => Normal "false"
  | Num n => Normal (to_string n)
  | Str s => Normal s
  | Arr items =>
      let element x := if is_nullish x then Normal EmptyString else ToString x in
      (fix join (l : list value) : completion string :=
         match l with
         | [] => Normal EmptyString
         | [x] => element x
         | x :: rest =>
             and_then (element x) (fun s =>
             and_then (join rest) (fun r => Normal (s ++ "," ++ r)))
         end) items
  | Obj props =>
      match lookup "toString" props with
      | Some _ => Throw TypeError
      | None => Normal "[object Object]"
      end
  end.

(** [ToNumber]: an object or array goes through [valueOf], which returns the
    object itself, and then through its string. *)
Definition ToNumber (v : value) : completion number :=
  match v with
  | Undefined => Normal NaN
  | Null => Normal (Finite 0)
  | Bool true => Normal (Finite 1)
  | Bool false => Normal (Finite 0)
  | Num n => Normal n
  | Str s => Normal (StringToNumber s)
  | Arr _ | Obj _ => and_then (ToString v) (fun s => Normal (StringToNumber s))
  end.

Definition ToBoolean (v : value) : bool :=
  match v with
  | Undefined | Null => false
  | Bool b => b
  | Num NaN => false
  | Num (Infinity _) => true
  | Num (Finite q) => negb (Qeq_bool q 0)
  | Str s => negb (String.eqb s EmptyString)
  | Arr _ | Obj _ => true
  end.

(** [a || b] and [a ?? b]. *)
Definition or_else (a b : value) : value := if ToBoolean a then a else b.
Definition coalesce (a b : value) : value := if is_nullish a then b else a.

(** [v.k] on a receiver that is neither [null] nor [undefined], for a
    property name [k] that is no array index and no prototype method (the
    handlers read only such names): an own property, or the [length] of an
    array or a string. *)
Definition member (v : value) (k : string) : value :=
  match v with
  | Obj props =>
      match lookup k props with
      | Some x => x
      | None => Undefined
      end
  | Arr items =>
      if String.eqb k "length"
      then Num (Finite (inject_Z (Z.of_nat (List.length items))))
      else Undefined
  | Str s =>
      if String.eqb k "length"
      then Num (Finite (inject_Z (Z.of_nat (String.length s))))
      else Undefined
  | _ => Undefined
  end.

(** [v.k]: a [TypeError] on [null] and [undefined]. *)
Definition get (v : value) (k : string) : completion value :=
  if is_nullish v then Throw TypeError else Normal (member v k).

(** [v?.k] *)
Definition get_opt (v : value) (k : string) : value :=
  if is_nullish v then Undefined else member v k.

(** [a === b] for a string [b]. *)
Definition strict_equal_string (a : value) (b : string) : bool :=
  match a with
  | Str s => String.eqb s b
  | _ => false
  end.

Definition isFinite (n : number) : bool :=
  match n with
  | Finite _ => true
  | _ => false
  end.

Definition isInteger (n : number) : bool :=
  match n with
  | Finite q => Qnum q mod Zpos (Qden q) =? 0
  | _ => false
  end.

(** [a < b] and [a > b] against a finite bound [b]; false on [NaN]. *)
Definition less_than (a : number) (b : Q) : bool :=
  match a with
  | NaN => false
  | Infinity negative => negative
  | Finite q => negb (Qle_bool b q)
  end.

Definition greater_than (a : number) (b : Q) : bool :=
  match a with
  | NaN => false
  | Infinity negative => negb negative
  | Finite q => negb (Qle_bool q b)
  end.

(** *** [JSON.stringify] *)

Definition quote : string := String (ascii_of_nat 34) EmptyString.
Definition backslash : string := String (ascii_of_nat 92) EmptyString.

Definition hex_digit (d : Z) : ascii :=
  ascii_of_nat (Z.to_nat (if d <? 10 then 48 + d else 87 + d)).

Definition escape_unit (c : ascii) : string :=
  let n := code c in
  if n =? 8 then backslash ++ "b"
  else if n =? 9 then backslash ++ "t"
  else if n =? 10 then backslash ++ "n"
  else if n =? 12 then backslash ++ "f"
  else if n =? 13 then backslash ++ "r"
  else if n =? 34 then backslash ++ quote
  else if n =? 92 then backslash ++ backslash
  else if n <? 32 then
    backslash ++ "u00"
      ++ String (hex_digit (n / 16)) (String (hex_digit (n mod 16)) EmptyString)
  else String c EmptyString.

Fixpoint escape_units (s : string) : string :=
  match s with
  | EmptyString => EmptyString
  | String c rest => escape_unit c ++ escape_units rest
  end.

Definition QuoteJSONString (s : string) : string :=
  quote ++ escape_units s ++ quote.

Fixpoint comma_join (l : list string) : string :=
  match l with
  | [] => EmptyString
  | [x] => x
  | x :: rest => x ++ "," ++ comma_join rest
  end.

(** [None] stands for the result [undefined]. *)
Fixpoint JSON_stringify (v : value) : option string :=
  match v with
  | Undefined => None
  | Null => Some "null"
  | Bool true => Some "true"
  | Bool false => Some "false"
  | Num n => Some (if isFinite n then to_string n else "null")
  | Str s => Some (QuoteJSONString s)
  | Arr items =>
      let element x :=
        match JSON_stringify x with
        | Some t => t
        | None => "null"
        end in
      Some ("[" ++ comma_join
                     ((fix each (l : list value) : list string :=
                         match l with
                         | [] => []
                         | x :: rest => element x :: each rest
                         end) items) ++ "]")
  | Obj props =>
      Some ("{" ++ comma_join
                     ((fix each (l : list (string * value)) : list string :=
                         match l with
                         | [] => []
                         | (k, x) :: rest =>
                             match JSON_stringify x with
                             | Some t =>
                                 (QuoteJSONString k ++ ":" ++ t) :: each rest
                             | None => each rest
                             end
                         end) props) ++ "}")
  end.

(** *** [Date.prototype.toISOString] of a time value (milliseconds since the
    epoch, UTC) *)

Fixpoint pad (width : nat) (n : Z) : string :=
  match width with
  | O => EmptyString
  | S w => pad w (n / 10) ++ String (digit_char n) EmptyString
  end.

(** Year, month and day of a day number counted from 1970-01-01. *)
Definition civil_from_days (days : Z) : Z * Z * Z :=
  let z := days + 719468 in
  let era := z / 146097 in
  let doe := z - era * 146097 in
  let yoe := (doe - doe / 1460 + doe / 36524 - doe / 146096) / 365 in
  let doy := doe - (365 * yoe + yoe / 4 - yoe / 100) in
  let mp := (5 * doy + 2) / 153 in
  let d := doy - (153 * mp + 2) / 5 + 1 in
  let m := if mp <? 10 then mp + 3 else mp - 9 in
  let y := yoe + era * 400 + (if m <=? 2 then 1 else 0) in
  (y, m, d).

Definition year_digits (y : Z) : string :=
  if (0 <=? y) && (y <=? 9999) then pad 4 y
  else (if y <? 0 then "-" else "+") ++ pad 6 (Z.abs y).

Definition toISOString (t : Z) : string :=
  let '(y, m, d) := civil_from_days (t / 86400000) in
  let ms := t mod 86400000 in
  year_digits y ++ "-" ++ pad 2 m ++ "-" ++ pad 2 d
    ++ "T" ++ pad 2 (ms / 3600000) ++ ":" ++ pad 2 (ms / 60000 mod 60)
    ++ ":" ++ pad 2 (ms / 1000 mod 60) ++ "." ++ pad 3 (ms mod 1000) ++ "Z".

End JS.

Import JS.

(** ** What both entry points share *)

(** The argument of [sendHtml]: [{ ok, returnTo?, id?, message? }].  An absent
    [returnTo] or [id] is [Undefined], an absent [message] is [None]. *)
Record opts : Type := mk_opts {
  ok : bool;
  returnTo : value;
  id : value;
  message : option string
}.

(** What [res.status(..).type(..).send(..)] is called with: the status and
    the media type set on the response, and the body handed to [res.send].
    What [res.send] puts on the wire is [res_send], below. *)
Record response : Type := mk_response {
  status : Z;
  media_type : string;
  html : string
}.

Definition nl : string := String (ascii_of_nat 10) EmptyString.

Fixpoint has_slash (s : string) : bool :=
  match s with
  | EmptyString => false
  | String c rest => (code c =? 47) || has_slash rest
  end.

(** [res.type(t)]: a media type is kept, an extension is looked up. *)
Definition res_type (t : string) : string :=
  if has_slash t then t
  else if String.eqb t "html" then "text/html"
  else "application/octet-stream".

Definition gid_prefix : string := "gid://shopify/Product/".

(** [toProductGid], the same function in [api/index.ts] and [web/index.ts].
    [None] is the result [null]. *)
Definition toProductGid (id : value) : completion (option string) :=
  and_then (ToString id) (fun s =>
  if prefix gid_prefix s then Normal (Some s)
  else
    let n := StringToNumber s in
    Normal (if isFinite n && greater_than n 0
            then Some (gid_prefix ++ to_string n)
            else None)).

(** [!productGid] for the [string | null] result. *)
Definition falsy (g : option string) : bool :=
  match g with
  | Some s => String.eqb s EmptyString
  | None => true
  end.

(** [!Number.isInteger(rating) || rating < 1 || rating > 5] *)
Definition rating_rejected (rating : number) : bool :=
  negb (isInteger rating) || less_than rating 1 || greater_than rating 5.

(** The inbound request, as Express hands it to the handler. *)
Record request : Type := mk_request {
  query : list (string * value);
  shop_domain_header : option string;
  body : value
}.

Definition query_param (req : request) (k : string) : value :=
  member (Obj (query req)) k.

Definition header_value (h : option string) : value :=
  match h with
  | Some s => Str s
  | None => Undefined
  end.

(** [shop]: [req.query.shop], or else the [x-shopify-shop-domain] header, or
    else the empty string. *)
Definition shop_of (req : request) : value :=
  or_else (or_else (query_param req "shop")
                   (header_value (shop_domain_header req)))
          (Str EmptyString).

(** [req.body ?? {}] *)
Definition body_of (req : request) : value := coalesce (body req) (Obj []).

(** [b.return_to || req.query.return_to || "/"] *)
Definition return_target (req : request) : value :=
  or_else (or_else (member (body_of req) "return_to")
                   (query_param req "return_to"))
          (Str "/").

(** The outbound call: [fetch(url, { method, headers, body })], the body kept
    as the [{ query, variables: { fields } }] it serializes. *)
Record fetch_request : Type := mk_fetch {
  url : string;
  http_method : string;
  access_token : string;
  content_type : string;
  graphql_query : string;
  graphql_fields : list (string * string)
}.

(** The remote side's answer: [fetch] rejects, or [text()] rejects, or the
    body text arrives; [JSON.parse] of that text is the runtime's, and its
    result ([None] when it throws) comes with the text. *)
Inductive fetch_reply : Type :=
| FetchRejects
| TextRejects
| Body (raw : string) (json : option value).

(** The answer of [prisma.session.findFirst]. *)
Inductive session_reply : Type :=
| FindRejects
| NoSession
| Session (accessToken : string).

(** Everything outside the handler that a run depends on. *)
Record world : Type := mk_world {
  DEV_SHOP_DOMAIN : option string;
  DEV_ADMIN_TOKEN : option string;
  session_findFirst : value -> bool -> session_reply;
  remote : fetch_request -> fetch_reply;
  now : Z
}.

(** The blocking calls a run makes, in order. *)
Inductive event : Type :=
| Lookup (shop : value) (isOnline : bool)
| Request (r : fetch_request).

(** Computations of the handlers: they extend the trace of blocking calls and
    end normally or by throwing. *)
Definition M (A : Type) : Type := list event -> completion A * list event.

Definition ret {A} (a : A) : M A := fun t => (Normal a, t).

Definition bind {A B} (m : M A) (k : A -> M B) : M B :=
  fun t =>
    match m t with
    | (Normal a, t') => k a t'
    | (Throw e, t') => (Throw e, t')
    end.

Definition lift {A} (c : completion A) : M A := fun t => (c, t).

Definition emit (e : event) : M unit := fun t => (Normal tt, (t ++ [e])%list).

(** [try { m } catch { handler }] *)
Definition try_catch {A} (m handler : M A) : M A :=
  fun t =>
    match m t with
    | (Throw _, t') => handler t'
    | done => done
    end.

Notation "x <- c ;; k" := (bind c (fun x => k))
  (at level 61, c at next level, right associativity).

(** [await prisma.session.findFirst({ where: { shop, isOnline } })], then
    [session?.accessToken]: [None] is [undefined]. *)
Definition findFirst (w : world) (shop : value) (isOnline : bool)
  : M (option string) :=
  _ <- emit (Lookup shop isOnline) ;;
  match session_findFirst w shop isOnline with
  | FindRejects => lift (Throw DbError)
  | NoSession => ret None
  | Session token => ret (Some token)
  end.

(** [await fetch(..)] followed by [await r.text()] and [JSON.parse(raw)]
    caught: the text with its parse. *)
Definition fetch (w : world) (r : fetch_request) : M (string * option value) :=
  _ <- emit (Request r) ;;
  match remote w r with
  | FetchRejects => lift (Throw NetworkError)
  | TextRejects => lift (Throw NetworkError)
  | Body raw json => ret (raw, json)
  end.

(** What the handler leaves behind: the response it called [res.send] with,
    or an exception nobody caught. *)
Inductive result : Type :=
| Sent (r : response)
| Uncaught (e : exn).

Definition finish (c : completion response) : result :=
  match c with
  | Normal r => Sent r
  | Throw e => Uncaught e
  end.

Definition run (m : M response) : result * list event :=
  let (c, t) := m [] in (finish c, t).

Definition apiVersion : string := "2025-07".

Definition endpoint (shop : string) : string :=
  "https://" ++ shop ++ "/admin/api/" ++ apiVersion ++ "/graphql.json".

(** [variables.fields], with [created] the ISO text of the current time. *)
Definition review_fields (productGid : string) (rating : number)
    (title body author email : string) (t : Z) : list (string * string) :=
  [ ("product", productGid);
    ("rating", to_string rating);
    ("title", title);
    ("body", body);
    ("author", author);
    ("email", email);
    ("status", "approved");
    ("created", toISOString t) ].

(** [json?.data?.metaobjectCreate] *)
Definition metaobjectCreate (json : value) : value :=
  get_opt (get_opt json "data") "metaobjectCreate".

(** [replace(/QUOTE/g, ENTITY)]: every double quote becomes the entity
    [&quot;]. *)
Fixpoint replace_quotes (s : string) : string :=
  match s with
  | EmptyString => EmptyString
  | String c rest =>
      (if code c =? 34 then "&quot;" else String c EmptyString)
        ++ replace_quotes rest
  end.

(** The destructuring default [returnTo = "/"]. *)
Definition default_returnTo (v : value) : value :=
  match v with
  | Undefined => Str "/"
  | _ => v
  end.

(** The [id] paragraph of the page: empty when [id] is falsy. *)
Definition id_paragraph (id : value) : completion string :=
  if ToBoolean id
  then and_then (ToString id) (fun s => Normal ("<p>Review ID: " ++ s ++ "</p>"))
  else Normal EmptyString.

(** The [message] paragraph of the page: empty when [message] is falsy. *)
Definition message_paragraph (message : option string) : string :=
  match message with
  | Some m =>
      if String.eqb m EmptyString then EmptyString
      else "<p><small>" ++ m ++ "</small></p>"
  | None => EmptyString
  end.

(** [${JSON.stringify(returnTo)}] *)
Definition script_argument (returnTo : value) : string :=
  match JSON_stringify returnTo with
  | Some t => t
  | None => "undefined"
  end.

Definition heading (ok : bool) : string :=
  if ok then "Thanks for your review!" else "We couldn't save your review".

(** [devToken] and [accessToken] once they are known to be set. *)
Definition token_text (token : option string) : string :=
  match token with
  | Some t => t
  | None => EmptyString
  end.

(** ** [api/index.ts]: the serverless entry point (dev-token credential) *)

Module Api.

(** [sendHtml]: what it calls [res.status], [res.type] and [res.send] with,
    or the exception of a conversion in the template.  What [res.send] then
    puts on the wire depends on the request, see [res_send]. *)
Definition sendHtml (o : opts) : completion response :=
  let returnTo := default_returnTo (returnTo o) in
  and_then (id_paragraph (id o)) (fun id_part =>
  and_then (ToString returnTo) (fun href =>
  Normal {|
    status := 200;
    media_type := res_type "html";
    html :=
      "<!doctype html>" ++ nl
      ++ "<meta charset=" ++ quote ++ "utf-8" ++ quote
      ++ "><style>body{font:16px system-ui;padding:24px}</style>" ++ nl
      ++ "<h1>" ++ heading (ok o) ++ "</h1>" ++ nl
      ++ id_part ++ message_paragraph (message o) ++ nl
      ++ "<p><a href=" ++ quote ++ href ++ quote ++ ">Continue</a></p>" ++ nl
      ++ "<script>location.replace(" ++ script_argument returnTo
      ++ ");</script>"
  |})).

Definition mutation : string :=
  nl ++ "      mutation($fields:[MetaobjectFieldInput!]!){" ++ nl
  ++ "        metaobjectCreate(metaobject:{type:" ++ quote ++ "review" ++ quote
  ++ ",fields:$fields}){" ++ nl
  ++ "          metaobject{ id } userErrors{ field message }" ++ nl
  ++ "        }" ++ nl
  ++ "      }".

(** [shop !== devShop] *)
Definition differs (shop : value) (devShop : option string) : bool :=
  match devShop with
  | Some d => negb (strict_equal_string shop d)
  | None => true
  end.

(** The [try] block, up to the argument of the [sendHtml] call it returns
    (every exit of the block is a [return sendHtml(res, ..)]). *)
Definition attempt (w : world) (req : request) : M opts :=
  let shop := shop_of req in
  let b := body_of req in
  let returnTo := return_target req in
  if negb (ToBoolean shop)
  then ret (mk_opts false returnTo Undefined (Some "Missing shop"))
  else
    let devShop := DEV_SHOP_DOMAIN w in
    let devToken := DEV_ADMIN_TOKEN w in
    if falsy devShop || falsy devToken || differs shop devShop
    then ret (mk_opts false returnTo Undefined
                (Some "App not authorized for this shop"))
    else
      productGid <- lift (toProductGid
                            (coalesce (member b "product_id")
                                      (member b "productId"))) ;;
      rating <- lift (ToNumber (member b "rating")) ;;
      title <- lift (ToString (coalesce (member b "title") (Str EmptyString))) ;;
      body <- lift (ToString (coalesce (member b "body") (Str EmptyString))) ;;
      author <- lift (ToString (coalesce (member b "author") (Str EmptyString))) ;;
      email <- lift (ToString (coalesce (member b "email") (Str EmptyString))) ;;
      match productGid with
      | None =>
          ret (mk_opts false returnTo Undefined (Some "Invalid product id"))
      | Some gid =>
          if String.eqb gid EmptyString
          then ret (mk_opts false returnTo Undefined (Some "Invalid product id"))
          else if rating_rejected rating
          then ret (mk_opts false returnTo Undefined (Some "Rating must be 1..5"))
          else
            let variables :=
              review_fields gid rating title body author email (now w) in
            host <- lift (ToString shop) ;;
            r <- fetch w {|
                   url := endpoint host;
                   http_method := "POST";
                   access_token := token_text devToken;
                   content_type := "application/json";
                   graphql_query := mutation;
                   graphql_fields := variables
                 |} ;;
            match snd r with
            | None =>
                ret (mk_opts false returnTo Undefined
                       (Some "API returned non-JSON"))
            | Some json =>
                let errs :=
                  coalesce (get_opt (metaobjectCreate json) "userErrors")
                           (Arr []) in
                if ToBoolean (member errs "length")
                then ret (mk_opts false returnTo Undefined
                            (Some "Validation error"))
                else
                  let id :=
                    get_opt (get_opt (metaobjectCreate json) "metaobject")
                            "id" in
                  ret (mk_opts true returnTo id None)
            end
      end.

(** The [/reviews/submit] handler: the [try] block, whose result [sendHtml]
    renders inside the block, and the [catch] block. *)
Definition submit (w : world) (req : request) : result * list event :=
  run (try_catch
         (o <- attempt w req ;; lift (sendHtml o))
         (lift (sendHtml (mk_opts false (return_target req) Undefined
                            (Some "Server error"))))).

End Api.

(** ** [web/index.ts]: the entry point on the Prisma session store

    Its [log] calls write to the console and leave the response alone; they
    are not part of the model. *)

Module Web.

(** [esc]: [String(v)] with every double quote replaced by [&quot;]; an
    absent [v] defaults to the empty string. *)
Definition esc (v : value) : completion string :=
  let v := match v with
           | Undefined => Str EmptyString
           | _ => v
           end in
  and_then (ToString v) (fun s => Normal (replace_quotes s)).

Definition title_text (ok : bool) : string :=
  if ok then "Thanks!" else "We couldn't save your review".

(** [sendHtml]: what it calls [res.status], [res.type] and [res.send] with,
    or the exception of a conversion in the template.  What [res.send] then
    puts on the wire depends on the request, see [res_send]. *)
Definition sendHtml (o : opts) : completion response :=
  let returnTo := default_returnTo (returnTo o) in
  and_then (id_paragraph (id o)) (fun id_part =>
  and_then (esc returnTo) (fun href =>
  Normal {|
    status := 200;
    media_type := res_type "text/html";
    html :=
      "<!doctype html>" ++ nl
      ++ "<meta charset=" ++ quote ++ "utf-8" ++ quote ++ ">" ++ nl
      ++ "<title>" ++ title_text (ok o) ++ "</title>" ++ nl
      ++ "<style>body{font:16px/1.4 system-ui, sans-serif; padding:24px}</style>"
      ++ nl
      ++ "<h1>" ++ heading (ok o) ++ "</h1>" ++ nl
      ++ id_part ++ nl
      ++ message_paragraph (message o) ++ nl
      ++ "<p><a href=" ++ quote ++ href ++ quote ++ ">Continue</a></p>" ++ nl
      ++ "<script>location.replace(" ++ script_argument returnTo
      ++ ");</script>"
  |})).

Definition mutation : string :=
  nl ++ "      mutation CreateReview($fields: [MetaobjectFieldInput!]!) {" ++ nl
  ++ "        metaobjectCreate(metaobject: { type: " ++ quote ++ "review"
  ++ quote ++ ", fields: $fields }) {" ++ nl
  ++ "          metaobject { id }" ++ nl
  ++ "          userErrors { field message }" ++ nl
  ++ "        }" ++ nl
  ++ "      }".

(** The [try] block, up to the argument of the [sendHtml] call it returns
    (every exit of the block is a [return sendHtml(res, ..)]). *)
Definition attempt (w : world) (req : request) : M opts :=
  let shop := shop_of req in
  let body := body_of req in
  let returnTo := return_target req in
  if negb (ToBoolean shop)
  then ret (mk_opts false returnTo Undefined (Some "Missing shop"))
  else
    productGid <- lift (toProductGid
                          (coalesce (member body "product_id")
                                    (member body "productId"))) ;;
    rating <- lift (ToNumber (member body "rating")) ;;
    title <- lift (ToString (coalesce (member body "title") (Str EmptyString))) ;;
    reviewBody <- lift (ToString (coalesce (member body "body") (Str EmptyString))) ;;
    author <- lift (ToString (coalesce (member body "author") (Str EmptyString))) ;;
    email <- lift (ToString (coalesce (member body "email") (Str EmptyString))) ;;
    match productGid with
    | None =>
        ret (mk_opts false returnTo Undefined (Some "Invalid product id"))
    | Some gid =>
        if String.eqb gid EmptyString
        then ret (mk_opts false returnTo Undefined (Some "Invalid product id"))
        else if rating_rejected rating
        then ret (mk_opts false returnTo Undefined (Some "Rating must be 1..5"))
        else
          accessToken <- findFirst w shop false ;;
          if falsy accessToken
          then ret (mk_opts false returnTo Undefined
                      (Some "App not authorized for this shop"))
          else
            let variables :=
              review_fields gid rating title reviewBody author email (now w) in
            host <- lift (ToString shop) ;;
            resp <- fetch w {|
                      url := endpoint host;
                      http_method := "POST";
                      access_token := token_text accessToken;
                      content_type := "application/json";
                      graphql_query := mutation;
                      graphql_fields := variables
                    |} ;;
            match snd resp with
            | None =>
                ret (mk_opts false returnTo Undefined
                       (Some "API returned non-JSON"))
            | Some json =>
                let errs :=
                  coalesce (get_opt (metaobjectCreate json) "userErrors")
                           (Arr []) in
                if ToBoolean (member errs "length")
                then ret (mk_opts false returnTo Undefined
                            (Some "Validation error"))
                else
                  let id :=
                    get_opt (get_opt (metaobjectCreate json) "metaobject")
                            "id" in
                  ret (mk_opts true returnTo id None)
            end
    end.

(** The [/reviews/submit] handler: the [try] block, whose result [sendHtml]
    renders inside the block, and the [catch] block. *)
Definition submit (w : world) (req : request) : result * list event :=
  run (try_catch
         (o <- attempt w req ;; lift (sendHtml o))
         (lift (sendHtml (mk_opts false (return_target req) Undefined
                            (Some "Server error"))))).

End Web.

(** ** The vocabulary of the specification

    The specification names the results of a submission ([Outcome]) and has
    the Outcome Reporter turn each into the rendering directive handed to
    [sendHtml].  The handlers have no such type: they pass the directive
    literally at each [return].  The definitions below follow the
    specification's words, with the message literal of the matching return
    site, so that the claims can be stated against the handlers. *)

Inductive reason : Type :=
| MissingTenant
| InvalidProductReference
| InvalidRating
| Unauthorized
| RemoteValidationError
| RemoteUnparseable
| TransportError.

Inductive Outcome : Type :=
| Success (id : value)
| Failure (r : reason).

Definition message_of (r : reason) : string :=
  match r with
  | MissingTenant => "Missing shop"
  | InvalidProductReference => "Invalid product id"
  | InvalidRating => "Rating must be 1..5"
  | Unauthorized => "App not authorized for this shop"
  | RemoteValidationError => "Validation error"
  | RemoteUnparseable => "API returned non-JSON"
  | TransportError => "Server error"
  end.

(** The Outcome Reporter of the specification: outcome and return target to
    rendering directive. *)
Definition directive (o : Outcome) (returnTo : value) : opts :=
  match o with
  | Success id => mk_opts true returnTo id None
  | Failure r => mk_opts false returnTo Undefined (Some (message_of r))
  end.

(** The canonical product reference in the specification's words,
    [gid://<namespace>/Product/<positive integer>], with the namespace of the
    source. *)
Definition positive_integer (s : string) : bool :=
  match span_digits 10 (list_ascii_of_string s) with
  | ((_ :: _) as ds, []) => 0 <? digits_value 10 ds
  | _ => false
  end.

Definition canonical_form (s : string) : bool :=
  prefix gid_prefix s
  && positive_integer
       (substring (String.length gid_prefix)
                  (String.length s - String.length gid_prefix) s).

(** A finite number greater than zero. *)
Definition positive_finite (n : number) : bool :=
  isFinite n && greater_than n 0.

(** ** The handlers as decision procedures

    The fields of a submission after the six conversions at the head of the
    [try] block, the directive chosen for a remote reply, and each [attempt]
    rewritten as the chain of decisions it makes, with the blocking calls
    made so far. *)

Definition product_field (req : request) : value :=
  coalesce (member (body_of req) "product_id") (member (body_of req) "productId").

Definition rating_field (req : request) : value := member (body_of req) "rating".

Definition text_field (req : request) (k : string) : value :=
  coalesce (member (body_of req) k) (Str EmptyString).

Record submission : Type := mk_submission {
  productGid : option string;
  rating : number;
  title : string;
  reviewBody : string;
  author : string;
  email : string
}.

(** [toProductGid(..)], [Number(..)] and the four [String(..)], in the order
    of the source; the first that throws ends them. *)
Definition converted (req : request) : completion submission :=
  and_then (toProductGid (product_field req)) (fun g =>
  and_then (ToNumber (rating_field req)) (fun n =>
  and_then (ToString (text_field req "title")) (fun t =>
  and_then (ToString (text_field req "body")) (fun b =>
  and_then (ToString (text_field req "author")) (fun a =>
  and_then (ToString (text_field req "email")) (fun e =>
  Normal (mk_submission g n t b a e))))))).

(** [errs.length] is truthy, for [errs] the [userErrors] of the reply. *)
Definition has_user_errors (json : value) : bool :=
  ToBoolean
    (member (coalesce (get_opt (metaobjectCreate json) "userErrors") (Arr []))
            "length").

(** [json?.data?.metaobjectCreate?.metaobject?.id] *)
Definition created_id (json : value) : value :=
  get_opt (get_opt (metaobjectCreate json) "metaobject") "id".

(** The end of the [try] block: the reply of the remote call to the
    directive, or to the exception of a rejected call. *)
Definition reply_directive (returnTo : value) (reply : fetch_reply)
  : completion opts :=
  match reply with
  | FetchRejects | TextRejects => Throw NetworkError
  | Body _ None => Normal (directive (Failure RemoteUnparseable) returnTo)
  | Body _ (Some json) =>
      if has_user_errors json
      then Normal (directive (Failure RemoteValidationError) returnTo)
      else Normal (directive (Success (created_id json)) returnTo)
  end.

Definition review_request (mutation token host : string) (s : submission)
    (t : Z) : fetch_request :=
  {| url := endpoint host;
     http_method := "POST";
     access_token := token;
     content_type := "application/json";
     graphql_query := mutation;
     graphql_fields :=
       review_fields (token_text (productGid s)) (rating s) (title s)
                     (reviewBody s) (author s) (email s) t |}.

(** The remote call of a validated submission with credential [token]. *)
Definition remote_stage (mutation : string) (w : world) (req : request)
    (s : submission) (token : string) (before : list event)
  : completion opts * list event :=
  match ToString (shop_of req) with
  | Throw e => (Throw e, before)
  | Normal host =>
      let r := review_request mutation token host s (now w) in
      (reply_directive (return_target req) (remote w r),
       (before ++ [Request r])%list)
  end.

Definition web_outline (w : world) (req : request)
  : completion opts * list event :=
  let rt := return_target req in
  if negb (ToBoolean (shop_of req))
  then (Normal (directive (Failure MissingTenant) rt), [])
  else
    match converted req with
    | Throw e => (Throw e, [])
    | Normal s =>
        if falsy (productGid s)
        then (Normal (directive (Failure InvalidProductReference) rt), [])
        else if rating_rejected (rating s)
        then (Normal (directive (Failure InvalidRating) rt), [])
        else
          let looked := [Lookup (shop_of req) false] in
          match session_findFirst w (shop_of req) false with
          | FindRejects => (Throw DbError, looked)
          | NoSession => (Normal (directive (Failure Unauthorized) rt), looked)
          | Session token =>
              if String.eqb token EmptyString
              then (Normal (directive (Failure Unauthorized) rt), looked)
              else remote_stage Web.mutation w req s token looked
          end
    end.

(** The tenant has no dev-store credential:
    [!devShop || !devToken || shop !== devShop]. *)
Definition api_unauthorized (w : world) (req : request) : bool :=
  falsy (DEV_SHOP_DOMAIN w) || falsy (DEV_ADMIN_TOKEN w)
  || Api.differs (shop_of req) (DEV_SHOP_DOMAIN w).

Definition api_outline (w : world) (req : request)
  : completion opts * list event :=
  let rt := return_target req in
  if negb (ToBoolean (shop_of req))
  then (Normal (directive (Failure MissingTenant) rt), [])
  else if api_unauthorized w req
  then (Normal (directive (Failure Unauthorized) rt), [])
  else
    match converted req with
    | Throw e => (Throw e, [])
    | Normal s =>
        if falsy (productGid s)
        then (Normal (directive (Failure InvalidProductReference) rt), [])
        else if rating_rejected (rating s)
        then (Normal (directive (Failure InvalidRating) rt), [])
        else remote_stage Api.mutation w req s
               (token_text (DEV_ADMIN_TOKEN w)) []
    end.

(** The tenant has no usable offline session: [findFirst] finds none, or one
    whose token is empty. *)
Definition web_no_credential (w : world) (req : request) : bool :=
  match session_findFirst w (shop_of req) false with
  | FindRejects => false
  | NoSession => true
  | Session token => String.eqb token EmptyString
  end.

(** What [submit] makes of the end of its [try] block: the page of the
    directive, or the page of the [catch] block when the block or its
    rendering threw. *)
Definition respond (send : opts -> completion response) (rt : value)
    (c : completion opts) : result :=
  match c with
  | Normal o =>
      match send o with
      | Normal page => Sent page
      | Throw _ => finish (send (directive (Failure TransportError) rt))
      end
  | Throw _ => finish (send (directive (Failure TransportError) rt))
  end.


(** The first failing check of a list of checks in evaluation order. *)
Definition first_failure (checks : list (bool * reason)) : option reason :=
  match find (fun c => fst c) checks with
  | Some c => Some (snd c)
  | None => None
  end.

(** The order of checks the specification gives: tenant, product reference,
    rating, credential. *)
Definition specified_checks
    (tenant_missing product_invalid rating_invalid credential_missing : bool)
  : list (bool * reason) :=
  [ (tenant_missing, MissingTenant);
    (product_invalid, InvalidProductReference);
    (rating_invalid, InvalidRating);
    (credential_missing, Unauthorized) ].

(** The checks of [web/index.ts], which come in the specified order. *)
Definition web_checks (w : world) (req : request) (s : submission)
  : list (bool * reason) :=
  specified_checks (negb (ToBoolean (shop_of req))) (falsy (productGid s))
                   (rating_rejected (rating s)) (web_no_credential w req).

(** The checks of [api/index.ts], in the order of that file: the dev-store
    gate comes right after the tenant check. *)
Definition api_checks (w : world) (req : request) (s : submission)
  : list (bool * reason) :=
  [ (negb (ToBoolean (shop_of req)), MissingTenant);
    (api_unauthorized w req, Unauthorized);
    (falsy (productGid s), InvalidProductReference);
    (rating_rejected (rating s), InvalidRating) ].

(** The standardized date-time text: [YYYY-MM-DDTHH:mm:ss.sssZ], the year
    with four digits or with a sign and six. *)
Definition iso_time_shape (cs : list ascii) : bool :=
  match cs with
  | [d1; m1; m2; d2; a1; a2; t; h1; h2; c1; n1; n2; c2; s1; s2; p; f1; f2; f3; z] =>
      Ascii.eqb d1 "-" && is_digit m1 && is_digit m2
      && Ascii.eqb d2 "-" && is_digit a1 && is_digit a2
      && Ascii.eqb t "T" && is_digit h1 && is_digit h2
      && Ascii.eqb c1 ":" && is_digit n1 && is_digit n2
      && Ascii.eqb c2 ":" && is_digit s1 && is_digit s2
      && Ascii.eqb p "." && is_digit f1 && is_digit f2 && is_digit f3
      && Ascii.eqb z "Z"
  | _ => false
  end.

Definition iso_shape (s : string) : bool :=
  match list_ascii_of_string s with
  | y0 :: y1 :: y2 :: y3 :: y4 :: y5 :: y6 :: rest =>
      if is_digit y0
      then is_digit y1 && is_digit y2 && is_digit y3
           && iso_time_shape (y4 :: y5 :: y6 :: rest)
      else (Ascii.eqb y0 "+" || Ascii.eqb y0 "-")
           && is_digit y1 && is_digit y2 && is_digit y3
           && is_digit y4 && is_digit y5 && is_digit y6
           && iso_time_shape rest
  | _ => false
  end.

(** The decoding of a directive back to its outcome. *)
Definition reason_of_message (m : string) : option reason :=
  find (fun r => String.eqb (message_of r) m)
       [MissingTenant; InvalidProductReference; InvalidRating; Unauthorized;
        RemoteValidationError; RemoteUnparseable; TransportError].

Definition outcome_of (d : opts) : option Outcome :=
  if ok d then Some (Success (id d))
  else match message d with
       | Some m => option_map Failure (reason_of_message m)
       | None => None
       end.

(** ** Concrete runs

    The tenant, replies and submissions of the end-to-end scenarios of the
    specification. *)

Definition created_reply_json : value :=
  Obj [("data",
        Obj [("metaobjectCreate",
              Obj [("metaobject", Obj [("id", Str "gid://x/Metaobject/1")]);
                   ("userErrors", Arr [])])])].

Definition rejected_reply_json : value :=
  Obj [("data",
        Obj [("metaobjectCreate",
              Obj [("metaobject", Null);
                   ("userErrors",
                    Arr [Obj [("field", Str "rating");
                              ("message", Str "bad")]])])])].

(** A reply whose body is the JSON text of [j]. *)
Definition json_reply (j : value) : fetch_reply :=
  Body (script_argument j) (Some j).

(** A world where shop.example is the dev store and has an offline session,
    and where the remote side answers [reply]. *)
Definition world_with (reply : fetch_reply) : world :=
  {| DEV_SHOP_DOMAIN := Some "shop.example";
     DEV_ADMIN_TOKEN := Some "shpat_dev";
     session_findFirst := fun shop isOnline =>
       if strict_equal_string shop "shop.example" && negb isOnline
       then Session "shpat_offline"
       else NoSession;
     remote := fun _ => reply;
     now := 1730419200000 |}.

(** A form post with [shop] in the query string. *)
Definition submission_request (shop : string) (fields : list (string * value))
  : request :=
  {| query := [("shop", Str shop)];
     shop_domain_header := None;
     body := Obj fields |}.

(** Shop other.example, unknown to the credential store, with a valid product
    and the rating 0. *)
Definition unknown_shop_bad_rating : request :=
  submission_request "other.example"
    [("product_id", Num (Finite 42)); ("rating", Str "0")].

(** Scenario A: product 42 and rating 5 from shop.example. *)
Definition valid_submission : request :=
  submission_request "shop.example"
    [("product_id", Num (Finite 42)); ("rating", Str "5")].

(** A JSON post whose [return_to] is an object with a [toString] property. *)
Definition opaque_return_target : request :=
  submission_request "shop.example"
    [("product_id", Num (Finite 42)); ("rating", Str "5");
     ("return_to", Obj [("toString", Num (Finite 1))])].

(** ** What [res.send] makes of a page

    [sendHtml] ends in Express's [res.send].  For a string body [res.send]
    writes the string in UTF-8, computes its entity tag and asks [req.fresh]:
    a [GET] or [HEAD] request whose [If-None-Match] validates against that
    tag is answered with status 304, without [Content-Type] and without a
    body; a [HEAD] request gets the headers and no body.  The freshness test
    is that of Express 4 (package fresh, 0.5); the entity tag, a hash of the
    body, is kept as a function [etag_of]. *)

(** The part of the inbound request [res.send] reads: [req.method] and the
    headers [if-none-match], [if-modified-since] and [cache-control]. *)
Record conditions : Type := mk_conditions {
  req_method : string;
  if_none_match : option string;
  if_modified_since : option string;
  cache_control : option string
}.

(** What goes out: the status line, the [Content-Type] header and the bytes
    of the body. *)
Record wire : Type := mk_wire {
  wire_status : Z;
  wire_content_type : option string;
  wire_body : string
}.

(** The UTF-8 bytes of a string of code units below 256. *)
Definition utf8_unit (c : ascii) : string :=
  let n := code c in
  if n <? 128 then String c EmptyString
  else String (ascii_of_nat (Z.to_nat (192 + n / 64)))
         (String (ascii_of_nat (Z.to_nat (128 + n mod 64))) EmptyString).

Fixpoint utf8 (s : string) : string :=
  match s with
  | EmptyString => EmptyString
  | String c rest => utf8_unit c ++ utf8 rest
  end.

(** A header that is absent, or present and empty, is falsy. *)
Definition header_set (h : option string) : bool :=
  match h with
  | Some s => negb (String.eqb s EmptyString)
  | None => false
  end.

Definition header_text (h : option string) : string :=
  match h with
  | Some s => s
  | None => EmptyString
  end.

(** The pieces of [cs] between its commas. *)
Fixpoint split_commas (cs : list ascii) : list (list ascii) :=
  match cs with
  | [] => [[]]
  | c :: rest =>
      if code c =? 44 then [] :: split_commas rest
      else match split_commas rest with
           | piece :: pieces => (c :: piece) :: pieces
           | [] => [[c]]
           end
  end.

(** The test of the cache-control header against the pattern
    [(?:^|,)\s*?no-cache\s*?(?:,|$)]: one of its pieces is [no-cache] with
    white space around. *)
Definition no_cache (h : option string) : bool :=
  match h with
  | Some s =>
      negb (String.eqb s EmptyString)
      && existsb
           (fun piece =>
              String.eqb (string_of_list_ascii (trim piece)) "no-cache")
           (split_commas (list_ascii_of_string s))
  | None => false
  end.

Fixpoint drop_spaces (cs : list ascii) : list ascii :=
  match cs with
  | c :: rest => if code c =? 32 then drop_spaces rest else cs
  | [] => []
  end.

(** [parseTokenList]: the pieces between commas, without the spaces before
    and after. *)
Definition parseTokenList (s : string) : list string :=
  map (fun piece =>
         string_of_list_ascii (rev (drop_spaces (rev (drop_spaces piece)))))
      (split_commas (list_ascii_of_string s)).

(** [match === etag || match === 'W/' + etag || 'W/' + match === etag] *)
Definition tag_matches (etag token : string) : bool :=
  String.eqb token etag
  || String.eqb token ("W/" ++ etag)
  || String.eqb ("W/" ++ token) etag.

(** [fresh(req.headers, { etag, 'last-modified': undefined })]: the handlers
    set no [Last-Modified]. *)
Definition fresh (c : conditions) (etag : string) : bool :=
  let noneMatch := header_text (if_none_match c) in
  if negb (header_set (if_modified_since c))
     && negb (header_set (if_none_match c))
  then false
  else if no_cache (cache_control c) then false
  else if header_set (if_none_match c)
          && negb (String.eqb noneMatch "*")
          && (String.eqb etag EmptyString
              || negb (existsb (tag_matches etag) (parseTokenList noneMatch)))
  then false
  else if header_set (if_modified_since c) then false
  else true.

(** [req.fresh] *)
Definition req_fresh (c : conditions) (status : Z) (etag : string) : bool :=
  (String.eqb (req_method c) "GET" || String.eqb (req_method c) "HEAD")
  && (((200 <=? status) && (status <? 300)) || (status =? 304))
  && fresh c etag.

(** [res.send(body)] for a string [body] that is [chunk] in UTF-8, after
    [res.status(..)] and [res.type(..)] of a text type.  The routes that use
    it send with status 200. *)
Definition send_bytes (c : conditions) (etag_of : string -> string)
    (status : Z) (media : string) (chunk : string) : wire :=
  let status := if req_fresh c status (etag_of chunk) then 304 else status in
  if (status =? 204) || (status =? 304)
  then mk_wire status None EmptyString
  else mk_wire status (Some (media ++ "; charset=utf-8"))
         (if String.eqb (req_method c) "HEAD" then EmptyString else chunk).

Definition res_send (c : conditions) (etag_of : string -> string)
    (r : response) : wire :=
  send_bytes c etag_of (status r) (media_type r) (utf8 (html r)).

(** What the client of a run gets: nothing when the exception left the
    handler. *)
Definition delivered (c : conditions) (etag_of : string -> string)
    (res : result) : option wire :=
  match res with
  | Sent r => Some (res_send c etag_of r)
  | Uncaught _ => None
  end.

(** A conditional [GET] that names no tag. *)
Definition conditional_get : conditions :=
  mk_conditions "GET" (Some "*") None None.

(** The form post of the storefront. *)
Definition plain_post : conditions := mk_conditions "POST" None None None.

(** An entity tag for the concrete runs.  That of Express is a hash of the
    body; here the body itself stands between the quotes. *)
Definition body_tag (chunk : string) : string :=
  "W/" ++ quote ++ chunk ++ quote.

(** A [GET] of the endpoint with the shop in the query string and no body:
    the body parsers leave the empty object. *)
Definition bare_get : request :=
  mk_request [("shop", Str "shop.example")] None (Obj []).

(** ** Vocabulary for the pages

    The number of double quotes of a text, and the characters between the
    quotes of a JSON string literal: no double quote, no control character,
    and a backslash only at the head of an escape. *)

Fixpoint count_quotes (s : string) : nat :=
  match s with
  | EmptyString => O
  | String c rest =>
      if code c =? 34 then S (count_quotes rest) else count_quotes rest
  end.

Definition is_hex (c : ascii) : bool :=
  is_digit c
  || ((97 <=? code c) && (code c <=? 102))
  || ((65 <=? code c) && (code c <=? 70)).

(** The letters of the two-character escapes: quote, backslash, slash, b, f,
    n, r, t. *)
Definition is_escape_letter (c : ascii) : bool :=
  existsb (Z.eqb (code c)) [34; 92; 47; 98; 102; 110; 114; 116].

Fixpoint json_chars (cs : list ascii) : bool :=
  match cs with
  | [] => true
  | c :: rest =>
      if code c =? 92 then
        match rest with
        | [] => false
        | e :: rest1 =>
            if is_escape_letter e then json_chars rest1
            else if code e =? 117 then
              match rest1 with
              | h1 :: h2 :: h3 :: h4 :: rest2 =>
                  is_hex h1 && is_hex h2 && is_hex h3 && is_hex h4
                  && json_chars rest2
              | _ => false
              end
            else false
        end
      else (32 <=? code c) && negb (code c =? 34) && json_chars rest
  end.

(** A character that [JSON.stringify] copies. *)
Definition copied (c : ascii) : bool :=
  (32 <=? code c) && negb (code c =? 34) && negb (code c =? 92).

Fixpoint all_copied (s : string) : bool :=
  match s with
  | EmptyString => true
  | String c rest => copied c && all_copied rest
  end.

(** A remote side whose answer depends on the address and the fields of a
    call alone. *)
Definition answers_by_content (w : world) : Prop :=
  forall r1 r2,
    url r1 = url r2 -> graphql_fields r1 = graphql_fields r2 ->
    remote w r1 = remote w r2.

(** ** The other routes

    The admin home of both entry points, and the last route and the port of
    [web/index.ts].  The admin homes set no status before they send: the
    status is the initial 200 of a response.  Their pages hold characters
    above U+00FF, so the pages are given as [res.send] writes them, in
    UTF-8. *)

(** The UTF-8 bytes of U+1F389 and of U+2022. *)
Definition party_popper : string :=
  String (ascii_of_nat 240)
    (String (ascii_of_nat 159)
       (String (ascii_of_nat 142) (String (ascii_of_nat 137) EmptyString))).

Definition bullet : string :=
  String (ascii_of_nat 226)
    (String (ascii_of_nat 128) (String (ascii_of_nat 162) EmptyString)).

(** [process.env.NAME]: a string, or [undefined] when the variable is not
    set. *)
Definition env_value (v : option string) : value :=
  match v with
  | Some s => Str s
  | None => Undefined
  end.

(** [process.env.NAME || EMPTY], with EMPTY the empty string literal. *)
Definition env_or_empty (v : option string) : string :=
  match v with
  | Some s => s
  | None => EmptyString
  end.

(** [s || d] for a string [s]. *)
Definition or_text (s d : string) : string :=
  if String.eqb s EmptyString then d else s.

(** [String(req.query.k || EMPTY)], with EMPTY the empty string literal. *)
Definition query_text (req : request) (k : string) : completion string :=
  ToString (or_else (query_param req k) (Str EmptyString)).

(** The page of [app.get("/", ..)] in [api/index.ts], in UTF-8. *)
Definition api_home_bytes (shop host apiKey : string) : string :=
  "<!doctype html><meta charset=" ++ quote ++ "utf-8" ++ quote ++ "/>"
  ++ nl ++ "<title>App Reviews</title>" ++ nl ++ "<script src=" ++ quote
  ++ "https://unpkg.com/@shopify/app-bridge@3" ++ quote ++ "></script>"
  ++ nl ++ "<body style=" ++ quote ++ "font:14px system-ui;padding:24px"
  ++ quote ++ ">" ++ nl ++ "  <h1>App Reviews</h1>" ++ nl
  ++ "  <p>Admin home loaded " ++ party_popper ++ "</p>" ++ nl
  ++ "  <small>shop: " ++ utf8 (or_text shop "(unknown)") ++ " " ++ bullet
  ++ " host: " ++ utf8 (or_text host "(missing)") ++ "</small>" ++ nl
  ++ "  <script>" ++ nl ++ "    try {" ++ nl
  ++ "      const AB = (window as any)[" ++ quote ++ "app-bridge"
  ++ quote ++ "];" ++ nl ++ "      if (AB && " ++ quote ++ utf8 apiKey
  ++ quote ++ " && " ++ quote ++ utf8 host ++ quote
  ++ ") AB.createApp({ apiKey: " ++ quote ++ utf8 apiKey ++ quote
  ++ ", host: " ++ quote ++ utf8 host ++ quote ++ " });" ++ nl
  ++ "    } catch (e) {}" ++ nl ++ "  </script>" ++ nl ++ "</body>".

(** The page of [app.get("/", ..)] in [web/index.ts], in UTF-8. *)
Definition web_home_bytes (shop host apiKey : string) : string :=
  "<!doctype html>" ++ nl ++ "<html>" ++ nl ++ "  <head>" ++ nl
  ++ "    <meta charset=" ++ quote ++ "utf-8" ++ quote ++ "/>" ++ nl
  ++ "    <meta name=" ++ quote ++ "viewport" ++ quote ++ " content="
  ++ quote ++ "width=device-width,initial-scale=1" ++ quote ++ "/>" ++ nl
  ++ "    <title>App Reviews</title>" ++ nl ++ "    <script src="
  ++ quote ++ "https://unpkg.com/@shopify/app-bridge@3" ++ quote
  ++ "></script>" ++ nl ++ "    <style>" ++ nl
  ++ "      body { font: 14px/1.5 system-ui, sans-serif; padding: 24px; }"
  ++ nl
  ++ "      .card { max-width: 720px; padding: 16px; border: 1px solid #e5e7eb; border-radius: 8px; }"
  ++ nl ++ "    </style>" ++ nl ++ "  </head>" ++ nl ++ "  <body>" ++ nl
  ++ "    <div class=" ++ quote ++ "card" ++ quote ++ ">" ++ nl
  ++ "      <h1>App Reviews</h1>" ++ nl
  ++ "      <p>Admin home is loaded inside Shopify " ++ party_popper
  ++ "</p>" ++ nl ++ "      <p><small>shop: " ++ utf8 (or_text shop "(unknown)")
  ++ " | host: " ++ utf8 (or_text host "(missing)") ++ " </small></p>" ++ nl
  ++ "      <p>Use your product page on the storefront to submit reviews via the App Proxy form.</p>"
  ++ nl ++ "      <ul>" ++ nl
  ++ "        <li>Health: <code>/reviews/ping</code></li>" ++ nl
  ++ "        <li>Proxy submit: <code>/reviews/submit</code></li>" ++ nl
  ++ "      </ul>" ++ nl ++ "    </div>" ++ nl ++ nl ++ "    <script>"
  ++ nl ++ "      try {" ++ nl ++ "        const AppBridge = window["
  ++ quote ++ "app-bridge" ++ quote ++ "];" ++ nl
  ++ "        if (AppBridge && " ++ quote ++ utf8 apiKey ++ quote ++ " && "
  ++ quote ++ utf8 host ++ quote ++ ") {" ++ nl
  ++ "          AppBridge.createApp({ apiKey: " ++ quote ++ utf8 apiKey
  ++ quote ++ ", host: " ++ quote ++ utf8 host ++ quote ++ " });" ++ nl
  ++ "        }" ++ nl ++ "      } catch (e) {}" ++ nl ++ "    </script>"
  ++ nl ++ "  </body>" ++ nl ++ "</html>".

(** [app.get("/", ..)] of [api/index.ts]: [res.type("html").send(..)]. *)
Definition api_home (c : conditions) (etag_of : string -> string)
    (req : request) (SHOPIFY_API_KEY : option string) : completion wire :=
  and_then (query_text req "shop") (fun shop =>
  and_then (query_text req "host") (fun host =>
  let apiKey := env_or_empty SHOPIFY_API_KEY in
  Normal (send_bytes c etag_of 200 (res_type "html")
            (api_home_bytes shop host apiKey)))).

(** [app.get("/", ..)] of [web/index.ts]: [res.type("html").send(..)]. *)
Definition web_home (c : conditions) (etag_of : string -> string)
    (req : request) (SHOPIFY_API_KEY : option string) : completion wire :=
  and_then (query_text req "shop") (fun shop =>
  and_then (query_text req "host") (fun host =>
  let apiKey := env_or_empty SHOPIFY_API_KEY in
  Normal (send_bytes c etag_of 200 (res_type "html")
            (web_home_bytes shop host apiKey)))).

(** The last route of [web/index.ts]:
    [res.status(404).json({ error: .. })], whose body is the
    [JSON.stringify] of the object. *)
Definition web_not_found (method path : string) : response :=
  {| status := 404;
     media_type := "application/json";
     html :=
       match JSON_stringify
               (Obj [("error", Str ("No route: " ++ method ++ " " ++ path))])
       with
       | Some t => t
       | None => EmptyString
       end |}.

(** [Number(process.env.PORT) || 3000] *)
Definition web_port (PORT : option string) : completion value :=
  and_then (ToNumber (env_value PORT)) (fun n =>
  Normal (or_else (Num n) (Num (Finite 3000)))).

(** [needle] occurs in [hay]. *)
Fixpoint occurs (needle hay : string) : bool :=
  prefix needle hay
  || match hay with
     | EmptyString => false
     | String _ rest => occurs needle rest
     end.

(** * Properties *)

(** ** Numbers: printing a binary64 value and reading it back *)

Lemma round64_Qeq (p q : Q) : (p == q)%Q -> round64 p = round64 q.
Proof. intros H. unfold round64. now rewrite (Qred_complete _ _ H). Qed.

Lemma number_eqb_Qeq (n : number) (p q : Q) :
  (p == q)%Q -> number_eqb n (Finite p) = number_eqb n (Finite q).
Proof.
  intros H. destruct n as [| |r]; try reflexivity. cbn.
  destruct (Qeq_bool r p) eqn:E1, (Qeq_bool r q) eqn:E2; try reflexivity.
  - apply Qeq_bool_iff in E1. apply Qeq_bool_neq in E2. exfalso. apply E2.
    now rewrite E1.
  - apply Qeq_bool_iff in E2. apply Qeq_bool_neq in E1. exfalso. apply E1.
    now rewrite E2, H.
Qed.

Lemma Qmake_1_inv (z : Z) :
  0 < z -> (1 # Z.to_pos z == / inject_Z z)%Q.
Proof. destruct z as [|p|p]; try lia. reflexivity. Qed.

Lemma pow10_Qpower (e : Z) : (pow10 e == inject_Z 10 ^ e)%Q.
Proof.
  unfold pow10. destruct (0 <=? e) eqn:E.
  - apply Z.leb_le in E. now apply Zpower_Qpower.
  - apply Z.leb_gt in E.
    assert (P : 0 < 10 ^ (- e)) by (apply Z.pow_pos_nonneg; lia).
    rewrite (Qmake_1_inv _ P).
    rewrite (Zpower_Qpower 10 (- e)) by lia.
    rewrite <- Qpower_opp. now replace (- - e) with e by lia.
Qed.

Lemma pow10_add (a b : Z) : (pow10 (a + b) == pow10 a * pow10 b)%Q.
Proof.
  rewrite !pow10_Qpower. apply Qpower_plus. discriminate.
Qed.

Lemma pow10_0 : (pow10 0 == 1)%Q.
Proof. reflexivity. Qed.

Lemma pow10_pos (e : Z) : (0 < pow10 e)%Q.
Proof.
  unfold pow10. destruct (0 <=? e) eqn:E.
  - apply Z.leb_le in E. unfold Qlt. cbn.
    assert (0 < 10 ^ e) by (apply Z.pow_pos_nonneg; lia). lia.
  - reflexivity.
Qed.

Lemma pow10_cancel (a : Z) : (pow10 a * pow10 (- a) == 1)%Q.
Proof. rewrite <- pow10_add. now replace (a + - a) with 0 by lia. Qed.

(** The denominator of a binary64 value in lowest terms is a power of two. *)

Lemma Qred_den_divide (q : Q) : (Zpos (Qden (Qred q)) | Zpos (Qden q)).
Proof.
  destruct q as [a b]. unfold Qred.
  pose proof (Z.ggcd_correct_divisors a (Zpos b)) as H.
  pose proof (Z.ggcd_gcd a (Zpos b)) as G.
  destruct (Z.ggcd a (Zpos b)) as [g [aa bb]]. cbn in *.
  destruct H as [_ Hb].
  assert (0 <= g) by (rewrite G; apply Z.gcd_nonneg).
  assert (0 < bb) by nia.
  rewrite Z2Pos.id by lia. exists g. lia.
Qed.

Lemma divisor_of_power_of_two (j : nat) (d : Z) :
  0 < d -> (d | 2 ^ Z.of_nat j) -> exists i, 0 <= i /\ d = 2 ^ i.
Proof.
  revert d. induction j as [|j IH]; intros d Hd Hdiv.
  - exists 0. split; [lia|]. cbn in Hdiv.
    apply Z.divide_1_r_nonneg in Hdiv; lia.
  - rewrite Nat2Z.inj_succ, Z.pow_succ_r in Hdiv by lia.
    destruct (Z.even d) eqn:E.
    + apply Z.even_spec in E. destruct E as [d' ->].
      destruct (IH d') as (i & Hi & ->).
      * lia.
      * destruct Hdiv as [c Hc]. exists c. lia.
      * exists (i + 1). split; [lia|]. rewrite Z.pow_add_r by lia. lia.
    + apply IH; [exact Hd|].
      apply Z.gauss with 2; [exact Hdiv|].
      assert (G : (Z.gcd d 2 | 2)) by apply Z.gcd_divide_r.
      assert (G' : (Z.gcd d 2 | d)) by apply Z.gcd_divide_l.
      pose proof (Z.gcd_nonneg d 2) as Gn.
      apply Z.divide_pos_le in G; [|lia].
      assert (C : Z.gcd d 2 = 0 \/ Z.gcd d 2 = 1 \/ Z.gcd d 2 = 2) by lia.
      destruct C as [C|[C|C]]; [|exact C|].
      * rewrite C in G'. destruct G' as [c Hc]. lia.
      * rewrite C in G'. destruct G' as [c Hc].
        rewrite Hc, Z.even_mul in E. cbn in E.
        now rewrite orb_true_r in E.
Qed.

Lemma Qred_dyadic (w : Q) (j : Z) :
  0 <= j -> Zpos (Qden w) = 2 ^ j ->
  exists i, 0 <= i /\ Zpos (Qden (Qred w)) = 2 ^ i.
Proof.
  intros Hj Hw. apply (divisor_of_power_of_two (Z.to_nat j)); [lia|].
  rewrite Z2Nat.id by lia. rewrite <- Hw. apply Qred_den_divide.
Qed.

Lemma of_spec_float_dyadic (x : spec_float) (u : Q) :
  of_spec_float x = Finite u -> exists i, 0 <= i /\ Zpos (Qden u) = 2 ^ i.
Proof.
  destruct x as [s|s| |s m e]; cbn; try discriminate.
  - intros [= <-]. now exists 0.
  - intros [= <-].
    apply (Qred_dyadic _ (if 0 <=? e then 0 else - e)).
    + destruct (0 <=? e) eqn:E; [lia|]. apply Z.leb_gt in E. lia.
    + destruct (0 <=? e) eqn:E; destruct s; cbn; try reflexivity.
      * apply Z.leb_gt in E. rewrite Z2Pos.id; [reflexivity|].
        apply Z.pow_pos_nonneg; lia.
      * apply Z.leb_gt in E. rewrite Z2Pos.id; [reflexivity|].
        apply Z.pow_pos_nonneg; lia.
Qed.

Lemma round64_dyadic (q u : Q) :
  round64 q = Finite u -> exists i, 0 <= i /\ Zpos (Qden u) = 2 ^ i.
Proof.
  unfold round64. destruct (Qnum (Qred q)).
  - intros [= <-]. now exists 0.
  - apply of_spec_float_dyadic.
  - apply of_spec_float_dyadic.
Qed.

Lemma of_spec_float_reduced (x : spec_float) (u : Q) :
  of_spec_float x = Finite u -> Qred u = u.
Proof.
  destruct x as [s|s| |s m e]; cbn; try discriminate.
  - now intros [= <-].
  - intros [= <-]. apply Qred_complete, Qred_correct.
Qed.

Lemma round64_reduced (q u : Q) : round64 q = Finite u -> Qred u = u.
Proof.
  unfold round64. destruct (Qnum (Qred q)).
  - now intros [= <-].
  - apply of_spec_float_reduced.
  - apply of_spec_float_reduced.
Qed.

Lemma binary64_dyadic (v : Q) :
  is_binary64 v = true -> Qred v = v ->
  exists j, 0 <= j /\ Zpos (Qden v) = 2 ^ j.
Proof.
  unfold is_binary64. intros H Hv.
  destruct (round64 v) as [| |u] eqn:E; try discriminate.
  cbn in H. apply Qeq_bool_iff in H.
  assert (U : u = v).
  { rewrite <- (round64_reduced _ _ E), <- Hv. now apply Qred_complete. }
  subst u. eapply round64_dyadic; eauto.
Qed.

(** The digit search ends on digits that read back as the value. *)

Lemma candidate_reads_back (v : Q) (n k s : Z) :
  candidate v n k = Some s -> reads_back v n k s = true.
Proof.
  unfold candidate.
  destruct (reads_back v n k (Qfloor (v * pow10 (k - n)))) eqn:L,
           (reads_back v n k (Qfloor (v * pow10 (k - n)) + 1)) eqn:H;
    try discriminate; try (now intros [= <-]).
  destruct (Qcompare _ _); try (now intros [= <-]).
  destruct (Z.even _); now intros [= <-].
Qed.

Lemma candidate_nonneg (v : Q) (n k s : Z) :
  (0 < v)%Q -> candidate v n k = Some s -> 0 <= s.
Proof.
  intros Hv.
  assert (F : 0 <= Qfloor (v * pow10 (k - n))).
  { change 0 with (Qfloor 0). apply Qfloor_resp_le.
    apply Qmult_le_0_compat; apply Qlt_le_weak; [exact Hv | apply pow10_pos]. }
  unfold candidate. set (lo := Qfloor (v * pow10 (k - n))) in *. clearbody lo.
  destruct (reads_back _ _ _ _), (reads_back _ _ _ _);
    try discriminate; try (intros [= <-]; lia).
  destruct (Qcompare _ _); try (intros [= <-]; lia).
  destruct (Z.even _); intros [= <-]; lia.
Qed.

(** With [k - n] at least the exponent of the denominator, the scaled value
    is an integer and reads back. *)
Lemma exact_candidate (v : Q) (n k j : Z) :
  is_binary64 v = true -> 0 <= j -> Zpos (Qden v) = 2 ^ j -> j <= k - n ->
  candidate v n k <> None.
Proof.
  intros Hb Hj Hd Hk.
  set (m := k - n) in *.
  set (z := Qnum v * 2 ^ (m - j) * 5 ^ m).
  assert (Hs : (v * pow10 m == inject_Z z)%Q).
  { unfold pow10. assert (E : (0 <=? m) = true) by (apply Z.leb_le; lia).
    rewrite E. unfold Qeq, Qmult, inject_Z. cbn [Qnum Qden].
    rewrite Pos.mul_1_r, Z.mul_1_r, Hd. unfold z.
    replace 10 with (2 * 5) by reflexivity.
    rewrite Z.pow_mul_l.
    replace m with (j + (m - j)) at 1 by lia.
    rewrite Z.pow_add_r by lia. ring. }
  assert (Hf : Qfloor (v * pow10 m) = z)
    by (now rewrite Hs, Qfloor_Z).
  assert (Hr : reads_back v n k z = true).
  { unfold reads_back. replace (n - k) with (- m) by (unfold m; lia).
    rewrite (round64_Qeq _ v); [exact Hb|].
    rewrite <- Hs, <- Qmult_assoc, pow10_cancel. apply Qmult_1_r. }
  unfold candidate. fold m. rewrite Hf, Hr.
  destruct (reads_back v n k (z + 1)); [|discriminate].
  destruct (Qcompare _ _); discriminate.
Qed.

Lemma shortest_reads_back (v : Q) (n k0 : Z) :
  (0 < v)%Q -> candidate v n k0 <> None ->
  forall (fuel : nat) (k : Z),
    1 <= k <= k0 -> k0 <= k + Z.of_nat fuel - 1 ->
    forall s e,
      shortest fuel v n k = (s, e) ->
      0 <= s /\ number_eqb (round64 (inject_Z s * pow10 e)) (Finite v) = true.
Proof.
  intros Hv H0. induction fuel as [|fuel IH]; intros k Hk Hf s e.
  - lia.
  - cbn [shortest]. destruct (candidate v n k) as [c|] eqn:C.
    + pose proof (candidate_reads_back _ _ _ _ C) as R.
      pose proof (candidate_nonneg _ _ _ _ Hv C) as N.
      destruct (c =? 10 ^ k) eqn:E; intros [= <- <-].
      * apply Z.eqb_eq in E. subst c. split.
        { apply Z.pow_nonneg. lia. }
        unfold reads_back in R. rewrite <- R. f_equal. apply round64_Qeq.
        replace (n + 1 - k) with ((n - k) + 1) by lia.
        rewrite pow10_add.
        replace k with ((k - 1) + 1) at 3 by lia.
        rewrite Z.pow_add_r by lia.
        rewrite inject_Z_mult. change (pow10 1) with (inject_Z (10 ^ 1)).
        ring.
      * split; [exact N | exact R].
    + apply IH.
      * assert (k <> k0) by (intros ->; contradiction). lia.
      * lia.
Qed.

(** Reading digit strings. *)

Ltac each_ascii c :=
  destruct c as [[] [] [] [] [] [] [] []]; try discriminate; try reflexivity.

Lemma is_digit_digit_char (d : Z) : is_digit (digit_char d) = true.
Proof.
  unfold digit_char.
  assert (H : (Z.to_nat (d mod 10) < 10)%nat)
    by (pose proof (Z.mod_pos_bound d 10); lia).
  destruct (Z.to_nat (d mod 10)) as [|[|[|[|[|[|[|[|[|[|n]]]]]]]]]];
    try reflexivity.
  lia.
Qed.

Lemma code_digit_char (d : Z) : code (digit_char d) - 48 = d mod 10.
Proof.
  unfold digit_char, code.
  pose proof (Z.mod_pos_bound d 10 ltac:(lia)) as B.
  rewrite nat_ascii_embedding by lia. lia.
Qed.

Lemma digit_of_digit (c : ascii) :
  is_digit c = true -> digit_of 10 c = Some (code c - 48).
Proof. each_ascii c. Qed.

Lemma is_digit_plain (c : ascii) : is_digit c = true -> plain c = true.
Proof. unfold plain. now intros ->. Qed.

Lemma plain_not_white_space (c : ascii) :
  plain c = true -> is_white_space c = false.
Proof. each_ascii c. Qed.

Lemma span_digits_app (ds rest : list ascii) :
  all_digits ds = true ->
  span_digits 10 (ds ++ rest)
  = ((digit_values ds ++ fst (span_digits 10 rest))%list,
     snd (span_digits 10 rest)).
Proof.
  induction ds as [|c ds IH]; cbn [all_digits forallb app digit_values map].
  - intros _. now destruct (span_digits 10 rest).
  - intros H. apply andb_true_iff in H. destruct H as [Hc Hds].
    cbn [span_digits]. rewrite (digit_of_digit _ Hc).
    fold (all_digits ds) in Hds. rewrite (IH Hds). reflexivity.
Qed.

Lemma span_digits_all (ds : list ascii) :
  all_digits ds = true -> span_digits 10 ds = (digit_values ds, []).
Proof.
  intros H. rewrite <- (app_nil_r ds) at 1. rewrite (span_digits_app _ _ H).
  cbn. now rewrite app_nil_r.
Qed.

Lemma all_digits_app (a b : list ascii) :
  all_digits (a ++ b) = all_digits a && all_digits b.
Proof. apply forallb_app. Qed.

Lemma digit_values_app (a b : list ascii) :
  digit_values (a ++ b) = (digit_values a ++ digit_values b)%list.
Proof. apply map_app. Qed.

Lemma fold_digits (l : list Z) (a : Z) :
  fold_left (fun acc d => 10 * acc + d) l a
  = a * 10 ^ Z.of_nat (List.length l) + digits_value 10 l.
Proof.
  unfold digits_value. revert a. induction l as [|d l IH]; intros a.
  - cbn. lia.
  - cbn [fold_left List.length]. rewrite IH, (IH (10 * 0 + d)).
    rewrite Nat2Z.inj_succ, Z.pow_succ_r by lia. ring.
Qed.

Lemma digits_value_app (a b : list Z) :
  digits_value 10 (a ++ b)
  = digits_value 10 a * 10 ^ Z.of_nat (List.length b) + digits_value 10 b.
Proof.
  unfold digits_value at 1. rewrite fold_left_app. fold (digits_value 10 a).
  apply fold_digits.
Qed.

Lemma digits_value_cons (d : Z) (l : list Z) :
  digits_value 10 (d :: l) = d * 10 ^ Z.of_nat (List.length l) + digits_value 10 l.
Proof. apply (digits_value_app [d] l). Qed.

Lemma digit_values_length (cs : list ascii) :
  List.length (digit_values cs) = List.length cs.
Proof. apply length_map. Qed.

(** The printed digits of an integer are digits, and read as the integer. *)

Lemma value_of_cons (c : ascii) (cs : list ascii) :
  value_of (c :: cs)
  = (code c - 48) * 10 ^ Z.of_nat (List.length cs) + value_of cs.
Proof.
  unfold value_of. cbn [digit_values map]. rewrite digits_value_cons.
  fold (digit_values cs). now rewrite digit_values_length.
Qed.

Lemma value_of_app (a b : list ascii) :
  value_of (a ++ b)
  = value_of a * 10 ^ Z.of_nat (List.length b) + value_of b.
Proof.
  unfold value_of. rewrite digit_values_app, digits_value_app.
  now rewrite digit_values_length.
Qed.

Lemma digits_before_S (fuel : nat) (z : Z) (acc : list ascii) :
  digits_before (S fuel) z acc
  = if z <? 10 then digit_char z :: acc
    else digits_before fuel (z / 10) (digit_char z :: acc).
Proof. reflexivity. Qed.

Lemma digits_before_spec (fuel : nat) :
  forall (z : Z) (acc : list ascii),
    all_digits acc = true -> 0 <= z < 10 ^ Z.of_nat (S fuel) ->
    all_digits (digits_before (S fuel) z acc) = true
    /\ value_of (digits_before (S fuel) z acc)
       = z * 10 ^ Z.of_nat (List.length acc) + value_of acc
    /\ (List.length acc < List.length (digits_before (S fuel) z acc))%nat.
Proof.
  induction fuel as [|fuel IH]; intros z acc Ha Hz;
    rewrite digits_before_S; destruct (z <? 10) eqn:E.
  - apply Z.ltb_lt in E. split; [|split].
    + cbn [all_digits forallb]. rewrite is_digit_digit_char. exact Ha.
    + rewrite value_of_cons, code_digit_char, Z.mod_small by lia.
      reflexivity.
    + cbn. lia.
  - apply Z.ltb_ge in E. cbn in Hz. lia.
  - apply Z.ltb_lt in E. split; [|split].
    + cbn [all_digits forallb]. rewrite is_digit_digit_char. exact Ha.
    + rewrite value_of_cons, code_digit_char, Z.mod_small by lia.
      reflexivity.
    + cbn. lia.
  - apply Z.ltb_ge in E.
    assert (Hacc : all_digits (digit_char z :: acc) = true)
      by (cbn [all_digits forallb]; rewrite is_digit_digit_char; exact Ha).
    assert (Hq : 0 <= z / 10 < 10 ^ Z.of_nat (S fuel)).
    { rewrite (Nat2Z.inj_succ (S fuel)), Z.pow_succ_r in Hz by lia. split.
      - apply Z.div_pos; lia.
      - apply Z.div_lt_upper_bound; lia. }
    destruct (IH (z / 10) (digit_char z :: acc) Hacc Hq) as (A & V & L).
    split; [exact A|]. split.
    + rewrite V, value_of_cons, code_digit_char.
      cbn [List.length]. rewrite Nat2Z.inj_succ, Z.pow_succ_r by lia.
      pose proof (Z.div_mod z 10 ltac:(lia)) as D. nia.
    + cbn [List.length] in L. lia.
Qed.

Lemma decimal_digits_spec (z : Z) :
  0 <= z ->
  all_digits (decimal_digits z) = true
  /\ value_of (decimal_digits z) = z
  /\ decimal_digits z <> [].
Proof.
  intros Hz. unfold decimal_digits.
  assert (B : 0 <= z < 10 ^ Z.of_nat (S (Z.to_nat (Z.log2 z)))).
  { split; [exact Hz|].
    rewrite Nat2Z.inj_succ, Z2Nat.id by apply Z.log2_nonneg.
    destruct (Z.eq_dec z 0) as [->|Hnz]; [reflexivity|].
    pose proof (Z.log2_spec z ltac:(lia)) as [_ U].
    eapply Z.lt_le_trans; [exact U|].
    apply Z.pow_le_mono_l. pose proof (Z.log2_nonneg z). lia. }
  destruct (digits_before_spec _ z [] eq_refl B) as (A & V & L).
  split; [exact A|]. split.
  - rewrite V. cbn. lia.
  - intros E. rewrite E in L. cbn in L. lia.
Qed.

Lemma all_digits_zeros (n : nat) : all_digits (repeat "0"%char n) = true.
Proof. induction n; cbn; auto. Qed.

Lemma value_of_zeros (n : nat) : value_of (repeat "0"%char n) = 0.
Proof.
  induction n as [|n IH]; [reflexivity|].
  cbn [repeat]. rewrite value_of_cons, IH. reflexivity.
Qed.

Lemma all_digits_plain (cs : list ascii) :
  all_digits cs = true -> forallb plain cs = true.
Proof.
  induction cs as [|c cs IH]; cbn; [reflexivity|].
  intros H. apply andb_true_iff in H. destruct H as [Hc Hcs].
  now rewrite (is_digit_plain _ Hc), IH.
Qed.

(** The exponent part of a printed number. *)

Lemma exponent_part_signed (neg : bool) (ds : list ascii) :
  all_digits ds = true -> ds <> [] ->
  exponent_part ("e"%char :: (if neg then "-"%char else "+"%char) :: ds)
  = Some (if neg then - value_of ds else value_of ds).
Proof.
  intros A N. unfold exponent_part.
  change ((code "e" =? 101) || (code "e" =? 69)) with true. cbv iota.
  destruct neg.
  - change (code "-" =? 43) with false. change (code "-" =? 45) with true.
    cbv iota. rewrite (span_digits_all _ A).
    destruct ds; [congruence | reflexivity].
  - change (code "+" =? 43) with true.
    cbv iota. rewrite (span_digits_all _ A).
    destruct ds; [congruence | reflexivity].
Qed.

Lemma exponent_part_chars (e : Z) :
  exponent_part (exponent_chars e) = Some e.
Proof.
  unfold exponent_chars.
  destruct (decimal_digits_spec (Z.abs e) ltac:(lia)) as (A & V & N).
  rewrite (exponent_part_signed (e <? 0) _ A N), V. f_equal.
  destruct (e <? 0) eqn:E.
  - apply Z.ltb_lt in E. lia.
  - apply Z.ltb_ge in E. lia.
Qed.

Lemma span_digits_exponent_chars (e : Z) :
  span_digits 10 (exponent_chars e) = ([], exponent_chars e).
Proof. reflexivity. Qed.

Lemma exponent_chars_plain (e : Z) : forallb plain (exponent_chars e) = true.
Proof.
  unfold exponent_chars. cbn [forallb].
  destruct (decimal_digits_spec (Z.abs e) ltac:(lia)) as (A & _ & _).
  rewrite (all_digits_plain _ A). now destruct (e <? 0).
Qed.

(** Reading a printed number. *)

Lemma digit_values_nil (cs : list ascii) : digit_values cs = [] -> cs = [].
Proof. destruct cs; [reflexivity | discriminate]. Qed.

Lemma unsigned_decimal_integer (I T : list ascii) (E : Z) :
  all_digits I = true -> I <> [] ->
  span_digits 10 T = ([], T) ->
  match T with
  | c :: _ => code c =? 46
  | [] => false
  end = false ->
  exponent_part T = Some E ->
  unsigned_decimal (I ++ T)
  = Some (inject_Z (value_of I) * pow10 (E - 0))%Q.
Proof.
  intros HI NI HT Hdot HE. unfold unsigned_decimal.
  rewrite (span_digits_app _ _ HI), HT. cbn [fst snd].
  rewrite app_nil_r.
  assert (R : match T with
              | dot :: tl =>
                  if code dot =? 46 then span_digits 10 tl else ([], T)
              | [] => ([], T)
              end = ([], T)).
  { destruct T as [|c T']; [reflexivity|]. now rewrite Hdot. }
  rewrite R, app_nil_r, HE.
  destruct (digit_values I) as [|d l] eqn:D.
  - apply digit_values_nil in D. contradiction.
  - cbn [List.length]. unfold value_of. now rewrite D.
Qed.

Lemma unsigned_decimal_fraction (I F T : list ascii) (E : Z) :
  all_digits I = true -> all_digits F = true -> (I ++ F)%list <> [] ->
  span_digits 10 T = ([], T) ->
  exponent_part T = Some E ->
  unsigned_decimal (I ++ "."%char :: F ++ T)
  = Some (inject_Z (value_of (I ++ F)) * pow10 (E - Z.of_nat (List.length F)))%Q.
Proof.
  intros HI HF NE HT HE. unfold unsigned_decimal.
  rewrite (span_digits_app _ _ HI).
  change (span_digits 10 ("."%char :: F ++ T)) with
    (@nil Z, "."%char :: (F ++ T)%list).
  cbn [fst snd]. rewrite app_nil_r.
  change (code "." =? 46) with true. cbv iota.
  rewrite (span_digits_app _ _ HF), HT. cbn [fst snd].
  rewrite app_nil_r, HE, <- digit_values_app, digit_values_length.
  destruct (digit_values (I ++ F)) as [|d l] eqn:D.
  - apply digit_values_nil in D. contradiction.
  - unfold value_of. now rewrite D.
Qed.

Lemma pow10_nonneg (m : Z) : 0 <= m -> pow10 m = inject_Z (10 ^ m).
Proof. intros H. unfold pow10. apply Z.leb_le in H. now rewrite H. Qed.

Lemma format_digits_parse (ds : list ascii) (n : Z) :
  all_digits ds = true -> ds <> [] ->
  exists q,
    unsigned_decimal (format_digits ds n) = Some q
    /\ (q == inject_Z (value_of ds) * pow10 (n - Z.of_nat (List.length ds)))%Q.
Proof.
  intros Hds Nds. unfold format_digits.
  set (k := Z.of_nat (List.length ds)).
  assert (Hk : 0 < k) by (destruct ds; [congruence | cbn in k; lia]).
  destruct ((k <=? n) && (n <=? 21)) eqn:C1.
  { apply andb_true_iff in C1. destruct C1 as [C1 _]. apply Z.leb_le in C1.
    eexists. split.
    - rewrite <- (app_nil_r (ds ++ repeat "0"%char (Z.to_nat (n - k)))).
      apply (unsigned_decimal_integer _ [] 0); try reflexivity.
      + now rewrite all_digits_app, Hds, all_digits_zeros.
      + destruct ds; [congruence | discriminate].
    - rewrite value_of_app, value_of_zeros, repeat_length, Z2Nat.id by lia.
      rewrite Z.add_0_r, inject_Z_mult, (pow10_nonneg (n - k)) by lia.
      change (pow10 (0 - 0)) with 1%Q. ring. }
  destruct ((0 <? n) && (n <=? 21)) eqn:C2.
  { apply andb_true_iff in C2. destruct C2 as [C2 C2'].
    apply Z.ltb_lt in C2. apply Z.leb_le in C2'.
    apply andb_false_iff in C1.
    assert (Hn : n < k).
    { destruct C1 as [C1|C1]; apply Z.leb_gt in C1; lia. }
    eexists. split.
    - rewrite <- (app_nil_r (skipn (Z.to_nat n) ds)).
      apply (unsigned_decimal_fraction _ _ [] 0); try reflexivity.
      + rewrite <- (firstn_skipn (Z.to_nat n) ds), all_digits_app in Hds.
        now apply andb_true_iff in Hds.
      + rewrite <- (firstn_skipn (Z.to_nat n) ds), all_digits_app in Hds.
        now apply andb_true_iff in Hds.
      + now rewrite firstn_skipn.
    - rewrite firstn_skipn, length_skipn.
      replace (0 - Z.of_nat (List.length ds - Z.to_nat n))
        with (n - k) by (unfold k; lia).
      reflexivity. }
  destruct ((-6 <? n) && (n <=? 0)) eqn:C3.
  { apply andb_true_iff in C3. destruct C3 as [_ C3]. apply Z.leb_le in C3.
    eexists. split.
    - rewrite <- (app_nil_r (repeat "0"%char (Z.to_nat (- n)) ++ ds)).
      apply (unsigned_decimal_fraction ["0"%char] _ [] 0); try reflexivity.
      + now rewrite all_digits_app, Hds, all_digits_zeros.
      + discriminate.
    - change (["0"%char] ++ repeat "0"%char (Z.to_nat (- n)) ++ ds)%list
        with (repeat "0"%char (S (Z.to_nat (- n))) ++ ds)%list.
      rewrite value_of_app, value_of_zeros, length_app, repeat_length.
      replace (0 - Z.of_nat (Z.to_nat (- n) + List.length ds))
        with (n - k) by (unfold k; lia).
      now rewrite Z.mul_0_l, Z.add_0_l. }
  destruct ds as [|d [|d' rest]]; [congruence| |].
  - eexists. split.
    + apply (unsigned_decimal_integer [d] _ (n - 1)); try reflexivity.
      * exact Hds.
      * discriminate.
      * apply exponent_part_chars.
    + replace (n - 1 - 0) with (n - k) by (unfold k; cbn; lia). reflexivity.
  - eexists. split.
    + apply (unsigned_decimal_fraction [d] (d' :: rest) _ (n - 1));
        try reflexivity.
      * cbn [all_digits forallb] in *. apply andb_true_iff in Hds.
        destruct Hds as [-> _]. reflexivity.
      * cbn [all_digits forallb] in *. apply andb_true_iff in Hds.
        now destruct Hds as [_ ->].
      * discriminate.
      * apply exponent_part_chars.
    + replace (n - 1 - Z.of_nat (List.length (d' :: rest)))
        with (n - k) by (unfold k; cbn [List.length]; lia).
      reflexivity.
Qed.

Lemma forallb_plain_zeros (n : nat) : forallb plain (repeat "0"%char n) = true.
Proof. apply all_digits_plain, all_digits_zeros. Qed.

Lemma all_digits_firstn (n : nat) (ds : list ascii) :
  all_digits ds = true -> all_digits (firstn n ds) = true.
Proof.
  intros H. rewrite <- (firstn_skipn n ds), all_digits_app in H.
  now apply andb_true_iff in H.
Qed.

Lemma all_digits_skipn (n : nat) (ds : list ascii) :
  all_digits ds = true -> all_digits (skipn n ds) = true.
Proof.
  intros H. rewrite <- (firstn_skipn n ds), all_digits_app in H.
  now apply andb_true_iff in H.
Qed.

Lemma format_digits_plain (ds : list ascii) (n : Z) :
  all_digits ds = true -> forallb plain (format_digits ds n) = true.
Proof.
  intros Hds. pose proof (all_digits_plain _ Hds) as Hp.
  unfold format_digits.
  destruct ((_ <=? n) && (n <=? 21)).
  { now rewrite forallb_app, Hp, forallb_plain_zeros. }
  destruct ((0 <? n) && (n <=? 21)).
  { rewrite forallb_app. cbn [forallb].
    rewrite (all_digits_plain _ (all_digits_firstn _ _ Hds)).
    now rewrite (all_digits_plain _ (all_digits_skipn _ _ Hds)). }
  destruct ((-6 <? n) && (n <=? 0)).
  { cbn [forallb]. now rewrite forallb_app, Hp, forallb_plain_zeros. }
  destruct ds as [|d [|d' rest]].
  - apply exponent_chars_plain.
  - cbn [forallb app] in *. rewrite exponent_chars_plain.
    apply andb_true_iff in Hp. now destruct Hp as [-> _].
  - cbn [forallb] in Hp. apply andb_true_iff in Hp. destruct Hp as [Hd Hr].
    cbn [forallb]. rewrite Hd, forallb_app, exponent_chars_plain.
    cbn [forallb]. now rewrite Hr.
Qed.

Lemma format_digits_head (ds : list ascii) (n : Z) :
  all_digits ds = true -> ds <> [] ->
  exists c rest, format_digits ds n = c :: rest /\ is_digit c = true.
Proof.
  intros Hds Nds. unfold format_digits.
  destruct ds as [|d ds']; [congruence|].
  cbn [all_digits forallb] in Hds. apply andb_true_iff in Hds.
  destruct Hds as [Hd Hds'].
  destruct ((_ <=? n) && (n <=? 21)); [cbn; eauto|].
  destruct ((0 <? n) && (n <=? 21)) eqn:C.
  { apply andb_true_iff in C. destruct C as [C _]. apply Z.ltb_lt in C.
    destruct (Z.to_nat n) as [|m] eqn:E; [lia|]. cbn. eauto. }
  destruct ((-6 <? n) && (n <=? 0)); [eexists _, _; split; reflexivity|].
  destruct ds'; cbn; eauto.
Qed.

Lemma drop_white_space_plain (cs : list ascii) :
  forallb plain cs = true -> drop_white_space cs = cs.
Proof.
  destruct cs as [|c cs]; [reflexivity|]. cbn. intros H.
  apply andb_true_iff in H. destruct H as [Hc _].
  now rewrite (plain_not_white_space _ Hc).
Qed.

Lemma forallb_rev {A} (f : A -> bool) (l : list A) :
  forallb f l = true -> forallb f (rev l) = true.
Proof.
  rewrite !forallb_forall. intros H x Hx. apply H. now apply in_rev.
Qed.

Lemma trim_plain (cs : list ascii) : forallb plain cs = true -> trim cs = cs.
Proof.
  intros H. unfold trim. rewrite (drop_white_space_plain _ H).
  rewrite (drop_white_space_plain _ (forallb_rev _ _ H)).
  apply rev_involutive.
Qed.

Lemma digit_not_sign (c : ascii) :
  is_digit c = true ->
  (code c =? 43) = false /\ (code c =? 45) = false
  /\ Ascii.eqb c "I" = false.
Proof. each_ascii c; repeat split. Qed.

Lemma plain_no_radix (x : ascii) :
  plain x = true ->
  (if (code x =? 120) || (code x =? 88) then 16
   else if (code x =? 111) || (code x =? 79) then 8
   else if (code x =? 98) || (code x =? 66) then 2
   else 0) = 0.
Proof. each_ascii x. Qed.

Lemma non_decimal_plain (cs : list ascii) :
  forallb plain cs = true -> non_decimal cs = None.
Proof.
  destruct cs as [|z [|x rest]]; try reflexivity.
  cbn [forallb]. intros H. apply andb_true_iff in H. destruct H as [_ H].
  apply andb_true_iff in H. destruct H as [Hx _].
  unfold non_decimal. rewrite (plain_no_radix _ Hx).
  now destruct (code z =? 48).
Qed.

(** A printed number reads as the rounding of its decimal value. *)
Lemma StringToNumber_printed (c : ascii) (rest : list ascii) :
  is_digit c = true -> forallb plain (c :: rest) = true ->
  StringToNumber (string_of_list_ascii (c :: rest))
  = match unsigned_decimal (c :: rest) with
    | Some q => round64 q
    | None => NaN
    end.
Proof.
  intros Hc Hp. unfold StringToNumber.
  rewrite list_ascii_of_string_of_list_ascii, (trim_plain _ Hp).
  rewrite (non_decimal_plain _ Hp).
  destruct (digit_not_sign _ Hc) as (H43 & H45 & HI).
  rewrite H43, H45. unfold str_decimal.
  cbn [string_of_list_ascii String.eqb]. now rewrite HI.
Qed.

Lemma positive_to_chars_reads_back (v : Q) :
  (0 < v)%Q -> Qred v = v -> is_binary64 v = true ->
  number_eqb (StringToNumber (string_of_list_ascii (positive_to_chars v)))
             (Finite v) = true.
Proof.
  intros Hv Hr Hb. unfold positive_to_chars.
  destruct (binary64_dyadic v Hb Hr) as (j & Hj & Hd).
  rewrite Hd, Z.log2_pow2 by exact Hj.
  set (n := decade v).
  set (k0 := Z.max 1 (n + j)).
  assert (H0 : candidate v n k0 <> None)
    by (apply (exact_candidate v n k0 j Hb Hj Hd); unfold k0; lia).
  destruct (shortest (Z.to_nat (Z.max 17 (n + j))) v n 1) as [s e] eqn:S.
  destruct (shortest_reads_back v n k0 Hv H0 (Z.to_nat (Z.max 17 (n + j))) 1
              ltac:(unfold k0; lia) ltac:(unfold k0; lia) s e S) as (Hs & R).
  destruct (decimal_digits_spec s Hs) as (A & V & N).
  set (ds := decimal_digits s) in *.
  destruct (format_digits_head ds (e + Z.of_nat (List.length ds)) A N)
    as (c & rest & F & Hc).
  pose proof (format_digits_plain ds (e + Z.of_nat (List.length ds)) A) as P.
  destruct (format_digits_parse ds (e + Z.of_nat (List.length ds)) A N)
    as (q & U & Hq).
  rewrite F in *. rewrite (StringToNumber_printed _ _ Hc P), U.
  rewrite <- R. f_equal. apply round64_Qeq.
  rewrite Hq, V.
  now replace (e + Z.of_nat (List.length ds) - Z.of_nat (List.length ds))
    with e by lia.
Qed.

(** [Number(String(x))] is [x], for a positive binary64 value [x]. *)
Lemma number_round_trip (q : Q) :
  (0 < q)%Q -> is_binary64 q = true ->
  number_eqb (StringToNumber (to_string (Finite q))) (Finite q) = true.
Proof.
  intros Hq Hb. unfold to_string.
  assert (Hv : (0 < Qred q)%Q) by now rewrite Qred_correct.
  assert (Hb' : is_binary64 (Qred q) = true).
  { unfold is_binary64 in *.
    rewrite (round64_Qeq _ q) by apply Qred_correct.
    now rewrite (number_eqb_Qeq _ _ q) by apply Qred_correct. }
  assert (Hr : Qred (Qred q) = Qred q)
    by apply Qred_complete, Qred_correct.
  destruct (Qnum (Qred q)) eqn:E.
  - unfold Qlt in Hv. cbn in Hv. lia.
  - rewrite <- (number_eqb_Qeq _ (Qred q)) by apply Qred_correct.
    now apply positive_to_chars_reads_back.
  - unfold Qlt in Hv. cbn in Hv. lia.
Qed.

(** A literal with a minus sign is never a positive number. *)

Lemma binary_round_aux_negative (mx ex : Z) (lx : location) :
  match of_spec_float (binary_round_aux 53 1024 true mx ex lx) with
  | Finite q => (q <= 0)%Q
  | _ => True
  end.
Proof.
  unfold binary_round_aux.
  destruct (shr_fexp 53 1024 mx ex lx) as [mrs' e'].
  destruct (shr_fexp 53 1024 _ e' loc_Exact) as [mrs'' e''].
  destruct (shr_m mrs'') as [|m|m]; cbn -[Qred Z.mul Z.pow]; try exact I.
  - discriminate.
  - destruct (e'' <=? _); cbn -[Qred Z.mul Z.pow]; [|exact I].
    rewrite Qred_correct. apply (Qopp_le_compat 0).
    destruct (0 <=? e'') eqn:E; unfold Qle; cbn [Qnum Qden inject_Z].
    + apply Z.leb_le in E.
      assert (0 < 2 ^ e'') by (apply Z.pow_pos_nonneg; lia). nia.
    + lia.
Qed.

Lemma round64_nonpositive (q : Q) :
  (q <= 0)%Q ->
  match round64 q with
  | Finite r => (r <= 0)%Q
  | _ => True
  end.
Proof.
  intros Hq. unfold round64.
  assert (H : (Qred q <= 0)%Q) by now rewrite Qred_correct.
  destruct (Qred q) as [a b]. unfold Qle in H. cbn in H. cbn [Qnum Qden].
  destruct a as [|p|p]; try lia.
  - discriminate.
  - unfold SFdiv.
    destruct (SFdiv_core_binary 53 1024 (Z.pos p) 0 (Z.pos b) 0) as [[mz ez] lz].
    apply binary_round_aux_negative.
Qed.

Lemma span_digits_nonneg (cs : list ascii) :
  Forall (fun d => 0 <= d) (fst (span_digits 10 cs)).
Proof.
  induction cs as [|c cs IH]; cbn [span_digits]; [constructor|].
  destruct (digit_of 10 c) as [d|] eqn:D; [|constructor].
  destruct (span_digits 10 cs) as [ds tl]. cbn [fst] in *.
  constructor; [|exact IH].
  unfold digit_of in D.
  destruct ((48 <=? code c) && (code c <=? 57)) eqn:C1;
    [|destruct ((97 <=? code c) && (code c <=? 122)) eqn:C2;
      [|destruct ((65 <=? code c) && (code c <=? 90)) eqn:C3]];
    match type of D with
    | (if ?b then _ else _) = _ => destruct b; [|discriminate]
    end; injection D as <-.
  - apply andb_true_iff in C1. destruct C1 as [C1 _]. apply Z.leb_le in C1. lia.
  - apply andb_true_iff in C2. destruct C2 as [C2 _]. apply Z.leb_le in C2. lia.
  - apply andb_true_iff in C3. destruct C3 as [C3 _]. apply Z.leb_le in C3. lia.
  - lia.
Qed.

Lemma digits_value_nonneg (ds : list Z) :
  Forall (fun d => 0 <= d) ds -> 0 <= digits_value 10 ds.
Proof.
  unfold digits_value.
  assert (G : forall a, 0 <= a -> Forall (fun d => 0 <= d) ds ->
                        0 <= fold_left (fun acc d => 10 * acc + d) ds a).
  { induction ds as [|d ds IH]; intros a Ha H; cbn [fold_left]; [exact Ha|].
    inversion H; subst. apply IH; [lia | assumption]. }
  apply G. lia.
Qed.

Lemma unsigned_decimal_nonneg (cs : list ascii) (q : Q) :
  unsigned_decimal cs = Some q -> (0 <= q)%Q.
Proof.
  unfold unsigned_decimal.
  pose proof (span_digits_nonneg cs) as HI.
  destruct (span_digits 10 cs) as [ip r1]. cbn [fst] in HI.
  assert (HF : forall fp r2,
            match r1 with
            | dot :: tl =>
                if code dot =? 46 then span_digits 10 tl else ([], r1)
            | [] => ([], r1)
            end = (fp, r2) -> Forall (fun d => 0 <= d) fp).
  { intros fp r2. destruct r1 as [|dot tl]; [intros [= <- _]; constructor|].
    destruct (code dot =? 46); [|intros [= <- _]; constructor].
    intros E. pose proof (span_digits_nonneg tl) as H. now rewrite E in H. }
  destruct (match r1 with
            | dot :: tl =>
                if code dot =? 46 then span_digits 10 tl else ([], r1)
            | [] => ([], r1)
            end) as [fp r2].
  specialize (HF fp r2 eq_refl).
  assert (HV : 0 <= digits_value 10 (ip ++ fp))
    by (apply digits_value_nonneg, Forall_app; split; assumption).
  destruct (ip ++ fp)%list as [|d ds]; [discriminate|].
  destruct (exponent_part r2) as [e|]; [|discriminate].
  intros [= <-]. apply Qmult_le_0_compat.
  - unfold Qle. cbn [Qnum Qden inject_Z]. lia.
  - apply Qlt_le_weak, pow10_pos.
Qed.

Lemma not_positive_finite (n : number) :
  match n with
  | Finite q => (q <= 0)%Q
  | _ => True
  end ->
  match n with
  | Finite _ => positive_finite n = false
  | _ => True
  end.
Proof.
  destruct n as [| |q]; try exact (fun _ => I). intros H.
  unfold positive_finite. cbn.
  apply Qle_bool_iff in H. now rewrite H.
Qed.

Lemma StringToNumber_minus (s : string) :
  positive_finite (StringToNumber (String "-" s)) = false.
Proof.
  unfold StringToNumber. cbn [list_ascii_of_string].
  assert (W : is_white_space "-" = false) by reflexivity.
  assert (T : exists cs', trim ("-"%char :: list_ascii_of_string s)
                          = "-"%char :: cs').
  { unfold trim. cbn [drop_white_space]. rewrite W. cbn [rev].
    assert (D : forall l, exists l',
                  drop_white_space (l ++ ["-"%char]) = (l' ++ ["-"%char])%list).
    { induction l as [|a l IH]; cbn.
      - now exists [].
      - destruct (is_white_space a); [exact IH|]. now exists (a :: l). }
    destruct (D (rev (list_ascii_of_string s))) as (l' & ->).
    rewrite rev_app_distr. cbn. eauto. }
  destruct T as (cs' & ->).
  assert (N : non_decimal ("-"%char :: cs') = None)
    by (destruct cs'; reflexivity).
  rewrite N. change (code "-" =? 43) with false.
  change (code "-" =? 45) with true. cbv iota.
  unfold str_decimal. destruct (String.eqb _ "Infinity"); [reflexivity|].
  destruct (unsigned_decimal cs') as [q|] eqn:U; [|reflexivity].
  pose proof (round64_nonpositive (- q)) as R.
  assert (L : (- q <= 0)%Q).
  { apply unsigned_decimal_nonneg in U.
    apply Qopp_le_compat in U. exact U. }
  specialize (R L). pose proof (not_positive_finite (round64 (- q))) as P.
  destruct (round64 (- q)); try reflexivity. now apply P.
Qed.

(** ** Strings and numbers *)

Lemma prefix_append (p s : string) : prefix p (p ++ s) = true.
Proof.
  induction p as [|c p IH]; simpl.
  - now destruct s.
  - destruct (ascii_dec c c); [exact IH | congruence].
Qed.

Lemma prefix_nonempty (p s : string) :
  p <> EmptyString -> prefix p s = true -> String.eqb s EmptyString = false.
Proof.
  destruct p; [congruence|]. destruct s; simpl; [discriminate | reflexivity].
Qed.

Lemma greater_than_zero (q : Q) :
  greater_than (Finite q) 0 = true <-> (0 < q)%Q.
Proof.
  unfold greater_than. rewrite negb_true_iff. split; intros H.
  - apply Qnot_le_lt. intros L. apply Qle_bool_iff in L. congruence.
  - destruct (Qle_bool q 0) eqn:E; [|reflexivity].
    apply Qle_bool_iff in E. exfalso. eapply Qlt_not_le; eauto.
Qed.

Lemma positive_finite_spec (n : number) :
  positive_finite n = true <-> exists q, n = Finite q /\ (0 < q)%Q.
Proof.
  unfold positive_finite. split.
  - destruct n as [|s|q]; simpl; try discriminate.
    intros H. exists q. split; [reflexivity|]. now apply greater_than_zero.
  - intros (q & -> & H). simpl. now apply greater_than_zero.
Qed.

Lemma to_string_Qeq (p q : Q) :
  (p == q)%Q -> to_string (Finite p) = to_string (Finite q).
Proof. intros H. unfold to_string. now rewrite (Qred_complete _ _ H). Qed.

(** White space is trimmed around, not before, a first character that is not
    white space. *)
Lemma drop_white_space_last (l : list ascii) (c : ascii) :
  is_white_space c = false ->
  exists l', drop_white_space (l ++ [c])%list = (l' ++ [c])%list.
Proof.
  intros Hc. induction l as [|a l IH]; simpl.
  - rewrite Hc. now exists [].
  - destruct (is_white_space a); [exact IH|]. now exists (a :: l).
Qed.

Lemma trim_first (c : ascii) (cs : list ascii) :
  is_white_space c = false -> exists cs', trim (c :: cs) = c :: cs'.
Proof.
  intros Hc. unfold trim. simpl drop_white_space at 2. rewrite Hc.
  simpl rev at 2.
  destruct (drop_white_space_last (rev cs) c Hc) as (l' & ->).
  rewrite rev_app_distr. simpl. now eexists.
Qed.

(** A string that starts with the letter g is no numeric literal. *)
Lemma StringToNumber_g (s : string) :
  StringToNumber (String "g" s) = NaN.
Proof.
  unfold StringToNumber. simpl list_ascii_of_string.
  destruct (trim_first "g" (list_ascii_of_string s) eq_refl) as (cs & ->).
  destruct cs as [|x cs]; reflexivity.
Qed.

Lemma StringToNumber_gid (s : string) :
  prefix gid_prefix s = true -> StringToNumber s = NaN.
Proof.
  destruct s as [|c s]; [discriminate|].
  unfold gid_prefix. cbn [prefix].
  destruct (ascii_dec "g" c) as [<-|]; [|discriminate].
  intros _. apply StringToNumber_g.
Qed.

(** ** The Identifier Normalizer *)

Lemma toProductGid_canonical (input : value) (s : string) :
  ToString input = Normal s -> prefix gid_prefix s = true ->
  toProductGid input = Normal (Some s).
Proof. intros Hs Hp. unfold toProductGid. rewrite Hs. simpl. now rewrite Hp. Qed.

Lemma toProductGid_number (input : value) (s : string) :
  ToString input = Normal s -> prefix gid_prefix s = false ->
  toProductGid input =
  Normal (if positive_finite (StringToNumber s)
          then Some (gid_prefix ++ to_string (StringToNumber s))
          else None).
Proof. intros Hs Hp. unfold toProductGid. rewrite Hs. simpl. now rewrite Hp. Qed.

Lemma toProductGid_inv (input : value) (r : string) :
  toProductGid input = Normal (Some r) ->
  (ToString input = Normal r /\ prefix gid_prefix r = true)
  \/ (exists s q, ToString input = Normal s /\ prefix gid_prefix s = false
        /\ StringToNumber s = Finite q /\ (0 < q)%Q
        /\ r = gid_prefix ++ to_string (Finite q)).
Proof.
  unfold toProductGid. destruct (ToString input) as [s|e]; simpl; [|discriminate].
  destruct (prefix gid_prefix s) eqn:Hp.
  - intros [= <-]. now left.
  - fold (positive_finite (StringToNumber s)).
    destruct (positive_finite (StringToNumber s)) eqn:Hn; [|discriminate].
    intros [= <-]. right.
    apply positive_finite_spec in Hn. destruct Hn as (q & Hq & Hpos).
    exists s, q. rewrite Hq. auto.
Qed.

Lemma toProductGid_prefix (input : value) (r : string) :
  toProductGid input = Normal (Some r) -> prefix gid_prefix r = true.
Proof.
  intros H. destruct (toProductGid_inv _ _ H) as [[_ Hp]|(s & q & _ & _ & _ & _ & ->)].
  - exact Hp.
  - apply prefix_append.
Qed.

(** C3, as the claim states it, fails: the numeric string 3.5 normalizes
    successfully, to a reference whose last segment is not a positive
    integer. *)
Lemma normalizer_output_not_canonical :
  toProductGid (Str "3.5") = Normal (Some "gid://shopify/Product/3.5")
  /\ canonical_form "gid://shopify/Product/3.5" = false.
Proof. split; vm_compute; reflexivity. Qed.

(** C3, amended: every successful output of the Identifier Normalizer starts
    with the prefix gid://shopify/Product/ and is either the stringified
    input itself, which already started with that prefix (whatever follows
    the prefix), or the prefix followed by the decimal text of the finite
    number greater than zero that the input parses to (an integer or not).
    There is no successful output of another shape. *)
Theorem normalizer_output_shape (input : value) (r : string) :
  toProductGid input = Normal (Some r) ->
  prefix gid_prefix r = true
  /\ ((ToString input = Normal r /\ prefix gid_prefix r = true)
      \/ (exists s q,
            ToString input = Normal s /\ prefix gid_prefix s = false
            /\ StringToNumber s = Finite q /\ (0 < q)%Q
            /\ r = gid_prefix ++ to_string (Finite q))).
Proof.
  intros H. split.
  - eapply toProductGid_prefix; eauto.
  - now apply toProductGid_inv.
Qed.

Lemma normalizer_output_shape_witness :
  prefix gid_prefix "gid://shopify/Product/42" = true
  /\ ((ToString (Num (Finite 42)) = Normal "gid://shopify/Product/42"
       /\ prefix gid_prefix "gid://shopify/Product/42" = true)
      \/ (exists s q,
            ToString (Num (Finite 42)) = Normal s
            /\ prefix gid_prefix s = false
            /\ StringToNumber s = Finite q /\ (0 < q)%Q
            /\ "gid://shopify/Product/42" = gid_prefix ++ to_string (Finite q))).
Proof.
  apply (normalizer_output_shape (Num (Finite 42)) "gid://shopify/Product/42").
  vm_compute. reflexivity.
Defined.

Lemma toProductGid_positive_number (q : Q) :
  (0 < q)%Q -> is_binary64 q = true ->
  toProductGid (Num (Finite q))
  = Normal (Some (gid_prefix ++ to_string (Finite q))).
Proof.
  intros Hpos Hb. pose proof (number_round_trip q Hpos Hb) as Hrt.
  destruct (StringToNumber (to_string (Finite q))) as [| |q'] eqn:Hq';
    cbn in Hrt; try discriminate.
  apply Qeq_bool_iff in Hrt.
  assert (Hp : prefix gid_prefix (to_string (Finite q)) = false).
  { destruct (prefix gid_prefix (to_string (Finite q))) eqn:E; [|reflexivity].
    apply StringToNumber_gid in E. congruence. }
  rewrite (toProductGid_number (Num (Finite q)) _ eq_refl Hp), Hq'.
  assert (E : positive_finite (Finite q') = true).
  { apply positive_finite_spec. exists q'. split; [reflexivity|].
    now rewrite Hrt. }
  rewrite E. now rewrite (to_string_Qeq _ _ Hrt).
Qed.

Lemma toProductGid_nonpositive_number (q : Q) :
  (q <= 0)%Q -> toProductGid (Num (Finite q)) = Normal None.
Proof.
  intros Hq.
  assert (H : (Qred q <= 0)%Q) by now rewrite Qred_correct.
  unfold toProductGid. cbn [ToString and_then]. unfold to_string.
  destruct (Qred q) as [a b]. unfold Qle in H. cbn in H. cbn [Qnum].
  destruct a as [|p|p]; try lia.
  - reflexivity.
  - set (s := string_of_list_ascii _).
    change (prefix gid_prefix (String "-" s)) with false. cbv iota zeta.
    fold (positive_finite (StringToNumber (String "-" s))).
    now rewrite StringToNumber_minus.
Qed.

(** C4, as the claim states it, fails: an input that starts with the prefix
    is returned as it is, also when it is no canonical reference and no
    positive number -- a last segment that is no number, a negative one, or
    none at all -- while the claim has every such input fail. *)
Lemma noncanonical_prefix_is_kept :
  canonical_form "gid://shopify/Product/abc" = false
  /\ positive_finite (StringToNumber "gid://shopify/Product/abc") = false
  /\ toProductGid (Str "gid://shopify/Product/abc")
     = Normal (Some "gid://shopify/Product/abc")
  /\ canonical_form "gid://shopify/Product/-1" = false
  /\ positive_finite (StringToNumber "gid://shopify/Product/-1") = false
  /\ toProductGid (Str "gid://shopify/Product/-1")
     = Normal (Some "gid://shopify/Product/-1")
  /\ canonical_form gid_prefix = false
  /\ positive_finite (StringToNumber gid_prefix) = false
  /\ toProductGid (Str gid_prefix) = Normal (Some gid_prefix).
Proof. repeat split; vm_compute; reflexivity. Qed.

(** C4, amended: the Identifier Normalizer returns unchanged every input
    whose string starts with the prefix gid://shopify/Product/, the canonical
    references among them (so normalizing one of its own outputs is a
    no-op); a positive finite number, integer or not, yields the prefix
    followed by the decimal text of that number, unrounded -- for a number
    passed as such, and for any input whose numeric parse it is; and the
    result is [null] exactly for the inputs whose string neither starts with
    the prefix nor parses to a finite number greater than zero (non-numeric
    text, zero, negative, NaN, infinite). *)
Theorem normalizer_idempotent_and_embedding :
  (forall s, canonical_form s = true -> toProductGid (Str s) = Normal (Some s))
  /\ (forall input s,
        ToString input = Normal s -> prefix gid_prefix s = true ->
        toProductGid input = Normal (Some s))
  /\ (forall input r,
        toProductGid input = Normal (Some r) ->
        toProductGid (Str r) = Normal (Some r))
  /\ (forall q,
        (0 < q)%Q -> is_binary64 q = true ->
        toProductGid (Num (Finite q))
        = Normal (Some (gid_prefix ++ to_string (Finite q))))
  /\ (forall input s q,
        ToString input = Normal s -> prefix gid_prefix s = false ->
        StringToNumber s = Finite q -> (0 < q)%Q ->
        toProductGid input = Normal (Some (gid_prefix ++ to_string (Finite q))))
  /\ (forall q, (q <= 0)%Q -> toProductGid (Num (Finite q)) = Normal None)
  /\ (forall input s,
        ToString input = Normal s -> prefix gid_prefix s = false ->
        positive_finite (StringToNumber s) = false ->
        toProductGid input = Normal None)
  /\ (forall input,
        toProductGid input = Normal None
        <-> exists s,
              ToString input = Normal s /\ prefix gid_prefix s = false
              /\ positive_finite (StringToNumber s) = false)
  /\ toProductGid (Num (Finite 42)) = Normal (Some "gid://shopify/Product/42")
  /\ toProductGid (Str "42") = Normal (Some "gid://shopify/Product/42")
  /\ toProductGid (Num (Finite (7 # 2))) = Normal (Some "gid://shopify/Product/3.5")
  /\ toProductGid (Str "abc") = Normal None
  /\ toProductGid (Str "0") = Normal None
  /\ toProductGid (Str "-1") = Normal None
  /\ toProductGid (Num NaN) = Normal None
  /\ toProductGid (Str "NaN") = Normal None
  /\ toProductGid (Num (Infinity false)) = Normal None
  /\ toProductGid (Num (Infinity true)) = Normal None
  /\ toProductGid (Str "Infinity") = Normal None.
Proof.
  split; [|split; [|split; [|split; [|split; [|split; [|split; [|split]]]]]]].
  - intros s H. apply andb_true_iff in H. destruct H as [Hp _].
    now apply toProductGid_canonical.
  - apply toProductGid_canonical.
  - intros input r H. apply toProductGid_canonical; [reflexivity|].
    eapply toProductGid_prefix; eauto.
  - exact toProductGid_positive_number.
  - intros input s q Hs Hp Hq Hpos.
    rewrite (toProductGid_number _ _ Hs Hp), Hq.
    assert (E : positive_finite (Finite q) = true)
      by (apply positive_finite_spec; eauto).
    now rewrite E.
  - exact toProductGid_nonpositive_number.
  - intros input s Hs Hp Hn. rewrite (toProductGid_number _ _ Hs Hp).
    now rewrite Hn.
  - intros input. split.
    + unfold toProductGid.
      destruct (ToString input) as [s|e]; cbn [and_then]; [|discriminate].
      destruct (prefix gid_prefix s) eqn:Hp; [discriminate|].
      fold (positive_finite (StringToNumber s)).
      destruct (positive_finite (StringToNumber s)) eqn:Hn; [discriminate|].
      intros _. exists s. auto.
    + intros (s & Hs & Hp & Hn). rewrite (toProductGid_number _ _ Hs Hp).
      now rewrite Hn.
  - repeat split; vm_compute; reflexivity.
Qed.

Lemma normalizer_idempotent_and_embedding_witness :
  toProductGid (Str "gid://shopify/Product/42")
  = Normal (Some "gid://shopify/Product/42")
  /\ toProductGid (Num (Finite (7 # 2)))
     = Normal (Some (gid_prefix ++ to_string (Finite (7 # 2))))
  /\ toProductGid (Str "0x1F")
     = Normal (Some (gid_prefix ++ to_string (Finite 31)))
  /\ toProductGid (Num (Finite (-3 # 4))) = Normal None
  /\ toProductGid (Str "1e400") = Normal None.
Proof.
  destruct normalizer_idempotent_and_embedding
    as (H1 & _ & _ & H4 & H5 & H6 & H7 & _).
  split; [|split; [|split; [|split]]].
  - apply H1. vm_compute. reflexivity.
  - apply H4; [reflexivity | vm_compute; reflexivity].
  - apply (H5 (Str "0x1F") "0x1F" 31%Q);
      [reflexivity | vm_compute; reflexivity | vm_compute; reflexivity
      | reflexivity].
  - apply H6. unfold Qle. cbn. lia.
  - apply (H7 (Str "1e400") "1e400");
      [reflexivity | vm_compute; reflexivity | vm_compute; reflexivity].
Defined.

Ltac unfold_monad :=
  cbv beta iota zeta delta [bind lift ret findFirst fetch emit and_then].

Lemma web_attempt_outline (w : world) (req : request) :
  Web.attempt w req [] = web_outline w req.
Proof.
  unfold Web.attempt, web_outline, converted, remote_stage, reply_directive,
    has_user_errors, created_id, product_field, rating_field, text_field.
  unfold_monad.
  destruct (ToBoolean (shop_of req)); cbn [negb]; [|reflexivity].
  destruct (toProductGid _) as [g|]; [|reflexivity].
  destruct (ToNumber _) as [n|]; [|reflexivity].
  do 4 (destruct (ToString (coalesce _ _)); [|reflexivity]).
  cbn [productGid rating title reviewBody author email].
  destruct g as [gid|]; [|reflexivity].
  cbn [falsy]. destruct (String.eqb gid EmptyString); [reflexivity|].
  destruct (rating_rejected n); [reflexivity|].
  cbn [app]. destruct (session_findFirst w _ false) as [| |token];
    try reflexivity.
  cbn [falsy]. destruct (String.eqb token EmptyString); [reflexivity|].
  destruct (ToString (shop_of req)) as [host|]; [|reflexivity].
  unfold review_request. cbn [token_text productGid rating title reviewBody
    author email app].
  destruct (remote w _) as [| |raw [json|]]; try reflexivity.
  cbn [snd]. destruct (ToBoolean _); reflexivity.
Qed.

Lemma api_attempt_outline (w : world) (req : request) :
  Api.attempt w req [] = api_outline w req.
Proof.
  unfold Api.attempt, api_outline, api_unauthorized, converted, remote_stage,
    reply_directive, has_user_errors, created_id, product_field, rating_field,
    text_field.
  unfold_monad.
  destruct (ToBoolean (shop_of req)); cbn [negb]; [|reflexivity].
  destruct (falsy (DEV_SHOP_DOMAIN w) || falsy (DEV_ADMIN_TOKEN w)
            || Api.differs (shop_of req) (DEV_SHOP_DOMAIN w));
    [reflexivity|].
  destruct (toProductGid _) as [g|]; [|reflexivity].
  destruct (ToNumber _) as [n|]; [|reflexivity].
  do 4 (destruct (ToString (coalesce _ _)); [|reflexivity]).
  cbn [productGid rating title reviewBody author email].
  destruct g as [gid|]; [|reflexivity].
  cbn [falsy]. destruct (String.eqb gid EmptyString); [reflexivity|].
  destruct (rating_rejected n); [reflexivity|].
  destruct (ToString (shop_of req)) as [host|]; [|reflexivity].
  unfold review_request. cbn [token_text productGid rating title reviewBody
    author email app].
  destruct (remote w _) as [| |raw [json|]]; try reflexivity.
  cbn [snd]. destruct (ToBoolean _); reflexivity.
Qed.

Lemma web_submit_outline (w : world) (req : request) :
  Web.submit w req
  = (respond Web.sendHtml (return_target req) (fst (web_outline w req)),
     snd (web_outline w req)).
Proof.
  unfold Web.submit, run, try_catch, bind, lift.
  rewrite web_attempt_outline.
  destruct (web_outline w req) as [[o|e] t]; cbn [fst snd respond].
  - destruct (Web.sendHtml o); reflexivity.
  - reflexivity.
Qed.

Lemma api_submit_outline (w : world) (req : request) :
  Api.submit w req
  = (respond Api.sendHtml (return_target req) (fst (api_outline w req)),
     snd (api_outline w req)).
Proof.
  unfold Api.submit, run, try_catch, bind, lift.
  rewrite api_attempt_outline.
  destruct (api_outline w req) as [[o|e] t]; cbn [fst snd respond].
  - destruct (Api.sendHtml o); reflexivity.
  - reflexivity.
Qed.

Lemma remote_stage_request mutation w req s token before r :
  In (Request r) (snd (remote_stage mutation w req s token before)) ->
  (forall q, ~ In (Request q) before) ->
  exists host,
    ToString (shop_of req) = Normal host
    /\ r = review_request mutation token host s (now w)
    /\ remote_stage mutation w req s token before
       = (reply_directive (return_target req) (remote w r),
          (before ++ [Request r])%list).
Proof.
  unfold remote_stage. intros H Hb.
  destruct (ToString (shop_of req)) as [host|e]; cbn [snd] in H.
  - apply in_app_or in H. destruct H as [H|[H|[]]].
    + now apply Hb in H.
    + injection H as <-. now exists host.
  - now apply Hb in H.
Qed.

(** A run of [web/index.ts] that reached the remote call. *)
Lemma web_outline_request (w : world) (req : request) (r : fetch_request) :
  In (Request r) (snd (web_outline w req)) ->
  exists s token host,
    ToBoolean (shop_of req) = true
    /\ converted req = Normal s
    /\ falsy (productGid s) = false
    /\ rating_rejected (rating s) = false
    /\ session_findFirst w (shop_of req) false = Session token
    /\ String.eqb token EmptyString = false
    /\ ToString (shop_of req) = Normal host
    /\ r = review_request Web.mutation token host s (now w)
    /\ web_outline w req
       = (reply_directive (return_target req) (remote w r),
          [Lookup (shop_of req) false; Request r]).
Proof.
  unfold web_outline.
  destruct (ToBoolean (shop_of req)); cbn [negb]; [|intros []].
  destruct (converted req) as [s|e]; [|intros []].
  destruct (falsy (productGid s)) eqn:Hp; [intros []|].
  destruct (rating_rejected (rating s)) eqn:Hr; [intros []|].
  destruct (session_findFirst w (shop_of req) false) as [| |token];
    try (intros [H|[]]; discriminate).
  destruct (String.eqb token EmptyString) eqn:Ht;
    [intros [H|[]]; discriminate|].
  intros H. apply remote_stage_request in H.
  - destruct H as (host & Hh & -> & E). exists s, token, host.
    rewrite E. repeat split; auto.
  - intros q [Hq|[]]. discriminate.
Qed.

(** A run of [api/index.ts] that reached the remote call. *)
Lemma api_outline_request (w : world) (req : request) (r : fetch_request) :
  In (Request r) (snd (api_outline w req)) ->
  exists s host,
    ToBoolean (shop_of req) = true
    /\ api_unauthorized w req = false
    /\ converted req = Normal s
    /\ falsy (productGid s) = false
    /\ rating_rejected (rating s) = false
    /\ ToString (shop_of req) = Normal host
    /\ r = review_request Api.mutation (token_text (DEV_ADMIN_TOKEN w)) host s
             (now w)
    /\ api_outline w req
       = (reply_directive (return_target req) (remote w r), [Request r]).
Proof.
  unfold api_outline.
  destruct (ToBoolean (shop_of req)); cbn [negb]; [|intros []].
  destruct (api_unauthorized w req); [intros []|].
  destruct (converted req) as [s|e]; [|intros []].
  destruct (falsy (productGid s)) eqn:Hp; [intros []|].
  destruct (rating_rejected (rating s)) eqn:Hr; [intros []|].
  intros H. apply remote_stage_request in H.
  - destruct H as (host & Hh & -> & E). exists s, host.
    rewrite E. repeat split; auto.
  - intros q [].
Qed.

(** ** The rating check *)

Lemma rating_accepted_iff (n : number) :
  rating_rejected n = false
  <-> exists k, 1 <= k <= 5 /\ exists q, n = Finite q /\ (q == inject_Z k)%Q.
Proof.
  unfold rating_rejected. split.
  - intros H. apply orb_false_iff in H. destruct H as [H H5].
    apply orb_false_iff in H. destruct H as [Hi H1].
    destruct n as [| |[a b]]; try discriminate.
    cbn in Hi, H1, H5.
    apply negb_false_iff, Z.eqb_eq in Hi.
    apply negb_false_iff, Qle_bool_iff in H1.
    apply negb_false_iff, Qle_bool_iff in H5.
    unfold Qle in H1, H5. cbn in H1, H5.
    apply Z.div_exact in Hi; [|lia].
    exists (a / Zpos b). split; [nia|].
    exists (a # b). split; [reflexivity|].
    unfold Qeq. cbn. lia.
  - intros (k & Hk & q & -> & Hq). destruct q as [a b].
    unfold Qeq in Hq. cbn in Hq.
    assert (Ha : a = k * Zpos b) by lia. subst a.
    cbn. rewrite Z.mod_mul by lia. cbn.
    assert (L1 : Qle_bool 1 (k * Zpos b # b) = true)
      by (apply Qle_bool_iff; unfold Qle; cbn; nia).
    assert (L5 : Qle_bool (k * Zpos b # b) 5 = true)
      by (apply Qle_bool_iff; unfold Qle; cbn; nia).
    now rewrite L1, L5.
Qed.



(** ** Rendering *)

Lemma web_sendHtml_failure (r : reason) (rt : value) :
  Web.sendHtml (directive (Failure r) rt)
  = and_then (Web.esc (default_returnTo rt)) (fun href =>
      Normal (mk_response 200 "text/html"
        ("<!doctype html>" ++ nl
         ++ "<meta charset=" ++ quote ++ "utf-8" ++ quote ++ ">" ++ nl
         ++ "<title>We couldn't save your review</title>" ++ nl
         ++ "<style>body{font:16px/1.4 system-ui, sans-serif; padding:24px}</style>"
         ++ nl
         ++ "<h1>We couldn't save your review</h1>" ++ nl ++ nl
         ++ message_paragraph (Some (message_of r)) ++ nl
         ++ "<p><a href=" ++ quote ++ href ++ quote ++ ">Continue</a></p>" ++ nl
         ++ "<script>location.replace(" ++ script_argument (default_returnTo rt)
         ++ ");</script>"))).
Proof. reflexivity. Qed.

Lemma api_sendHtml_failure (r : reason) (rt : value) :
  Api.sendHtml (directive (Failure r) rt)
  = and_then (ToString (default_returnTo rt)) (fun href =>
      Normal (mk_response 200 "text/html"
        ("<!doctype html>" ++ nl
         ++ "<meta charset=" ++ quote ++ "utf-8" ++ quote
         ++ "><style>body{font:16px system-ui;padding:24px}</style>" ++ nl
         ++ "<h1>We couldn't save your review</h1>" ++ nl
         ++ message_paragraph (Some (message_of r)) ++ nl
         ++ "<p><a href=" ++ quote ++ href ++ quote ++ ">Continue</a></p>" ++ nl
         ++ "<script>location.replace(" ++ script_argument (default_returnTo rt)
         ++ ");</script>"))).
Proof. reflexivity. Qed.

(** Whether a failure page can be rendered depends on the return target
    alone. *)
Lemma web_failure_throws (r1 r2 : reason) (rt : value) (e : exn) :
  Web.sendHtml (directive (Failure r1) rt) = Throw e ->
  Web.sendHtml (directive (Failure r2) rt) = Throw e.
Proof.
  rewrite !web_sendHtml_failure.
  destruct (Web.esc (default_returnTo rt)); cbn; congruence.
Qed.

Lemma api_failure_throws (r1 r2 : reason) (rt : value) (e : exn) :
  Api.sendHtml (directive (Failure r1) rt) = Throw e ->
  Api.sendHtml (directive (Failure r2) rt) = Throw e.
Proof.
  rewrite !api_sendHtml_failure.
  destruct (ToString (default_returnTo rt)); cbn; congruence.
Qed.

Lemma web_respond_failure (r : reason) (rt : value) :
  respond Web.sendHtml rt (Normal (directive (Failure r) rt))
  = finish (Web.sendHtml (directive (Failure r) rt)).
Proof.
  unfold respond.
  destruct (Web.sendHtml (directive (Failure r) rt)) as [page|e] eqn:E.
  - reflexivity.
  - now rewrite (web_failure_throws _ TransportError _ _ E).
Qed.

Lemma api_respond_failure (r : reason) (rt : value) :
  respond Api.sendHtml rt (Normal (directive (Failure r) rt))
  = finish (Api.sendHtml (directive (Failure r) rt)).
Proof.
  unfold respond.
  destruct (Api.sendHtml (directive (Failure r) rt)) as [page|e] eqn:E.
  - reflexivity.
  - now rewrite (api_failure_throws _ TransportError _ _ E).
Qed.

Lemma ToString_default_returnTo (rt : value) (h : string) :
  ToString rt = Normal h -> exists h', ToString (default_returnTo rt) = Normal h'.
Proof. destruct rt; cbn; eauto. Qed.

Lemma web_failure_renders (r : reason) (rt : value) (h : string) :
  ToString rt = Normal h ->
  exists page, Web.sendHtml (directive (Failure r) rt) = Normal page.
Proof.
  intros H. rewrite web_sendHtml_failure. unfold Web.esc.
  destruct (ToString_default_returnTo _ _ H) as (h' & E).
  destruct (default_returnTo rt) eqn:D;
    try (rewrite E; cbn; eauto).
  destruct rt; discriminate.
Qed.

Lemma api_failure_renders (r : reason) (rt : value) (h : string) :
  ToString rt = Normal h ->
  exists page, Api.sendHtml (directive (Failure r) rt) = Normal page.
Proof.
  intros H. rewrite api_sendHtml_failure.
  destruct (ToString_default_returnTo _ _ H) as (h' & ->). cbn. eauto.
Qed.

Lemma web_sendHtml_status (o : opts) (page : response) :
  Web.sendHtml o = Normal page ->
  status page = 200 /\ media_type page = "text/html".
Proof.
  unfold Web.sendHtml.
  destruct (id_paragraph (id o)); cbn; [|discriminate].
  destruct (Web.esc _); cbn; [|discriminate].
  intros [= <-]. split; reflexivity.
Qed.

Lemma api_sendHtml_status (o : opts) (page : response) :
  Api.sendHtml o = Normal page ->
  status page = 200 /\ media_type page = "text/html".
Proof.
  unfold Api.sendHtml.
  destruct (id_paragraph (id o)); cbn; [|discriminate].
  destruct (ToString _); cbn; [|discriminate].
  intros [= <-]. split; reflexivity.
Qed.

(** ** The order of the checks *)

Lemma web_outline_first_failure (w : world) (req : request) (s : submission)
    (r : reason) :
  converted req = Normal s ->
  first_failure (web_checks w req s) = Some r ->
  web_outline w req
  = (Normal (directive (Failure r) (return_target req)),
     match r with
     | Unauthorized => [Lookup (shop_of req) false]
     | _ => []
     end).
Proof.
  intros Hc. unfold first_failure, web_checks, specified_checks, web_outline,
    web_no_credential. cbn [find fst snd]. rewrite Hc.
  destruct (ToBoolean (shop_of req)); cbn [negb]; [|now intros [= <-]].
  destruct (falsy (productGid s)); [now intros [= <-]|].
  destruct (rating_rejected (rating s)); [now intros [= <-]|].
  destruct (session_findFirst w (shop_of req) false) as [| |token];
    [discriminate | now intros [= <-] |].
  destruct (String.eqb token EmptyString); [now intros [= <-] | discriminate].
Qed.

Lemma api_outline_first_failure (w : world) (req : request) (s : submission)
    (r : reason) :
  converted req = Normal s ->
  first_failure (api_checks w req s) = Some r ->
  api_outline w req = (Normal (directive (Failure r) (return_target req)), []).
Proof.
  intros Hc. unfold first_failure, api_checks, api_outline.
  cbn [find fst snd]. rewrite Hc.
  destruct (ToBoolean (shop_of req)); cbn [negb]; [|now intros [= <-]].
  destruct (api_unauthorized w req); [now intros [= <-]|].
  destruct (falsy (productGid s)); [now intros [= <-]|].
  destruct (rating_rejected (rating s)); [now intros [= <-] | discriminate].
Qed.

(** C2, as the claim states it, fails on [api/index.ts]: for a shop that is
    not the dev store, with a valid product and the rating 0, the first
    failing check in the claimed order is the rating, yet the handler reports
    the missing authorization. *)
Lemma api_reports_authorization_before_rating :
  (exists s,
     converted unknown_shop_bad_rating = Normal s
     /\ first_failure
          (specified_checks
             (negb (ToBoolean (shop_of unknown_shop_bad_rating)))
             (falsy (productGid s)) (rating_rejected (rating s))
             (api_unauthorized (world_with FetchRejects)
                unknown_shop_bad_rating))
        = Some InvalidRating)
  /\ Api.attempt (world_with FetchRejects) unknown_shop_bad_rating []
     = (Normal (directive (Failure Unauthorized) (Str "/")), []).
Proof.
  split.
  - eexists. split; vm_compute; reflexivity.
  - vm_compute. reflexivity.
Qed.

(** C2, amended: for every inbound submission whose field conversions raise
    no exception, the handler of [web/index.ts] evaluates the checks in the
    order missing tenant, invalid product reference, invalid rating, missing
    credential, and the handler of [api/index.ts] in the order missing
    tenant, missing dev-store authorization, invalid product reference,
    invalid rating; each reports the reason of its first failing check; no
    failing submission reaches the network call, and in [web/index.ts] one
    that fails the tenant, product or rating check does not reach the
    credential lookup either.  A missing tenant is reported first whatever
    else the submission holds, an invalid rating included. *)
Theorem checks_in_order :
  (forall w req,
     ToBoolean (shop_of req) = false ->
     Web.attempt w req []
     = (Normal (directive (Failure MissingTenant) (return_target req)), [])
     /\ Api.attempt w req []
        = (Normal (directive (Failure MissingTenant) (return_target req)), []))
  /\ (forall w req s r,
        converted req = Normal s ->
        first_failure (web_checks w req s) = Some r ->
        exists t,
          Web.attempt w req []
          = (Normal (directive (Failure r) (return_target req)), t)
          /\ (forall q, ~ In (Request q) t)
          /\ (r <> Unauthorized -> t = []))
  /\ (forall w req s r,
        converted req = Normal s ->
        first_failure (api_checks w req s) = Some r ->
        Api.attempt w req []
        = (Normal (directive (Failure r) (return_target req)), [])).
Proof.
  split; [|split].
  - intros w req H. rewrite web_attempt_outline, api_attempt_outline.
    unfold web_outline, api_outline. now rewrite H.
  - intros w req s r Hc Hf. rewrite web_attempt_outline.
    rewrite (web_outline_first_failure _ _ _ _ Hc Hf).
    eexists. split; [reflexivity|]. split.
    + intros q. destruct r; cbn; intros [H|[]] || intros []; discriminate.
    + intros Hr. destruct r; congruence.
  - intros w req s r Hc Hf. rewrite api_attempt_outline.
    now apply api_outline_first_failure with s.
Qed.

Lemma checks_in_order_witness :
  (Web.attempt (world_with FetchRejects)
     (submission_request EmptyString [("rating", Str "0")]) []
   = (Normal (directive (Failure MissingTenant) (Str "/")), [])
   /\ Api.attempt (world_with FetchRejects)
        (submission_request EmptyString [("rating", Str "0")]) []
      = (Normal (directive (Failure MissingTenant) (Str "/")), []))
  /\ (exists t,
        Web.attempt (world_with FetchRejects) unknown_shop_bad_rating []
        = (Normal (directive (Failure InvalidRating) (Str "/")), t)
        /\ (forall q, ~ In (Request q) t)
        /\ (InvalidRating <> Unauthorized -> t = []))
  /\ Api.attempt (world_with FetchRejects) unknown_shop_bad_rating []
     = (Normal (directive (Failure Unauthorized) (Str "/")), []).
Proof.
  destruct checks_in_order as (H1 & H2 & H3).
  split; [|split].
  - refine (H1 (world_with FetchRejects)
              (submission_request EmptyString [("rating", Str "0")]) _).
    vm_compute. reflexivity.
  - refine (H2 (world_with FetchRejects) unknown_shop_bad_rating
              (mk_submission (Some "gid://shopify/Product/42") (Finite 0)
                 EmptyString EmptyString EmptyString EmptyString)
              InvalidRating _ _); vm_compute; reflexivity.
  - refine (H3 (world_with FetchRejects) unknown_shop_bad_rating
              (mk_submission (Some "gid://shopify/Product/42") (Finite 0)
                 EmptyString EmptyString EmptyString EmptyString)
              Unauthorized _ _); vm_compute; reflexivity.
Defined.

(** ** The authorization gate *)

(** C6: a submission whose tenant has no credential -- no usable offline
    session in [web/index.ts], no matching dev-store token in
    [api/index.ts] -- and whose remaining input is valid gets the directive
    of Unauthorized, with the message App not authorized for this shop, and
    the page rendered from it; no remote call is issued for a tenant without
    credential, whatever the rest of the submission is. *)
Theorem unauthorized_without_credential :
  (forall w req s,
     ToBoolean (shop_of req) = true ->
     converted req = Normal s ->
     falsy (productGid s) = false ->
     rating_rejected (rating s) = false ->
     web_no_credential w req = true ->
     Web.attempt w req []
     = (Normal (directive (Failure Unauthorized) (return_target req)),
        [Lookup (shop_of req) false])
     /\ Web.submit w req
        = (finish (Web.sendHtml
                     (directive (Failure Unauthorized) (return_target req))),
           [Lookup (shop_of req) false]))
  /\ (forall w req,
        ToBoolean (shop_of req) = true ->
        api_unauthorized w req = true ->
        Api.attempt w req []
        = (Normal (directive (Failure Unauthorized) (return_target req)), [])
        /\ Api.submit w req
           = (finish (Api.sendHtml
                        (directive (Failure Unauthorized) (return_target req))),
              []))
  /\ (forall w req q,
        web_no_credential w req = true ->
        ~ In (Request q) (snd (Web.submit w req)))
  /\ (forall w req q,
        api_unauthorized w req = true ->
        ~ In (Request q) (snd (Api.submit w req)))
  /\ message_of Unauthorized = "App not authorized for this shop".
Proof.
  split; [|split; [|split; [|split; [|reflexivity]]]].
  - intros w req s Hshop Hc Hp Hr Hn.
    assert (E : web_outline w req
                = (Normal (directive (Failure Unauthorized) (return_target req)),
                   [Lookup (shop_of req) false])).
    { apply (web_outline_first_failure w req s Unauthorized Hc).
      unfold first_failure, web_checks, specified_checks. cbn [find fst snd].
      now rewrite Hshop, Hp, Hr, Hn. }
    split.
    + now rewrite web_attempt_outline.
    + rewrite web_submit_outline, E. cbn [fst snd].
      now rewrite web_respond_failure.
  - intros w req Hshop Hn.
    assert (E : api_outline w req
                = (Normal (directive (Failure Unauthorized) (return_target req)),
                   [])).
    { unfold api_outline. now rewrite Hshop, Hn. }
    split.
    + now rewrite api_attempt_outline.
    + rewrite api_submit_outline, E. cbn [fst snd].
      now rewrite api_respond_failure.
  - intros w req q Hn. rewrite web_submit_outline. cbn [snd]. intros H.
    apply web_outline_request in H.
    destruct H as (s & token & host & _ & _ & _ & _ & Hs & Ht & _).
    unfold web_no_credential in Hn. rewrite Hs in Hn. congruence.
  - intros w req q Hn. rewrite api_submit_outline. cbn [snd]. intros H.
    apply api_outline_request in H.
    destruct H as (s & host & _ & Ha & _). congruence.
Qed.

Lemma unauthorized_without_credential_witness :
  (Web.attempt (world_with FetchRejects)
     (submission_request "other.example"
        [("product_id", Num (Finite 42)); ("rating", Str "5")]) []
   = (Normal (directive (Failure Unauthorized) (Str "/")),
      [Lookup (Str "other.example") false])
   /\ Web.submit (world_with FetchRejects)
        (submission_request "other.example"
           [("product_id", Num (Finite 42)); ("rating", Str "5")])
      = (finish (Web.sendHtml (directive (Failure Unauthorized) (Str "/"))),
         [Lookup (Str "other.example") false]))
  /\ (Api.attempt (world_with FetchRejects) unknown_shop_bad_rating []
      = (Normal (directive (Failure Unauthorized) (Str "/")), [])
      /\ Api.submit (world_with FetchRejects) unknown_shop_bad_rating
         = (finish (Api.sendHtml (directive (Failure Unauthorized) (Str "/"))),
            [])).
Proof.
  destruct unauthorized_without_credential as (Hweb & Hapi & _).
  split.
  - refine (Hweb (world_with FetchRejects)
              (submission_request "other.example"
                 [("product_id", Num (Finite 42)); ("rating", Str "5")])
              (mk_submission (Some "gid://shopify/Product/42") (Finite 5)
                 EmptyString EmptyString EmptyString EmptyString) _ _ _ _ _);
      vm_compute; reflexivity.
  - refine (Hapi (world_with FetchRejects) unknown_shop_bad_rating _ _);
      vm_compute; reflexivity.
Defined.

(** ** The Mutation Builder *)

Lemma iso_shape_toISOString (t : Z) : iso_shape (toISOString t) = true.
Proof.
  unfold toISOString. destruct (civil_from_days (t / 86400000)) as [[y m] d].
  unfold year_digits.
  destruct ((0 <=? y) && (y <=? 9999)); [|destruct (y <? 0)];
    unfold iso_shape;
    cbn [pad append list_ascii_of_string iso_time_shape];
    rewrite ?is_digit_digit_char; reflexivity.
Qed.

Lemma accepted_rating_text (n : number) :
  rating_rejected n = false -> In (to_string n) ["1"; "2"; "3"; "4"; "5"].
Proof.
  intros H. apply rating_accepted_iff in H.
  destruct H as (k & Hk & q & -> & Hq).
  rewrite (to_string_Qeq _ _ Hq).
  assert (C : k = 1 \/ k = 2 \/ k = 3 \/ k = 4 \/ k = 5) by lia.
  destruct C as [->|[->|[->|[->| ->]]]]; vm_compute; tauto.
Qed.

Lemma falsy_false (g : option string) :
  falsy g = false -> exists gid, g = Some gid.
Proof. destruct g; [eauto | discriminate]. Qed.

Lemma review_request_fields mutation token host s t gid :
  productGid s = Some gid ->
  graphql_fields (review_request mutation token host s t)
  = [ ("product", gid); ("rating", to_string (rating s));
      ("title", title s); ("body", reviewBody s); ("author", author s);
      ("email", email s); ("status", "approved");
      ("created", toISOString t) ].
Proof. intros H. unfold review_request, review_fields. cbn. now rewrite H. Qed.

Lemma converted_productGid (req : request) (s : submission) :
  converted req = Normal s ->
  toProductGid (product_field req) = Normal (productGid s).
Proof.
  unfold converted.
  destruct (toProductGid (product_field req)); cbn; [|discriminate].
  destruct (ToNumber _); cbn; [|discriminate].
  do 4 (destruct (ToString _); cbn; [|discriminate]).
  now intros [= <-].
Qed.

(** C7: a validated submission with a credential makes exactly one remote
    call, and the payload of every remote call a handler issues has exactly
    these eight fields, in this order: the normalized product reference, the
    rating as text (one of 1 to 5), title, body, author, email, the status
    approved whatever the input, and the creation time in ISO date-time
    text. *)
Theorem mutation_fields_fixed :
  (forall w req s token host,
     ToBoolean (shop_of req) = true ->
     converted req = Normal s ->
     falsy (productGid s) = false ->
     rating_rejected (rating s) = false ->
     session_findFirst w (shop_of req) false = Session token ->
     String.eqb token EmptyString = false ->
     ToString (shop_of req) = Normal host ->
     snd (Web.submit w req)
     = [Lookup (shop_of req) false;
        Request (review_request Web.mutation token host s (now w))])
  /\ (forall w req s host,
        ToBoolean (shop_of req) = true ->
        api_unauthorized w req = false ->
        converted req = Normal s ->
        falsy (productGid s) = false ->
        rating_rejected (rating s) = false ->
        ToString (shop_of req) = Normal host ->
        snd (Api.submit w req)
        = [Request (review_request Api.mutation
                      (token_text (DEV_ADMIN_TOKEN w)) host s (now w))])
  /\ (forall w req r,
        In (Request r) (snd (Web.submit w req))
        \/ In (Request r) (snd (Api.submit w req)) ->
        exists s gid,
          converted req = Normal s
          /\ toProductGid (product_field req) = Normal (Some gid)
          /\ graphql_fields r
             = [ ("product", gid); ("rating", to_string (rating s));
                 ("title", title s); ("body", reviewBody s);
                 ("author", author s); ("email", email s);
                 ("status", "approved");
                 ("created", toISOString (now w)) ]
          /\ List.length (graphql_fields r) = 8%nat
          /\ In (to_string (rating s)) ["1"; "2"; "3"; "4"; "5"]
          /\ iso_shape (toISOString (now w)) = true).
Proof.
  split; [|split].
  - intros w req s token host Hshop Hc Hp Hr Hs Ht Hh.
    rewrite web_submit_outline. cbn [snd]. unfold web_outline, remote_stage.
    now rewrite Hshop, Hc, Hp, Hr, Hs, Ht, Hh.
  - intros w req s host Hshop Ha Hc Hp Hr Hh.
    rewrite api_submit_outline. cbn [snd]. unfold api_outline, remote_stage.
    now rewrite Hshop, Ha, Hc, Hp, Hr, Hh.
  - intros w req r. rewrite web_submit_outline, api_submit_outline. cbn [snd].
    intros [H|H].
    + apply web_outline_request in H.
      destruct H as (s & token & host & _ & Hc & Hp & Hr & _ & _ & _ & -> & _).
      destruct (falsy_false _ Hp) as (gid & Hg).
      exists s, gid. rewrite (review_request_fields _ _ _ _ _ _ Hg).
      repeat split; auto using accepted_rating_text, iso_shape_toISOString.
      rewrite <- Hg. now apply converted_productGid.
    + apply api_outline_request in H.
      destruct H as (s & host & _ & _ & Hc & Hp & Hr & _ & -> & _).
      destruct (falsy_false _ Hp) as (gid & Hg).
      exists s, gid. rewrite (review_request_fields _ _ _ _ _ _ Hg).
      repeat split; auto using accepted_rating_text, iso_shape_toISOString.
      rewrite <- Hg. now apply converted_productGid.
Qed.

Lemma mutation_fields_fixed_witness :
  snd (Web.submit (world_with (json_reply created_reply_json)) valid_submission)
  = [Lookup (Str "shop.example") false;
     Request (review_request Web.mutation "shpat_offline" "shop.example"
                (mk_submission (Some "gid://shopify/Product/42") (Finite 5)
                   EmptyString EmptyString EmptyString EmptyString)
                1730419200000)]
  /\ graphql_fields
       (review_request Web.mutation "shpat_offline" "shop.example"
          (mk_submission (Some "gid://shopify/Product/42") (Finite 5)
             EmptyString EmptyString EmptyString EmptyString)
          1730419200000)
     = [ ("product", "gid://shopify/Product/42"); ("rating", "5");
         ("title", EmptyString); ("body", EmptyString);
         ("author", EmptyString); ("email", EmptyString);
         ("status", "approved"); ("created", "2024-11-01T00:00:00.000Z") ].
Proof.
  destruct mutation_fields_fixed as (Hweb & _ & _).
  split.
  - refine (Hweb (world_with (json_reply created_reply_json)) valid_submission
              (mk_submission (Some "gid://shopify/Product/42") (Finite 5)
                 EmptyString EmptyString EmptyString EmptyString)
              "shpat_offline" "shop.example" _ _ _ _ _ _ _);
      vm_compute; reflexivity.
  - vm_compute. reflexivity.
Defined.

(** ** The Remote Submitter *)

Lemma web_submit_caught (w : world) (req : request) (e : exn) (t : list event) :
  Web.attempt w req [] = (Throw e, t) ->
  Web.submit w req
  = (finish (Web.sendHtml (directive (Failure TransportError) (return_target req))),
     t).
Proof.
  rewrite web_attempt_outline, web_submit_outline. now intros ->.
Qed.

Lemma api_submit_caught (w : world) (req : request) (e : exn) (t : list event) :
  Api.attempt w req [] = (Throw e, t) ->
  Api.submit w req
  = (finish (Api.sendHtml (directive (Failure TransportError) (return_target req))),
     t).
Proof.
  rewrite api_attempt_outline, api_submit_outline. now intros ->.
Qed.

Lemma has_user_errors_nonempty (json e : value) (errs : list value) :
  get_opt (metaobjectCreate json) "userErrors" = Arr (e :: errs) ->
  has_user_errors json = true.
Proof.
  intros H. unfold has_user_errors. rewrite H.
  change (negb (Qeq_bool (inject_Z (Z.of_nat (List.length (e :: errs)))) 0)
          = true).
  destruct (Qeq_bool _ 0) eqn:E; [|reflexivity].
  apply Qeq_bool_iff in E. unfold Qeq in E. cbn in E. lia.
Qed.

Lemma has_user_errors_absent (json : value) :
  is_nullish (get_opt (metaobjectCreate json) "userErrors") = true
  \/ get_opt (metaobjectCreate json) "userErrors" = Arr [] ->
  has_user_errors json = false.
Proof.
  unfold has_user_errors, coalesce.
  intros [H|H]; [rewrite H | rewrite H]; reflexivity.
Qed.

(** C1, as the claim states it, fails: a reply that parses and carries no
    error list, here the empty JSON object, is reported as success although
    it carries no identifier of a created entity. *)
Lemma success_without_identifier :
  has_user_errors (Obj []) = false
  /\ fst (Web.attempt (world_with (json_reply (Obj []))) valid_submission [])
     = Normal (mk_opts true (Str "/") Undefined None)
  /\ fst (Api.attempt (world_with (json_reply (Obj []))) valid_submission [])
     = Normal (mk_opts true (Str "/") Undefined None).
Proof. repeat split; vm_compute; reflexivity. Qed.

(** C1, amended: for every remote call a handler issues, a rejected call (of
    [fetch] or of reading the body) ends in the page of Server error; a body
    that does not parse as JSON gives the directive of API returned non-JSON;
    a parsed reply whose [userErrors] has a truthy [length], as every
    nonempty error list has, gives the directive of Validation error, the
    same whatever the errors are; every other parsed reply gives the
    directive of success with the value found at
    [data.metaobjectCreate.metaobject.id], which is [undefined] when the
    reply has none. *)
Theorem remote_reply_classified :
  (forall w req r,
     In (Request r) (snd (Web.submit w req)) ->
     match remote w r with
     | FetchRejects | TextRejects =>
         fst (Web.submit w req)
         = finish (Web.sendHtml
                     (directive (Failure TransportError) (return_target req)))
     | Body _ None =>
         fst (Web.attempt w req [])
         = Normal (directive (Failure RemoteUnparseable) (return_target req))
     | Body _ (Some json) =>
         fst (Web.attempt w req [])
         = Normal (directive
                     (if has_user_errors json
                      then Failure RemoteValidationError
                      else Success (created_id json))
                     (return_target req))
     end)
  /\ (forall w req r,
        In (Request r) (snd (Api.submit w req)) ->
        match remote w r with
        | FetchRejects | TextRejects =>
            fst (Api.submit w req)
            = finish (Api.sendHtml
                        (directive (Failure TransportError) (return_target req)))
        | Body _ None =>
            fst (Api.attempt w req [])
            = Normal (directive (Failure RemoteUnparseable) (return_target req))
        | Body _ (Some json) =>
            fst (Api.attempt w req [])
            = Normal (directive
                        (if has_user_errors json
                         then Failure RemoteValidationError
                         else Success (created_id json))
                        (return_target req))
        end)
  /\ (forall json e errs,
        get_opt (metaobjectCreate json) "userErrors" = Arr (e :: errs) ->
        has_user_errors json = true)
  /\ (forall json,
        is_nullish (get_opt (metaobjectCreate json) "userErrors") = true
        \/ get_opt (metaobjectCreate json) "userErrors" = Arr [] ->
        has_user_errors json = false)
  /\ message_of RemoteUnparseable = "API returned non-JSON"
  /\ message_of RemoteValidationError = "Validation error"
  /\ message_of TransportError = "Server error".
Proof.
  split; [|split; [|split; [|split; [|repeat split]]]].
  - intros w req r. rewrite web_submit_outline. cbn [snd]. intros H.
    apply web_outline_request in H.
    destruct H as (s & token & host & _ & _ & _ & _ & _ & _ & _ & _ & E).
    rewrite web_attempt_outline, E. cbn [fst].
    destruct (remote w r) as [| |raw [json|]]; cbn; try reflexivity.
    destruct (has_user_errors json); reflexivity.
  - intros w req r. rewrite api_submit_outline. cbn [snd]. intros H.
    apply api_outline_request in H.
    destruct H as (s & host & _ & _ & _ & _ & _ & _ & _ & E).
    rewrite api_attempt_outline, E. cbn [fst].
    destruct (remote w r) as [| |raw [json|]]; cbn; try reflexivity.
    destruct (has_user_errors json); reflexivity.
  - exact has_user_errors_nonempty.
  - exact has_user_errors_absent.
Qed.

Lemma remote_reply_classified_witness :
  fst (Web.attempt (world_with (json_reply rejected_reply_json))
         valid_submission [])
  = Normal (directive (Failure RemoteValidationError) (Str "/"))
  /\ fst (Api.attempt (world_with (json_reply created_reply_json))
            valid_submission [])
     = Normal (directive (Success (Str "gid://x/Metaobject/1")) (Str "/"))
  /\ has_user_errors rejected_reply_json = true
  /\ has_user_errors (Obj [("errors", Str "Throttled")]) = false.
Proof.
  destruct remote_reply_classified as (Hweb & Hapi & Hne & Habs & _).
  split; [|split; [|split]].
  - refine (Hweb (world_with (json_reply rejected_reply_json)) valid_submission
              (review_request Web.mutation "shpat_offline" "shop.example"
                 (mk_submission (Some "gid://shopify/Product/42") (Finite 5)
                    EmptyString EmptyString EmptyString EmptyString)
                 1730419200000) _).
    vm_compute. right. left. reflexivity.
  - refine (Hapi (world_with (json_reply created_reply_json)) valid_submission
              (review_request Api.mutation "shpat_dev" "shop.example"
                 (mk_submission (Some "gid://shopify/Product/42") (Finite 5)
                    EmptyString EmptyString EmptyString EmptyString)
                 1730419200000) _).
    vm_compute. left. reflexivity.
  - refine (Hne rejected_reply_json
              (Obj [("field", Str "rating"); ("message", Str "bad")]) [] _).
    reflexivity.
  - refine (Habs (Obj [("errors", Str "Throttled")]) _). left. reflexivity.
Defined.

(** ** The Outcome Reporter *)

Ltac from_outcome o :=
  let H := fresh in intros H; exists o; cbn [fst] in H; congruence.

Lemma reply_directive_outcome (rt : value) (reply : fetch_reply) (d : opts) :
  reply_directive rt reply = Normal d -> exists o, d = directive o rt.
Proof.
  destruct reply as [| |raw [json|]]; cbn [reply_directive]; try discriminate.
  - destruct (has_user_errors json);
      [from_outcome (Failure RemoteValidationError)
      | from_outcome (Success (created_id json))].
  - from_outcome (Failure RemoteUnparseable).
Qed.

Lemma remote_stage_outcome mutation w req s token before d :
  fst (remote_stage mutation w req s token before) = Normal d ->
  exists o, d = directive o (return_target req).
Proof.
  unfold remote_stage. destruct (ToString (shop_of req)); cbn [fst].
  - apply reply_directive_outcome.
  - discriminate.
Qed.

Lemma web_outline_outcome (w : world) (req : request) (d : opts) :
  fst (web_outline w req) = Normal d ->
  exists o, d = directive o (return_target req).
Proof.
  unfold web_outline.
  destruct (negb (ToBoolean (shop_of req)));
    [from_outcome (Failure MissingTenant)|].
  destruct (converted req) as [s|e]; [|discriminate].
  destruct (falsy (productGid s));
    [from_outcome (Failure InvalidProductReference)|].
  destruct (rating_rejected (rating s)); [from_outcome (Failure InvalidRating)|].
  destruct (session_findFirst w (shop_of req) false) as [| |token];
    [discriminate | from_outcome (Failure Unauthorized) |].
  destruct (String.eqb token EmptyString);
    [from_outcome (Failure Unauthorized)|].
  apply remote_stage_outcome.
Qed.

Lemma api_outline_outcome (w : world) (req : request) (d : opts) :
  fst (api_outline w req) = Normal d ->
  exists o, d = directive o (return_target req).
Proof.
  unfold api_outline.
  destruct (negb (ToBoolean (shop_of req)));
    [from_outcome (Failure MissingTenant)|].
  destruct (api_unauthorized w req); [from_outcome (Failure Unauthorized)|].
  destruct (converted req) as [s|e]; [|discriminate].
  destruct (falsy (productGid s));
    [from_outcome (Failure InvalidProductReference)|].
  destruct (rating_rejected (rating s)); [from_outcome (Failure InvalidRating)|].
  apply remote_stage_outcome.
Qed.

Lemma respond_outcome (send : opts -> completion response) (rt : value)
    (c : completion opts) :
  (forall d, c = Normal d -> exists o, d = directive o rt) ->
  exists o, respond send rt c = finish (send (directive o rt)).
Proof.
  intros H. destruct c as [d|e]; unfold respond.
  - destruct (H d eq_refl) as (o & ->).
    destruct (send (directive o rt)) as [page|e] eqn:E.
    + exists o. now rewrite E.
    + now exists (Failure TransportError).
  - now exists (Failure TransportError).
Qed.

Lemma esc_defaulted (rt : value) :
  Web.esc (default_returnTo rt)
  = and_then (ToString (default_returnTo rt))
      (fun s => Normal (replace_quotes s)).
Proof. destruct rt; reflexivity. Qed.

Lemma web_sendHtml_page (o : opts) (a h : string) :
  id_paragraph (id o) = Normal a ->
  ToString (default_returnTo (returnTo o)) = Normal h ->
  Web.sendHtml o
  = Normal (mk_response 200 "text/html"
      ("<!doctype html>" ++ nl
       ++ "<meta charset=" ++ quote ++ "utf-8" ++ quote ++ ">" ++ nl
       ++ "<title>" ++ (if ok o then "Thanks!"
                        else "We couldn't save your review") ++ "</title>"
       ++ nl
       ++ "<style>body{font:16px/1.4 system-ui, sans-serif; padding:24px}</style>"
       ++ nl
       ++ "<h1>" ++ (if ok o then "Thanks for your review!"
                     else "We couldn't save your review") ++ "</h1>" ++ nl
       ++ a ++ nl
       ++ message_paragraph (message o) ++ nl
       ++ "<p><a href=" ++ quote ++ replace_quotes h ++ quote
       ++ ">Continue</a></p>" ++ nl
       ++ "<script>location.replace("
       ++ script_argument (default_returnTo (returnTo o)) ++ ");</script>")).
Proof.
  intros Ha Hh. unfold Web.sendHtml. rewrite Ha. cbn [and_then].
  rewrite esc_defaulted, Hh. reflexivity.
Qed.

Lemma api_sendHtml_page (o : opts) (a h : string) :
  id_paragraph (id o) = Normal a ->
  ToString (default_returnTo (returnTo o)) = Normal h ->
  Api.sendHtml o
  = Normal (mk_response 200 "text/html"
      ("<!doctype html>" ++ nl
       ++ "<meta charset=" ++ quote ++ "utf-8" ++ quote
       ++ "><style>body{font:16px system-ui;padding:24px}</style>" ++ nl
       ++ "<h1>" ++ (if ok o then "Thanks for your review!"
                     else "We couldn't save your review") ++ "</h1>" ++ nl
       ++ a ++ message_paragraph (message o) ++ nl
       ++ "<p><a href=" ++ quote ++ h ++ quote ++ ">Continue</a></p>" ++ nl
       ++ "<script>location.replace("
       ++ script_argument (default_returnTo (returnTo o)) ++ ");</script>")).
Proof.
  intros Ha Hh. unfold Api.sendHtml. rewrite Ha. cbn [and_then].
  rewrite Hh. reflexivity.
Qed.

Lemma web_renders_iff (o : opts) :
  (exists page, Web.sendHtml o = Normal page)
  <-> (exists a, id_paragraph (id o) = Normal a)
      /\ (exists h, ToString (default_returnTo (returnTo o)) = Normal h).
Proof.
  split.
  - intros (page & H). unfold Web.sendHtml in H.
    destruct (id_paragraph (id o)) as [a|]; cbn [and_then] in H;
      [|discriminate].
    rewrite esc_defaulted in H.
    destruct (ToString (default_returnTo (returnTo o))) as [h|];
      [eauto | discriminate].
  - intros ((a & Ha) & (h & Hh)). rewrite (web_sendHtml_page o a h Ha Hh).
    eauto.
Qed.

Lemma api_renders_iff (o : opts) :
  (exists page, Api.sendHtml o = Normal page)
  <-> (exists a, id_paragraph (id o) = Normal a)
      /\ (exists h, ToString (default_returnTo (returnTo o)) = Normal h).
Proof.
  split.
  - intros (page & H). unfold Api.sendHtml in H.
    destruct (id_paragraph (id o)) as [a|]; cbn [and_then] in H;
      [|discriminate].
    destruct (ToString (default_returnTo (returnTo o))) as [h|];
      [eauto | discriminate].
  - intros ((a & Ha) & (h & Hh)). rewrite (api_sendHtml_page o a h Ha Hh).
    eauto.
Qed.

Lemma failure_id_paragraph (r : reason) (rt : value) :
  id_paragraph (id (directive (Failure r) rt)) = Normal EmptyString.
Proof. reflexivity. Qed.

(** Pages of different failures differ. *)
Lemma web_failure_pages_differ (r1 r2 : reason) (rt : value) (page : response) :
  Web.sendHtml (directive (Failure r1) rt) = Normal page ->
  Web.sendHtml (directive (Failure r2) rt) = Normal page ->
  r1 = r2.
Proof.
  intros H1 H2.
  destruct (proj1 (web_renders_iff _) (ex_intro _ page H1)) as (_ & h & Hh).
  rewrite (web_sendHtml_page _ EmptyString h (failure_id_paragraph r1 rt) Hh)
    in H1.
  rewrite (web_sendHtml_page _ EmptyString h (failure_id_paragraph r2 rt) Hh)
    in H2.
  rewrite <- H2 in H1. clear H2.
  destruct r1, r2; try reflexivity; discriminate H1.
Qed.

Lemma api_failure_pages_differ (r1 r2 : reason) (rt : value) (page : response) :
  Api.sendHtml (directive (Failure r1) rt) = Normal page ->
  Api.sendHtml (directive (Failure r2) rt) = Normal page ->
  r1 = r2.
Proof.
  intros H1 H2.
  destruct (proj1 (api_renders_iff _) (ex_intro _ page H1)) as (_ & h & Hh).
  rewrite (api_sendHtml_page _ EmptyString h (failure_id_paragraph r1 rt) Hh)
    in H1.
  rewrite (api_sendHtml_page _ EmptyString h (failure_id_paragraph r2 rt) Hh)
    in H2.
  rewrite <- H2 in H1. clear H2.
  destruct r1, r2; try reflexivity; discriminate H1.
Qed.

(** The page of a success is the page of no failure. *)
Lemma web_success_page_differs (i rt : value) (r : reason) (page : response) :
  Web.sendHtml (directive (Success i) rt) = Normal page ->
  Web.sendHtml (directive (Failure r) rt) = Normal page -> False.
Proof.
  intros H1 H2.
  destruct (proj1 (web_renders_iff _) (ex_intro _ page H1)) as ((a & Ha) & h & Hh).
  rewrite (web_sendHtml_page _ a h Ha Hh) in H1.
  rewrite (web_sendHtml_page _ EmptyString h (failure_id_paragraph r rt) Hh)
    in H2.
  rewrite <- H2 in H1. discriminate H1.
Qed.

Lemma api_success_page_differs (i rt : value) (r : reason) (page : response) :
  Api.sendHtml (directive (Success i) rt) = Normal page ->
  Api.sendHtml (directive (Failure r) rt) = Normal page -> False.
Proof.
  intros H1 H2.
  destruct (proj1 (api_renders_iff _) (ex_intro _ page H1)) as ((a & Ha) & h & Hh).
  rewrite (api_sendHtml_page _ a h Ha Hh) in H1.
  rewrite (api_sendHtml_page _ EmptyString h (failure_id_paragraph r rt) Hh)
    in H2.
  rewrite <- H2 in H1. discriminate H1.
Qed.

(** C8, as the claim states it, fails: the reporter is not total.  The
    return target of a JSON post may be an object that hides [toString]; for
    such a target [sendHtml] throws a [TypeError] whatever the outcome, in
    both entry points. *)
Lemma reporter_throws_on_opaque_target :
  return_target opaque_return_target = Obj [("toString", Num (Finite 1))]
  /\ Web.sendHtml
       (directive (Failure MissingTenant) (return_target opaque_return_target))
     = Throw TypeError
  /\ Api.sendHtml
       (directive (Failure MissingTenant) (return_target opaque_return_target))
     = Throw TypeError
  /\ Web.sendHtml
       (directive (Success (Str "gid://x/Metaobject/1"))
          (return_target opaque_return_target))
     = Throw TypeError
  /\ Api.sendHtml
       (directive (Success (Str "gid://x/Metaobject/1"))
          (return_target opaque_return_target))
     = Throw TypeError.
Proof. repeat split; vm_compute; reflexivity. Qed.

(** C8, amended: the Outcome Reporter is pure and deterministic, and total
    on the directives whose identifier and return target convert to strings.
    Each of the seven failure kinds and success has exactly one literal
    directive (ok flag, identifier, message, return target), from which the
    outcome can be read back; each [try] block is the chain of checks that
    passes, at every exit, the directive of that exit's outcome, and [submit]
    renders it, or the directive of Server error when the block or the
    rendering threw.  [sendHtml] renders a directive exactly when the
    identifier paragraph and the return target convert to strings, and then
    gives the page written out below, with status 200; the pages of two
    different failures, and of a success and a failure, differ; and two runs
    with the same outcome and return target answer with the same page, byte
    for byte. *)
Theorem outcome_reporter_exact :
  (forall o rt,
     outcome_of (directive o rt) = Some o /\ returnTo (directive o rt) = rt)
  /\ (forall r rt,
        directive (Failure r) rt
        = mk_opts false rt Undefined (Some (message_of r)))
  /\ (forall i rt, directive (Success i) rt = mk_opts true rt i None)
  /\ (forall r,
        In r [MissingTenant; InvalidProductReference; InvalidRating;
              Unauthorized; RemoteValidationError; RemoteUnparseable;
              TransportError])
  /\ (forall w req,
        Web.attempt w req [] = web_outline w req
        /\ Api.attempt w req [] = api_outline w req)
  /\ (forall w req,
        Web.submit w req
        = (respond Web.sendHtml (return_target req) (fst (Web.attempt w req [])),
           snd (Web.attempt w req []))
        /\ Api.submit w req
           = (respond Api.sendHtml (return_target req)
                (fst (Api.attempt w req [])),
              snd (Api.attempt w req [])))
  /\ (forall w req d,
        fst (Web.attempt w req []) = Normal d
        \/ fst (Api.attempt w req []) = Normal d ->
        exists o,
          d = directive o (return_target req) /\ outcome_of d = Some o)
  /\ (forall o,
        ((exists page, Web.sendHtml o = Normal page)
         <-> (exists a, id_paragraph (id o) = Normal a)
             /\ (exists h,
                   ToString (default_returnTo (returnTo o)) = Normal h))
        /\ ((exists page, Api.sendHtml o = Normal page)
            <-> (exists a, id_paragraph (id o) = Normal a)
                /\ (exists h,
                      ToString (default_returnTo (returnTo o)) = Normal h)))
  /\ (forall o a h,
        id_paragraph (id o) = Normal a ->
        ToString (default_returnTo (returnTo o)) = Normal h ->
        Web.sendHtml o
        = Normal (mk_response 200 "text/html"
            ("<!doctype html>" ++ nl
             ++ "<meta charset=" ++ quote ++ "utf-8" ++ quote ++ ">" ++ nl
             ++ "<title>" ++ (if ok o then "Thanks!"
                              else "We couldn't save your review")
             ++ "</title>" ++ nl
             ++ "<style>body{font:16px/1.4 system-ui, sans-serif; padding:24px}</style>"
             ++ nl
             ++ "<h1>" ++ (if ok o then "Thanks for your review!"
                           else "We couldn't save your review") ++ "</h1>"
             ++ nl
             ++ a ++ nl
             ++ message_paragraph (message o) ++ nl
             ++ "<p><a href=" ++ quote ++ replace_quotes h ++ quote
             ++ ">Continue</a></p>" ++ nl
             ++ "<script>location.replace("
             ++ script_argument (default_returnTo (returnTo o))
             ++ ");</script>"))
        /\ Api.sendHtml o
           = Normal (mk_response 200 "text/html"
               ("<!doctype html>" ++ nl
                ++ "<meta charset=" ++ quote ++ "utf-8" ++ quote
                ++ "><style>body{font:16px system-ui;padding:24px}</style>"
                ++ nl
                ++ "<h1>" ++ (if ok o then "Thanks for your review!"
                              else "We couldn't save your review")
                ++ "</h1>" ++ nl
                ++ a ++ message_paragraph (message o) ++ nl
                ++ "<p><a href=" ++ quote ++ h ++ quote
                ++ ">Continue</a></p>" ++ nl
                ++ "<script>location.replace("
                ++ script_argument (default_returnTo (returnTo o))
                ++ ");</script>")))
  /\ (forall r1 r2 rt page,
        (Web.sendHtml (directive (Failure r1) rt) = Normal page
         /\ Web.sendHtml (directive (Failure r2) rt) = Normal page)
        \/ (Api.sendHtml (directive (Failure r1) rt) = Normal page
            /\ Api.sendHtml (directive (Failure r2) rt) = Normal page) ->
        r1 = r2)
  /\ (forall i r rt page,
        (Web.sendHtml (directive (Success i) rt) = Normal page
         /\ Web.sendHtml (directive (Failure r) rt) = Normal page)
        \/ (Api.sendHtml (directive (Success i) rt) = Normal page
            /\ Api.sendHtml (directive (Failure r) rt) = Normal page) ->
        False)
  /\ (forall w1 req1 w2 req2 o,
        fst (Web.attempt w1 req1 []) = Normal (directive o (return_target req1)) ->
        fst (Web.attempt w2 req2 []) = Normal (directive o (return_target req2)) ->
        return_target req1 = return_target req2 ->
        fst (Web.submit w1 req1) = fst (Web.submit w2 req2))
  /\ (forall w1 req1 w2 req2 o,
        fst (Api.attempt w1 req1 []) = Normal (directive o (return_target req1)) ->
        fst (Api.attempt w2 req2 []) = Normal (directive o (return_target req2)) ->
        return_target req1 = return_target req2 ->
        fst (Api.submit w1 req1) = fst (Api.submit w2 req2)).
Proof.
  assert (D : forall o rt,
             outcome_of (directive o rt) = Some o
             /\ returnTo (directive o rt) = rt).
  { intros [i|r] rt; split; try reflexivity. destruct r; reflexivity. }
  split; [exact D|].
  split; [reflexivity|]. split; [reflexivity|].
  split; [intros r; destruct r; cbn; tauto|].
  split; [intros w req; split;
          [apply web_attempt_outline | apply api_attempt_outline]|].
  split.
  { intros w req. rewrite web_attempt_outline, api_attempt_outline.
    split; [apply web_submit_outline | apply api_submit_outline]. }
  split.
  { intros w req d. rewrite web_attempt_outline, api_attempt_outline.
    intros [H|H];
      [apply web_outline_outcome in H | apply api_outline_outcome in H];
      destruct H as (o & ->); exists o; split; [reflexivity | apply D |
                                                 reflexivity | apply D]. }
  split; [intros o; split; [apply web_renders_iff | apply api_renders_iff]|].
  split.
  { intros o a h Ha Hh.
    split; [now apply web_sendHtml_page | now apply api_sendHtml_page]. }
  split.
  { intros r1 r2 rt page [[H1 H2]|[H1 H2]];
      [eapply web_failure_pages_differ | eapply api_failure_pages_differ];
      eauto. }
  split.
  { intros i r rt page [[H1 H2]|[H1 H2]];
      [eapply web_success_page_differs | eapply api_success_page_differs];
      eauto. }
  split.
  - intros w1 req1 w2 req2 o H1 H2 Hrt.
    rewrite web_attempt_outline in H1, H2.
    rewrite !web_submit_outline. cbn [fst]. now rewrite H1, H2, Hrt.
  - intros w1 req1 w2 req2 o H1 H2 Hrt.
    rewrite api_attempt_outline in H1, H2.
    rewrite !api_submit_outline. cbn [fst]. now rewrite H1, H2, Hrt.
Qed.

Lemma outcome_reporter_exact_witness :
  Web.sendHtml (directive (Failure Unauthorized) (Str "/cart"))
  = Normal (mk_response 200 "text/html"
      ("<!doctype html>" ++ nl
       ++ "<meta charset=" ++ quote ++ "utf-8" ++ quote ++ ">" ++ nl
       ++ "<title>We couldn't save your review</title>" ++ nl
       ++ "<style>body{font:16px/1.4 system-ui, sans-serif; padding:24px}</style>"
       ++ nl
       ++ "<h1>We couldn't save your review</h1>" ++ nl ++ nl
       ++ "<p><small>App not authorized for this shop</small></p>" ++ nl
       ++ "<p><a href=" ++ quote ++ "/cart" ++ quote ++ ">Continue</a></p>"
       ++ nl
       ++ "<script>location.replace(" ++ quote ++ "/cart" ++ quote
       ++ ");</script>"))
  /\ fst (Web.submit (world_with FetchRejects) unknown_shop_bad_rating)
     = fst (Web.submit (world_with (json_reply created_reply_json))
              (submission_request "shop.example"
                 [("productId", Str "7"); ("rating", Num (Finite 6));
                  ("title", Str "Great")])).
Proof.
  destruct outcome_reporter_exact
    as (_ & _ & _ & _ & _ & _ & _ & _ & Hpage & _ & _ & Hsame & _).
  split.
  - apply (proj1 (Hpage (directive (Failure Unauthorized) (Str "/cart"))
                    EmptyString "/cart" eq_refl eq_refl)).
  - refine (Hsame (world_with FetchRejects) unknown_shop_bad_rating
              (world_with (json_reply created_reply_json))
              (submission_request "shop.example"
                 [("productId", Str "7"); ("rating", Num (Finite 6));
                  ("title", Str "Great")])
              (Failure InvalidRating) _ _ _); vm_compute; reflexivity.
Defined.

(** ** Status, delivery and totality of the handlers *)

Lemma respond_sent (send : opts -> completion response) (rt : value)
    (c : completion opts) (page : response) :
  respond send rt c = Sent page -> exists o, send o = Normal page.
Proof.
  unfold respond, finish. destruct c as [o|e].
  - destruct (send o) as [p|e'] eqn:E.
    + intros [= <-]. eauto.
    + destruct (send (directive _ rt)) eqn:E'; [|discriminate].
      intros [= <-]. eauto.
  - destruct (send (directive _ rt)) eqn:E'; [|discriminate].
    intros [= <-]. eauto.
Qed.

Lemma respond_total (send : opts -> completion response) (rt : value)
    (c : completion opts) (fallback : response) :
  send (directive (Failure TransportError) rt) = Normal fallback ->
  exists page, respond send rt c = Sent page.
Proof.
  intros H. unfold respond. rewrite H. cbn.
  destruct c as [o|e]; [destruct (send o)|]; eauto.
Qed.

Lemma res_send_200 (c : conditions) (etag_of : string -> string)
    (r : response) :
  status r = 200 ->
  res_send c etag_of r
  = if req_fresh c 200 (etag_of (utf8 (html r)))
    then mk_wire 304 None EmptyString
    else mk_wire 200 (Some (media_type r ++ "; charset=utf-8"))
           (if String.eqb (req_method c) "HEAD" then EmptyString
            else utf8 (html r)).
Proof.
  intros H. unfold res_send, send_bytes. rewrite H.
  destruct (req_fresh c 200 (etag_of (utf8 (html r)))); reflexivity.
Qed.

Lemma header_set_text (h : option string) :
  header_set h = true -> exists t, h = Some t /\ t <> EmptyString.
Proof.
  destruct h as [t|]; [|discriminate]. cbn [header_set]. intros H.
  exists t. split; [reflexivity|].
  apply negb_true_iff in H. now apply String.eqb_neq.
Qed.

Lemma fresh_iff (c : conditions) (etag : string) :
  fresh c etag = true
  <-> header_set (if_modified_since c) = false
      /\ no_cache (cache_control c) = false
      /\ exists t,
           if_none_match c = Some t /\ t <> EmptyString
           /\ (t = "*"
               \/ (etag <> EmptyString
                   /\ exists token,
                        In token (parseTokenList t)
                        /\ tag_matches etag token = true)).
Proof.
  unfold fresh. split.
  - destruct (header_set (if_modified_since c)) eqn:M; cbn [negb andb].
    + destruct (no_cache (cache_control c)); [discriminate|].
      destruct (header_set (if_none_match c) && _ && _); discriminate.
    + destruct (header_set (if_none_match c)) eqn:N; cbn [negb andb];
        [|discriminate].
      destruct (no_cache (cache_control c)); [discriminate|].
      destruct (header_set_text _ N) as (t & Ht & Hne).
      rewrite Ht. cbn [header_text].
      destruct (String.eqb t "*") eqn:S; cbn [negb andb].
      * intros _. apply String.eqb_eq in S. split; [reflexivity|].
        split; [reflexivity|]. exists t. auto.
      * destruct (String.eqb etag EmptyString) eqn:E; cbn [orb];
          [discriminate|].
        destruct (existsb (tag_matches etag) (parseTokenList t)) eqn:X;
          cbn [negb]; [|discriminate].
        intros _. apply existsb_exists in X. destruct X as (token & Hin & Hm).
        apply String.eqb_neq in E.
        split; [reflexivity|]. split; [reflexivity|]. exists t. eauto 8.
  - intros (M & C & t & Ht & Hne & Hm). rewrite M, C, Ht.
    assert (N : header_set (Some t) = true).
    { cbn [header_set]. apply negb_true_iff. now apply String.eqb_neq. }
    rewrite N. cbn [negb andb header_text].
    destruct Hm as [->|(He & token & Hin & Hm)]; [reflexivity|].
    apply String.eqb_neq in He. rewrite He. cbn [orb].
    assert (X : existsb (tag_matches etag) (parseTokenList t) = true)
      by (apply existsb_exists; eauto).
    rewrite X. now destruct (String.eqb t "*").
Qed.

Lemma req_fresh_iff (c : conditions) (status : Z) (etag : string) :
  req_fresh c status etag = true
  <-> (req_method c = "GET" \/ req_method c = "HEAD")
      /\ (200 <= status < 300 \/ status = 304)
      /\ header_set (if_modified_since c) = false
      /\ no_cache (cache_control c) = false
      /\ exists t,
           if_none_match c = Some t /\ t <> EmptyString
           /\ (t = "*"
               \/ (etag <> EmptyString
                   /\ exists token,
                        In token (parseTokenList t)
                        /\ tag_matches etag token = true)).
Proof.
  unfold req_fresh. split.
  - intros H. apply andb_true_iff in H. destruct H as [H F].
    apply andb_true_iff in H. destruct H as [Hm Hs].
    apply fresh_iff in F. split; [|split; [|exact F]].
    + apply orb_true_iff in Hm.
      destruct Hm as [Hm|Hm]; apply String.eqb_eq in Hm; auto.
    + apply orb_true_iff in Hs. destruct Hs as [Hs|Hs].
      * apply andb_true_iff in Hs. destruct Hs as [L U].
        apply Z.leb_le in L. apply Z.ltb_lt in U. left. lia.
      * apply Z.eqb_eq in Hs. now right.
  - intros (Hm & Hs & F). apply fresh_iff in F. rewrite F.
    assert (M : String.eqb (req_method c) "GET"
                || String.eqb (req_method c) "HEAD" = true).
    { apply orb_true_iff.
      destruct Hm as [Hm|Hm]; rewrite Hm; [left | right]; reflexivity. }
    assert (S : (200 <=? status) && (status <? 300) || (status =? 304) = true).
    { apply orb_true_iff. destruct Hs as [Hs|Hs].
      - left. apply andb_true_iff. split; [apply Z.leb_le | apply Z.ltb_lt]; lia.
      - right. now apply Z.eqb_eq. }
    now rewrite M, S.
Qed.

(** C9, as the claim states it, fails: the endpoint accepts every method,
    and a [GET] with the header [If-None-Match: *] is answered by [res.send]
    with status 304, no [Content-Type] and no body -- here for a request
    that the handler answers Invalid product id, and for a review that was
    created. *)
Lemma conditional_get_answered_304 :
  fst (Web.attempt (world_with FetchRejects) bare_get [])
  = Normal (directive (Failure InvalidProductReference) (Str "/"))
  /\ delivered conditional_get body_tag
       (fst (Web.submit (world_with FetchRejects) bare_get))
     = Some (mk_wire 304 None EmptyString)
  /\ delivered conditional_get body_tag
       (fst (Api.submit (world_with (json_reply created_reply_json))
              valid_submission))
     = Some (mk_wire 304 None EmptyString).
Proof. repeat split; vm_compute; reflexivity. Qed.

(** C9, amended: every response of the submission handler, for success and
    for each failure alike, is handed to [res.send] with status 200 and the
    media type of HTML, and one is handed over whenever the return target
    converts to a string.  It goes out with status 200, the content type
    text/html in UTF-8 and the page as its body (no body for [HEAD]), unless
    the request is a [GET] or [HEAD] whose [If-None-Match] header [res.send]
    finds fresh -- it is a star, or names the entity tag of the page --
    which is answered with status 304, no content type and no body.  So the
    status is 200 or 304 whatever the outcome, and a request of another
    method, or without [If-None-Match], always gets status 200. *)
Theorem responses_200_html_unless_fresh :
  (forall w req page,
     fst (Web.submit w req) = Sent page ->
     status page = 200 /\ media_type page = "text/html")
  /\ (forall w req page,
        fst (Api.submit w req) = Sent page ->
        status page = 200 /\ media_type page = "text/html")
  /\ (forall w req h,
        ToString (return_target req) = Normal h ->
        (exists page, fst (Web.submit w req) = Sent page)
        /\ (exists page, fst (Api.submit w req) = Sent page))
  /\ (forall c etag_of w req out,
        delivered c etag_of (fst (Web.submit w req)) = Some out ->
        exists page,
          fst (Web.submit w req) = Sent page
          /\ out = if req_fresh c 200 (etag_of (utf8 (html page)))
                   then mk_wire 304 None EmptyString
                   else mk_wire 200 (Some "text/html; charset=utf-8")
                          (if String.eqb (req_method c) "HEAD"
                           then EmptyString else utf8 (html page)))
  /\ (forall c etag_of w req out,
        delivered c etag_of (fst (Api.submit w req)) = Some out ->
        exists page,
          fst (Api.submit w req) = Sent page
          /\ out = if req_fresh c 200 (etag_of (utf8 (html page)))
                   then mk_wire 304 None EmptyString
                   else mk_wire 200 (Some "text/html; charset=utf-8")
                          (if String.eqb (req_method c) "HEAD"
                           then EmptyString else utf8 (html page)))
  /\ (forall c status etag,
        req_fresh c status etag = true
        <-> (req_method c = "GET" \/ req_method c = "HEAD")
            /\ (200 <= status < 300 \/ status = 304)
            /\ header_set (if_modified_since c) = false
            /\ no_cache (cache_control c) = false
            /\ exists t,
                 if_none_match c = Some t /\ t <> EmptyString
                 /\ (t = "*"
                     \/ (etag <> EmptyString
                         /\ exists token,
                              In token (parseTokenList t)
                              /\ tag_matches etag token = true))).
Proof.
  assert (W : forall w req page,
             fst (Web.submit w req) = Sent page ->
             status page = 200 /\ media_type page = "text/html").
  { intros w req page. rewrite web_submit_outline. cbn [fst]. intros H.
    apply respond_sent in H. destruct H as (o & H).
    now apply web_sendHtml_status in H. }
  assert (A : forall w req page,
             fst (Api.submit w req) = Sent page ->
             status page = 200 /\ media_type page = "text/html").
  { intros w req page. rewrite api_submit_outline. cbn [fst]. intros H.
    apply respond_sent in H. destruct H as (o & H).
    now apply api_sendHtml_status in H. }
  split; [exact W|]. split; [exact A|].
  split; [|split; [|split; [|exact req_fresh_iff]]].
  - intros w req h H. split.
    + rewrite web_submit_outline. cbn [fst].
      destruct (web_failure_renders TransportError _ _ H) as (p & Hp).
      now apply respond_total with p.
    + rewrite api_submit_outline. cbn [fst].
      destruct (api_failure_renders TransportError _ _ H) as (p & Hp).
      now apply respond_total with p.
  - intros c etag_of w req out.
    destruct (fst (Web.submit w req)) as [page|e] eqn:E; cbn [delivered];
      [|discriminate].
    intros H. exists page. split; [reflexivity|].
    destruct (W _ _ _ E) as (Hs & Hm).
    rewrite (res_send_200 _ _ _ Hs), Hm in H. injection H as <-. reflexivity.
  - intros c etag_of w req out.
    destruct (fst (Api.submit w req)) as [page|e] eqn:E; cbn [delivered];
      [|discriminate].
    intros H. exists page. split; [reflexivity|].
    destruct (A _ _ _ E) as (Hs & Hm).
    rewrite (res_send_200 _ _ _ Hs), Hm in H. injection H as <-. reflexivity.
Qed.

Lemma responses_200_html_unless_fresh_witness :
  ((exists page, fst (Web.submit (world_with FetchRejects) bare_get) = Sent page)
   /\ (exists page,
         fst (Api.submit (world_with FetchRejects) bare_get) = Sent page))
  /\ req_fresh
       (mk_conditions "HEAD"
          (Some ("W/" ++ quote ++ "page" ++ quote ++ ", "
                 ++ quote ++ "other" ++ quote)) None (Some "max-age=0"))
       200 (body_tag "page") = true.
Proof.
  destruct responses_200_html_unless_fresh as (_ & _ & Hsent & _ & _ & Hfresh).
  split.
  - apply (Hsent (world_with FetchRejects) bare_get "/"). reflexivity.
  - apply (proj2 (Hfresh _ 200 (body_tag "page"))).
    split; [right; reflexivity|]. split; [left; lia|].
    split; [reflexivity|]. split; [reflexivity|].
    eexists. split; [reflexivity|]. split; [discriminate|].
    right. split; [discriminate|].
    exists (body_tag "page"). split; [left; reflexivity | reflexivity].
Defined.

(** C10, as the claim states it, fails: when the submitted [return_to] is an
    object that hides [toString], rendering the page throws in the [try]
    block and again in the [catch] block, and the exception leaves the
    handler. *)
Lemma exception_leaves_handler :
  fst (Web.submit (world_with FetchRejects) opaque_return_target)
  = Uncaught TypeError
  /\ fst (Api.submit (world_with FetchRejects) opaque_return_target)
     = Uncaught TypeError.
Proof. split; vm_compute; reflexivity. Qed.

(** C10, amended: every exception raised in the [try] block -- by a field
    conversion, the credential lookup, the remote call or the rendering of
    the page -- is caught, and the handler answers with the page of the
    directive ok false, message Server error and the request's return
    target; whenever that return target converts to a string, as every
    string does, the page is sent and no exception leaves the handler. *)
Theorem exceptions_become_server_error :
  (forall w req e t,
     Web.attempt w req [] = (Throw e, t) ->
     Web.submit w req
     = (finish (Web.sendHtml
                  (directive (Failure TransportError) (return_target req))), t))
  /\ (forall w req o e t,
        Web.attempt w req [] = (Normal o, t) ->
        Web.sendHtml o = Throw e ->
        Web.submit w req
        = (finish (Web.sendHtml
                     (directive (Failure TransportError) (return_target req))),
           t))
  /\ (forall w req e t,
        Api.attempt w req [] = (Throw e, t) ->
        Api.submit w req
        = (finish (Api.sendHtml
                     (directive (Failure TransportError) (return_target req))),
           t))
  /\ (forall w req o e t,
        Api.attempt w req [] = (Normal o, t) ->
        Api.sendHtml o = Throw e ->
        Api.submit w req
        = (finish (Api.sendHtml
                     (directive (Failure TransportError) (return_target req))),
           t))
  /\ (forall w req h,
        ToString (return_target req) = Normal h ->
        (exists page,
           Web.sendHtml (directive (Failure TransportError) (return_target req))
           = Normal page)
        /\ (exists page,
              Api.sendHtml
                (directive (Failure TransportError) (return_target req))
              = Normal page)
        /\ (forall e, fst (Web.submit w req) <> Uncaught e)
        /\ (forall e, fst (Api.submit w req) <> Uncaught e))
  /\ directive (Failure TransportError) (Str "/")
     = mk_opts false (Str "/") Undefined (Some "Server error").
Proof.
  split; [|split; [|split; [|split; [|split; [|reflexivity]]]]].
  - exact web_submit_caught.
  - intros w req o e t Ha Hs. rewrite web_submit_outline.
    rewrite web_attempt_outline in Ha. rewrite Ha. cbn [fst snd respond].
    now rewrite Hs.
  - exact api_submit_caught.
  - intros w req o e t Ha Hs. rewrite api_submit_outline.
    rewrite api_attempt_outline in Ha. rewrite Ha. cbn [fst snd respond].
    now rewrite Hs.
  - intros w req h H.
    destruct (web_failure_renders TransportError _ _ H) as (p & Hp).
    destruct (api_failure_renders TransportError _ _ H) as (q & Hq).
    split; [eauto|]. split; [eauto|]. split.
    + intros e. rewrite web_submit_outline. cbn [fst].
      destruct (respond_total Web.sendHtml _ (fst (web_outline w req)) p Hp)
        as (page & ->). discriminate.
    + intros e. rewrite api_submit_outline. cbn [fst].
      destruct (respond_total Api.sendHtml _ (fst (api_outline w req)) q Hq)
        as (page & ->). discriminate.
Qed.

Lemma exceptions_become_server_error_witness :
  Web.submit (world_with FetchRejects) valid_submission
  = (finish (Web.sendHtml (directive (Failure TransportError) (Str "/"))),
     [Lookup (Str "shop.example") false;
      Request (review_request Web.mutation "shpat_offline" "shop.example"
                 (mk_submission (Some "gid://shopify/Product/42") (Finite 5)
                    EmptyString EmptyString EmptyString EmptyString)
                 1730419200000)])
  /\ Api.submit (world_with FetchRejects)
       (submission_request "shop.example"
          [("product_id", Num (Finite 42)); ("rating", Str "5");
           ("title", Obj [("toString", Null)])])
     = (finish (Api.sendHtml (directive (Failure TransportError) (Str "/"))),
        [])
  /\ (forall e,
        fst (Web.submit (world_with FetchRejects) valid_submission)
        <> Uncaught e).
Proof.
  destruct exceptions_become_server_error as (Hweb & _ & Hapi & _ & Hsafe & _).
  split; [|split].
  - refine (Hweb (world_with FetchRejects) valid_submission NetworkError _ _).
    vm_compute. reflexivity.
  - refine (Hapi (world_with FetchRejects)
              (submission_request "shop.example"
                 [("product_id", Num (Finite 42)); ("rating", Str "5");
                  ("title", Obj [("toString", Null)])])
              TypeError _ _).
    vm_compute. reflexivity.
  - exact (proj1 (proj2 (proj2
             (Hsafe (world_with FetchRejects) valid_submission "/" eq_refl)))).
Defined.

(** ** The end-to-end scenarios of the specification *)

Example scenario_A :
  fst (Web.submit (world_with (json_reply created_reply_json)) valid_submission)
  = finish (Web.sendHtml
              (mk_opts true (Str "/") (Str "gid://x/Metaobject/1") None)).
Proof. vm_compute. reflexivity. Qed.

Example scenario_B :
  Web.attempt (world_with (json_reply created_reply_json))
    (submission_request "shop.example"
       [("product_id", Num (Finite 42)); ("rating", Num (Finite 0))]) []
  = (Normal (mk_opts false (Str "/") Undefined (Some "Rating must be 1..5")),
     []).
Proof. vm_compute. reflexivity. Qed.

Example scenario_C :
  fst (Web.attempt (world_with (json_reply created_reply_json))
         (submission_request "other.example"
            [("product_id", Num (Finite 42)); ("rating", Num (Finite 5))]) [])
  = Normal (mk_opts false (Str "/") Undefined
              (Some "App not authorized for this shop")).
Proof. vm_compute. reflexivity. Qed.

Example scenario_D :
  fst (Web.attempt (world_with (Body "<html>Bad gateway</html>" None))
         valid_submission [])
  = Normal (mk_opts false (Str "/") Undefined (Some "API returned non-JSON")).
Proof. vm_compute. reflexivity. Qed.

Example scenario_E :
  fst (Web.attempt (world_with (json_reply rejected_reply_json))
         valid_submission [])
  = Normal (mk_opts false (Str "/") Undefined (Some "Validation error")).
Proof. vm_compute. reflexivity. Qed.

(** * Further properties of the code *)

(** ** The Identifier Normalizer on numbers *)

Lemma append_injective (p a b : string) : p ++ a = p ++ b -> a = b.
Proof.
  induction p as [|c p IH]; cbn [append]; [auto|].
  intros H. injection H as H. auto.
Qed.

Lemma number_eqb_same (n : number) (p q : Q) :
  number_eqb n (Finite p) = true -> number_eqb n (Finite q) = true ->
  (p == q)%Q.
Proof.
  destruct n as [| |r]; cbn; try discriminate.
  intros H1 H2. apply Qeq_bool_iff in H1, H2. now rewrite <- H1, <- H2.
Qed.

(** X1: a positive number passed to [toProductGid] as a number is embedded
    so that the segment after the prefix reads back, by [Number], as that
    same number; hence two different positive numbers never normalize to the
    same reference. *)
Theorem embedded_number_reads_back :
  (forall q,
     (0 < q)%Q -> is_binary64 q = true ->
     exists segment,
       toProductGid (Num (Finite q)) = Normal (Some (gid_prefix ++ segment))
       /\ number_eqb (StringToNumber segment) (Finite q) = true)
  /\ (forall q1 q2,
        (0 < q1)%Q -> is_binary64 q1 = true ->
        (0 < q2)%Q -> is_binary64 q2 = true ->
        toProductGid (Num (Finite q1)) = toProductGid (Num (Finite q2)) ->
        (q1 == q2)%Q).
Proof.
  split.
  - intros q Hq Hb. exists (to_string (Finite q)). split.
    + now apply toProductGid_positive_number.
    + now apply number_round_trip.
  - intros q1 q2 H1 B1 H2 B2.
    rewrite (toProductGid_positive_number q1 H1 B1).
    rewrite (toProductGid_positive_number q2 H2 B2).
    intros H.
    assert (E : to_string (Finite q1) = to_string (Finite q2))
      by (apply (append_injective gid_prefix); congruence).
    pose proof (number_round_trip q1 H1 B1) as R1.
    pose proof (number_round_trip q2 H2 B2) as R2.
    rewrite E in R1. exact (number_eqb_same _ _ _ R1 R2).
Qed.

Lemma embedded_number_reads_back_witness :
  exists segment,
    toProductGid (Num (Finite (7 # 2)))
    = Normal (Some (gid_prefix ++ segment))
    /\ number_eqb (StringToNumber segment) (Finite (7 # 2)) = true.
Proof.
  apply (proj1 embedded_number_reads_back (7 # 2));
    [reflexivity | vm_compute; reflexivity].
Defined.

(** ** A submission without a product *)

Lemma toProductGid_nullish (v : value) :
  is_nullish v = true -> toProductGid v = Normal None.
Proof. destruct v; try discriminate; intros _; vm_compute; reflexivity. Qed.

Lemma converted_nullish_body (req : request) :
  is_nullish (body req) = true ->
  converted req
  = Normal (mk_submission None NaN EmptyString EmptyString EmptyString
              EmptyString).
Proof.
  intros H. unfold converted, product_field, rating_field, text_field, body_of,
    coalesce. rewrite H. vm_compute. reflexivity.
Qed.

(** X2: [toProductGid] of [null] or [undefined] is [null]; so a submission
    that names no product (neither [product_id] nor [productId], or [null]
    for them) never reaches a lookup or a remote call: once the shop is known
    (and, in [api/index.ts], authorized) it gets the directive of Invalid
    product id when its fields convert, and goes to the [catch] block, which
    renders Server error, when the conversion of one of them throws.  A
    submission without any body gets the directive of Invalid product id. *)
Theorem missing_product_is_invalid :
  (forall v, is_nullish v = true -> toProductGid v = Normal None)
  /\ (forall w req,
        is_nullish (product_field req) = true ->
        ToBoolean (shop_of req) = true ->
        match converted req with
        | Normal _ =>
            Web.attempt w req []
            = (Normal (directive (Failure InvalidProductReference)
                         (return_target req)), [])
            /\ (api_unauthorized w req = false ->
                Api.attempt w req []
                = (Normal (directive (Failure InvalidProductReference)
                             (return_target req)), []))
        | Throw e =>
            Web.attempt w req [] = (Throw e, [])
            /\ Web.submit w req
               = (finish (Web.sendHtml
                            (directive (Failure TransportError)
                               (return_target req))), [])
            /\ (api_unauthorized w req = false ->
                Api.attempt w req [] = (Throw e, [])
                /\ Api.submit w req
                   = (finish (Api.sendHtml
                                (directive (Failure TransportError)
                                   (return_target req))), []))
        end)
  /\ (forall w req,
        is_nullish (body req) = true ->
        ToBoolean (shop_of req) = true ->
        Web.attempt w req []
        = (Normal (directive (Failure InvalidProductReference)
                     (return_target req)), [])
        /\ (api_unauthorized w req = false ->
            Api.attempt w req []
            = (Normal (directive (Failure InvalidProductReference)
                         (return_target req)), []))).
Proof.
  assert (G : forall w req s,
             ToBoolean (shop_of req) = true ->
             converted req = Normal s ->
             productGid s = None ->
             Web.attempt w req []
             = (Normal (directive (Failure InvalidProductReference)
                          (return_target req)), [])
             /\ (api_unauthorized w req = false ->
                 Api.attempt w req []
                 = (Normal (directive (Failure InvalidProductReference)
                              (return_target req)), []))).
  { intros w req s Hshop Hc Hp. split.
    - rewrite web_attempt_outline. unfold web_outline.
      now rewrite Hshop, Hc, Hp.
    - intros Ha. rewrite api_attempt_outline. unfold api_outline.
      now rewrite Hshop, Ha, Hc, Hp. }
  split; [exact toProductGid_nullish|]. split.
  - intros w req Hn Hshop.
    destruct (converted req) as [s|e] eqn:Hc.
    + apply (G w req s Hshop Hc).
      apply converted_productGid in Hc.
      rewrite (toProductGid_nullish _ Hn) in Hc. congruence.
    + assert (W : Web.attempt w req [] = (Throw e, [])).
      { rewrite web_attempt_outline. unfold web_outline.
        now rewrite Hshop, Hc. }
      split; [exact W|]. split; [exact (web_submit_caught _ _ _ _ W)|].
      intros Ha.
      assert (A : Api.attempt w req [] = (Throw e, [])).
      { rewrite api_attempt_outline. unfold api_outline.
        now rewrite Hshop, Ha, Hc. }
      split; [exact A | exact (api_submit_caught _ _ _ _ A)].
  - intros w req Hb Hshop.
    apply (G w req _ Hshop (converted_nullish_body req Hb)). reflexivity.
Qed.

Lemma missing_product_is_invalid_witness :
  (Web.attempt (world_with FetchRejects)
     (mk_request [("shop", Str "shop.example")] None Undefined) []
   = (Normal (directive (Failure InvalidProductReference) (Str "/")), [])
   /\ (api_unauthorized (world_with FetchRejects)
         (mk_request [("shop", Str "shop.example")] None Undefined) = false ->
       Api.attempt (world_with FetchRejects)
         (mk_request [("shop", Str "shop.example")] None Undefined) []
       = (Normal (directive (Failure InvalidProductReference) (Str "/")), [])))
  /\ Web.submit (world_with FetchRejects)
       (submission_request "shop.example"
          [("title", Obj [("toString", Num (Finite 1))])])
     = (finish (Web.sendHtml (directive (Failure TransportError) (Str "/"))),
        []).
Proof.
  destruct missing_product_is_invalid as (_ & Hfields & Hbody).
  split.
  - apply (Hbody (world_with FetchRejects)
             (mk_request [("shop", Str "shop.example")] None Undefined));
      reflexivity.
  - exact (proj1 (proj2
             (Hfields (world_with FetchRejects)
                (submission_request "shop.example"
                   [("title", Obj [("toString", Num (Finite 1))])])
                eq_refl eq_refl))).
Defined.

(** ** Where the shop and the return target come from *)

Lemma or_else_truthy (a b : value) :
  ToBoolean b = true -> ToBoolean (or_else a b) = true.
Proof. intros H. unfold or_else. now destruct (ToBoolean a) eqn:E. Qed.

Lemma JSON_stringify_defined (v : value) :
  v <> Undefined -> exists t, JSON_stringify v = Some t.
Proof.
  destruct v as [| |[]|n|s|items|props]; cbn [JSON_stringify]; eauto.
  congruence.
Qed.

Lemma truthy_defined (v : value) : ToBoolean v = true -> v <> Undefined.
Proof. intros H ->. discriminate. Qed.

Lemma return_target_truthy (req : request) :
  ToBoolean (return_target req) = true.
Proof. apply or_else_truthy. reflexivity. Qed.

Lemma default_return_target (req : request) :
  default_returnTo (return_target req) = return_target req.
Proof.
  pose proof (return_target_truthy req) as T.
  destruct (return_target req); [discriminate | reflexivity ..].
Qed.

(** X3: the return target is never falsy: it is [body.return_to] when that
    is truthy, else [query.return_to] when that is truthy, else the string
    made of a slash.  So the default of [returnTo] in [sendHtml] never applies
    to it, and [JSON.stringify] of it is never [undefined]. *)
Theorem return_target_never_falsy (req : request) :
  ToBoolean (return_target req) = true
  /\ default_returnTo (return_target req) = return_target req
  /\ (exists t,
        JSON_stringify (return_target req) = Some t
        /\ script_argument (return_target req) = t)
  /\ (ToBoolean (member (body_of req) "return_to") = true ->
      return_target req = member (body_of req) "return_to")
  /\ (ToBoolean (member (body_of req) "return_to") = false ->
      ToBoolean (query_param req "return_to") = true ->
      return_target req = query_param req "return_to")
  /\ (ToBoolean (member (body_of req) "return_to") = false ->
      ToBoolean (query_param req "return_to") = false ->
      return_target req = Str "/").
Proof.
  pose proof (return_target_truthy req) as T.
  pose proof (truthy_defined _ T) as D.
  split; [exact T|]. split; [|split; [|split; [|split]]].
  - apply default_return_target.
  - destruct (JSON_stringify_defined _ D) as (t & Ht). exists t.
    split; [exact Ht|]. unfold script_argument. now rewrite Ht.
  - intros H. unfold return_target, or_else.
    repeat (rewrite H; cbv iota). reflexivity.
  - intros H1 H2. unfold return_target, or_else.
    rewrite H1. cbv iota. repeat (rewrite H2; cbv iota). reflexivity.
  - intros H1 H2. unfold return_target, or_else.
    rewrite H1. cbv iota. rewrite H2. reflexivity.
Qed.

Lemma return_target_never_falsy_witness :
  return_target
    (mk_request [("shop", Str "shop.example"); ("return_to", Str "/cart")] None
       (Obj [("return_to", Str EmptyString); ("rating", Str "5")]))
  = Str "/cart".
Proof.
  refine (proj1 (proj2 (proj2 (proj2 (proj2 (return_target_never_falsy _)))))
            _ _); reflexivity.
Defined.

Lemma shop_of_falsy (req : request) :
  ToBoolean (shop_of req) = false
  <-> ToBoolean (query_param req "shop") = false
      /\ (shop_domain_header req = None
          \/ shop_domain_header req = Some EmptyString).
Proof.
  unfold shop_of, or_else.
  destruct (ToBoolean (query_param req "shop")) eqn:Q.
  - rewrite Q, Q. split; [discriminate | intros [H _]; discriminate].
  - destruct (shop_domain_header req) as [h|]; cbn [header_value ToBoolean].
    + destruct (String.eqb h EmptyString) eqn:E; cbn [negb].
      * apply String.eqb_eq in E. subst h. split; auto.
      * cbn [ToBoolean]. rewrite E. cbn [negb].
        split; [discriminate|]. intros [_ [H|H]]; [discriminate|].
        injection H as ->. discriminate.
    + cbn. split; auto.
Qed.

Lemma reply_directive_not_missing (rt : value) (reply : fetch_reply) :
  reply_directive rt reply <> Normal (directive (Failure MissingTenant) rt).
Proof.
  destruct reply as [| |raw [json|]]; cbn [reply_directive]; try discriminate.
  destruct (has_user_errors json); discriminate.
Qed.

Lemma remote_stage_not_missing mutation w req s token before :
  fst (remote_stage mutation w req s token before)
  <> Normal (directive (Failure MissingTenant) (return_target req)).
Proof.
  unfold remote_stage. destruct (ToString (shop_of req)); cbn [fst].
  - apply reply_directive_not_missing.
  - discriminate.
Qed.

Ltac other_failure := cbn [fst]; discriminate.

Lemma web_missing_tenant (w : world) (req : request) :
  fst (web_outline w req)
  = Normal (directive (Failure MissingTenant) (return_target req))
  <-> ToBoolean (shop_of req) = false.
Proof.
  unfold web_outline.
  destruct (ToBoolean (shop_of req)); cbn [negb]; [|split; reflexivity].
  split; [|discriminate].
  destruct (converted req) as [s|e]; [|discriminate].
  destruct (falsy (productGid s)); [other_failure|].
  destruct (rating_rejected (rating s)); [other_failure|].
  destruct (session_findFirst w (shop_of req) false) as [| |token];
    [discriminate | other_failure |].
  destruct (String.eqb token EmptyString); [other_failure|].
  intros H. now apply remote_stage_not_missing in H.
Qed.

Lemma api_missing_tenant (w : world) (req : request) :
  fst (api_outline w req)
  = Normal (directive (Failure MissingTenant) (return_target req))
  <-> ToBoolean (shop_of req) = false.
Proof.
  unfold api_outline.
  destruct (ToBoolean (shop_of req)); cbn [negb]; [|split; reflexivity].
  split; [|discriminate].
  destruct (api_unauthorized w req); [other_failure|].
  destruct (converted req) as [s|e]; [|discriminate].
  destruct (falsy (productGid s)); [other_failure|].
  destruct (rating_rejected (rating s)); [other_failure|].
  intros H. now apply remote_stage_not_missing in H.
Qed.

(** X4: the handlers answer Missing shop exactly when [req.query.shop] is
    falsy and the [x-shopify-shop-domain] header is absent or empty; a truthy
    query value is the shop whatever the header says, and the header is used
    only when the query value is falsy. *)
Theorem missing_shop_exactly (w : world) (req : request) :
  (fst (Web.attempt w req [])
   = Normal (directive (Failure MissingTenant) (return_target req))
   <-> ToBoolean (query_param req "shop") = false
       /\ (shop_domain_header req = None
           \/ shop_domain_header req = Some EmptyString))
  /\ (fst (Api.attempt w req [])
      = Normal (directive (Failure MissingTenant) (return_target req))
      <-> ToBoolean (query_param req "shop") = false
          /\ (shop_domain_header req = None
              \/ shop_domain_header req = Some EmptyString))
  /\ (ToBoolean (query_param req "shop") = true ->
      shop_of req = query_param req "shop")
  /\ (forall h,
        ToBoolean (query_param req "shop") = false ->
        shop_domain_header req = Some h -> h <> EmptyString ->
        shop_of req = Str h).
Proof.
  split; [|split; [|split]].
  - rewrite web_attempt_outline, web_missing_tenant. apply shop_of_falsy.
  - rewrite api_attempt_outline, api_missing_tenant. apply shop_of_falsy.
  - intros H. unfold shop_of, or_else.
    repeat (rewrite H; cbv iota). reflexivity.
  - intros h Hq Hh Hne. unfold shop_of, or_else. rewrite Hq, Hh.
    assert (E : String.eqb h EmptyString = false)
      by (apply String.eqb_neq; exact Hne).
    cbn [header_value ToBoolean]. rewrite E. reflexivity.
Qed.

Lemma missing_shop_exactly_witness :
  fst (Web.attempt (world_with FetchRejects)
         (mk_request [("shop", Str EmptyString)] (Some EmptyString)
            (Obj [("product_id", Num (Finite 42)); ("rating", Str "5")])) [])
  = Normal (directive (Failure MissingTenant) (Str "/"))
  /\ shop_of (mk_request [] (Some "shop.example") (Obj []))
     = Str "shop.example".
Proof.
  split.
  - apply (proj1 (missing_shop_exactly (world_with FetchRejects)
                    (mk_request [("shop", Str EmptyString)] (Some EmptyString)
                       (Obj [("product_id", Num (Finite 42));
                             ("rating", Str "5")])))).
    split; [reflexivity | right; reflexivity].
  - apply (proj2 (proj2 (proj2
             (missing_shop_exactly (world_with FetchRejects)
                (mk_request [] (Some "shop.example") (Obj []))))));
      [reflexivity | reflexivity | discriminate].
Defined.

(** ** A reported failure is the first failing check *)

Lemma failure_directive_injective (r1 r2 : reason) (rt1 rt2 : value) :
  Normal (directive (Failure r1) rt1) = Normal (directive (Failure r2) rt2) ->
  r1 = r2.
Proof.
  intros H.
  assert (E : message_of r1 = message_of r2)
    by (unfold directive in H; congruence).
  destruct r1, r2; try reflexivity; discriminate E.
Qed.

Lemma reply_directive_failure (rt rt' : value) (reply : fetch_reply)
    (r : reason) :
  reply_directive rt reply = Normal (directive (Failure r) rt') ->
  r = RemoteValidationError \/ r = RemoteUnparseable.
Proof.
  destruct reply as [| |raw [json|]]; cbn [reply_directive]; try discriminate.
  - destruct (has_user_errors json); intros H.
    + apply failure_directive_injective in H. auto.
    + discriminate.
  - intros H. apply failure_directive_injective in H. auto.
Qed.

Lemma remote_stage_failure mutation w req s token before r rt :
  fst (remote_stage mutation w req s token before)
  = Normal (directive (Failure r) rt) ->
  ~ In r [MissingTenant; InvalidProductReference; InvalidRating; Unauthorized].
Proof.
  unfold remote_stage. destruct (ToString (shop_of req)); cbn [fst];
    [|discriminate].
  intros H. apply reply_directive_failure in H.
  destruct H as [-> | ->]; cbn; intuition discriminate.
Qed.

Lemma normalized_never_empty (req : request) (s : submission) :
  converted req = Normal s ->
  (falsy (productGid s) = true <-> productGid s = None).
Proof.
  intros H. apply converted_productGid in H.
  destruct (productGid s) as [g|]; cbn [falsy]; [|split; reflexivity].
  apply toProductGid_prefix in H.
  apply (prefix_nonempty gid_prefix) in H; [|discriminate].
  rewrite H. split; discriminate.
Qed.

Ltac reported r :=
  let H := fresh in
  cbn [fst]; intros H; apply failure_directive_injective in H; subst r.

Ltac first_check Hc :=
  right; eexists; split; [reflexivity|];
  split; [exact (normalized_never_empty _ _ Hc)|];
  unfold first_failure, web_checks, api_checks, specified_checks,
    web_no_credential;
  cbn [find fst snd];
  repeat match goal with
         | H : ?b = _ |- context [?b] => rewrite H; cbn [negb fst snd]
         end;
  reflexivity.

(** X5: a reported validation failure is the first failing check: when a
    handler answers Missing shop, Invalid product id, Rating must be 1..5 or
    App not authorized for this shop, the checks before the reported one
    passed, in the order of that file (in [api/index.ts] the authorization is
    reported before the fields are converted).  A normalized product
    reference is never the empty string, so the check [!productGid] fails for
    [null] only. *)
Theorem reported_failure_is_first_failing_check (w : world) (req : request)
    (r : reason) :
  In r [MissingTenant; InvalidProductReference; InvalidRating; Unauthorized] ->
  (fst (Web.attempt w req [])
   = Normal (directive (Failure r) (return_target req)) ->
   (r = MissingTenant /\ ToBoolean (shop_of req) = false)
   \/ exists s,
        converted req = Normal s
        /\ (falsy (productGid s) = true <-> productGid s = None)
        /\ first_failure (web_checks w req s) = Some r)
  /\ (fst (Api.attempt w req [])
      = Normal (directive (Failure r) (return_target req)) ->
      (r = MissingTenant /\ ToBoolean (shop_of req) = false)
      \/ (r = Unauthorized /\ ToBoolean (shop_of req) = true
          /\ api_unauthorized w req = true)
      \/ exists s,
           converted req = Normal s
           /\ (falsy (productGid s) = true <-> productGid s = None)
           /\ first_failure (api_checks w req s) = Some r).
Proof.
  intros Hr. rewrite web_attempt_outline, api_attempt_outline. split.
  - unfold web_outline.
    destruct (ToBoolean (shop_of req)) eqn:Hshop; cbn [negb];
      [|reported r; now left].
    destruct (converted req) as [s|e] eqn:Hc; [|discriminate].
    destruct (falsy (productGid s)) eqn:Hp; [reported r; first_check Hc|].
    destruct (rating_rejected (rating s)) eqn:Hrt; [reported r; first_check Hc|].
    destruct (session_findFirst w (shop_of req) false) as [| |token] eqn:Hs;
      [discriminate | reported r; first_check Hc |].
    destruct (String.eqb token EmptyString) eqn:Ht;
      [reported r; first_check Hc|].
    intros H. now apply remote_stage_failure in H.
  - unfold api_outline.
    destruct (ToBoolean (shop_of req)) eqn:Hshop; cbn [negb];
      [|reported r; now left].
    destruct (api_unauthorized w req) eqn:Ha;
      [reported r; right; left; auto|].
    destruct (converted req) as [s|e] eqn:Hc; [|discriminate].
    destruct (falsy (productGid s)) eqn:Hp;
      [reported r; right; first_check Hc|].
    destruct (rating_rejected (rating s)) eqn:Hrt;
      [reported r; right; first_check Hc|].
    intros H. now apply remote_stage_failure in H.
Qed.

Lemma reported_failure_is_first_failing_check_witness :
  (InvalidRating = MissingTenant
   /\ ToBoolean (shop_of unknown_shop_bad_rating) = false)
  \/ exists s,
       converted unknown_shop_bad_rating = Normal s
       /\ (falsy (productGid s) = true <-> productGid s = None)
       /\ first_failure
            (web_checks (world_with FetchRejects) unknown_shop_bad_rating s)
          = Some InvalidRating.
Proof.
  apply (proj1 (reported_failure_is_first_failing_check
                  (world_with FetchRejects) unknown_shop_bad_rating
                  InvalidRating (or_intror (or_intror (or_introl eq_refl))))).
  vm_compute. reflexivity.
Defined.

(** ** The blocking calls of a submission *)

Lemma remote_stage_trace mutation w req s token before :
  snd (remote_stage mutation w req s token before) = before
  \/ exists r,
       snd (remote_stage mutation w req s token before)
       = (before ++ [Request r])%list.
Proof.
  unfold remote_stage. destruct (ToString (shop_of req)); cbn [snd]; eauto.
Qed.

(** X6: a submission makes at most one remote call: the blocking calls of
    [web/index.ts] are none, or the lookup of the offline session of the
    submitted shop, or that lookup followed by one request; those of
    [api/index.ts] are none or one request, and never a session lookup. *)
Theorem submission_trace_shapes (w : world) (req : request) :
  (snd (Web.submit w req) = []
   \/ snd (Web.submit w req) = [Lookup (shop_of req) false]
   \/ exists r,
        snd (Web.submit w req) = [Lookup (shop_of req) false; Request r])
  /\ (snd (Api.submit w req) = []
      \/ exists r, snd (Api.submit w req) = [Request r]).
Proof.
  rewrite web_submit_outline, api_submit_outline. cbn [snd]. split.
  - unfold web_outline.
    destruct (negb (ToBoolean (shop_of req))); [now left|].
    destruct (converted req) as [s|e]; [|now left].
    destruct (falsy (productGid s)); [now left|].
    destruct (rating_rejected (rating s)); [now left|].
    destruct (session_findFirst w (shop_of req) false) as [| |token];
      [now right; left | now right; left |].
    destruct (String.eqb token EmptyString); [now right; left|].
    right.
    destruct (remote_stage_trace Web.mutation w req s token
                [Lookup (shop_of req) false]) as [->|(r & ->)];
      [now left | right; now exists r].
  - unfold api_outline.
    destruct (negb (ToBoolean (shop_of req))); [now left|].
    destruct (api_unauthorized w req); [now left|].
    destruct (converted req) as [s|e]; [|now left].
    destruct (falsy (productGid s)); [now left|].
    destruct (rating_rejected (rating s)); [now left|].
    destruct (remote_stage_trace Api.mutation w req s
                (token_text (DEV_ADMIN_TOKEN w)) []) as [->|(r & ->)];
      [now left | right; now exists r].
Qed.

Lemma falsy_some (o : option string) :
  falsy o = false -> exists s, o = Some s /\ s <> EmptyString.
Proof.
  destruct o as [s|]; [|discriminate]. cbn [falsy]. intros H.
  exists s. split; [reflexivity|]. now apply String.eqb_neq.
Qed.

(** X7: every request of [api/index.ts] goes to the dev store: the
    submitted shop is the string [DEV_SHOP_DOMAIN], the address is the
    GraphQL endpoint of that domain, the token is the non-empty
    [DEV_ADMIN_TOKEN], the method is POST with a JSON content type and the
    fixed mutation text, and it is the only call of the run. *)
Theorem api_requests_go_to_dev_store (w : world) (req : request)
    (r : fetch_request) :
  In (Request r) (snd (Api.submit w req)) ->
  exists d token,
    DEV_SHOP_DOMAIN w = Some d /\ d <> EmptyString
    /\ DEV_ADMIN_TOKEN w = Some token /\ token <> EmptyString
    /\ shop_of req = Str d
    /\ url r = "https://" ++ d ++ "/admin/api/2025-07/graphql.json"
    /\ access_token r = token
    /\ http_method r = "POST"
    /\ content_type r = "application/json"
    /\ graphql_query r = Api.mutation
    /\ snd (Api.submit w req) = [Request r].
Proof.
  rewrite api_submit_outline. cbn [snd]. intros H.
  apply api_outline_request in H.
  destruct H as (s & host & _ & Ha & _ & _ & _ & Hh & -> & E).
  unfold api_unauthorized in Ha.
  apply orb_false_iff in Ha. destruct Ha as [Ha Hd].
  apply orb_false_iff in Ha. destruct Ha as [Hs Ht].
  destruct (falsy_some _ Hs) as (d & Hd1 & Hd2).
  destruct (falsy_some _ Ht) as (token & Ht1 & Ht2).
  rewrite Hd1 in Hd. cbn [Api.differs] in Hd.
  apply negb_false_iff in Hd.
  destruct (shop_of req) as [| | | |sh| |] eqn:Hshop; try discriminate.
  cbn [strict_equal_string] in Hd. apply String.eqb_eq in Hd. subst sh.
  cbn [ToString] in Hh. injection Hh as <-.
  exists d, token. rewrite E, Ht1. cbn [snd token_text].
  repeat split; auto.
Qed.

Lemma api_requests_go_to_dev_store_witness :
  exists d token,
    DEV_SHOP_DOMAIN (world_with (json_reply created_reply_json)) = Some d
    /\ d <> EmptyString
    /\ DEV_ADMIN_TOKEN (world_with (json_reply created_reply_json)) = Some token
    /\ token <> EmptyString
    /\ shop_of valid_submission = Str d
    /\ url (review_request Api.mutation "shpat_dev" "shop.example"
              (mk_submission (Some "gid://shopify/Product/42") (Finite 5)
                 EmptyString EmptyString EmptyString EmptyString)
              1730419200000)
       = "https://" ++ d ++ "/admin/api/2025-07/graphql.json"
    /\ access_token
         (review_request Api.mutation "shpat_dev" "shop.example"
            (mk_submission (Some "gid://shopify/Product/42") (Finite 5)
               EmptyString EmptyString EmptyString EmptyString)
            1730419200000) = token
    /\ http_method
         (review_request Api.mutation "shpat_dev" "shop.example"
            (mk_submission (Some "gid://shopify/Product/42") (Finite 5)
               EmptyString EmptyString EmptyString EmptyString)
            1730419200000) = "POST"
    /\ content_type
         (review_request Api.mutation "shpat_dev" "shop.example"
            (mk_submission (Some "gid://shopify/Product/42") (Finite 5)
               EmptyString EmptyString EmptyString EmptyString)
            1730419200000) = "application/json"
    /\ graphql_query
         (review_request Api.mutation "shpat_dev" "shop.example"
            (mk_submission (Some "gid://shopify/Product/42") (Finite 5)
               EmptyString EmptyString EmptyString EmptyString)
            1730419200000) = Api.mutation
    /\ snd (Api.submit (world_with (json_reply created_reply_json))
              valid_submission)
       = [Request
            (review_request Api.mutation "shpat_dev" "shop.example"
               (mk_submission (Some "gid://shopify/Product/42") (Finite 5)
                  EmptyString EmptyString EmptyString EmptyString)
               1730419200000)].
Proof.
  apply (api_requests_go_to_dev_store
           (world_with (json_reply created_reply_json)) valid_submission).
  vm_compute. left. reflexivity.
Defined.

(** X8: every request of [web/index.ts] carries the non-empty access token
    of the offline session found for the submitted shop, goes to the GraphQL
    endpoint of the stringified shop by POST with a JSON content type and the
    fixed mutation text, and comes right after that lookup. *)
Theorem web_requests_carry_session_token (w : world) (req : request)
    (r : fetch_request) :
  In (Request r) (snd (Web.submit w req)) ->
  exists token host,
    session_findFirst w (shop_of req) false = Session token
    /\ token <> EmptyString
    /\ ToString (shop_of req) = Normal host
    /\ url r = "https://" ++ host ++ "/admin/api/2025-07/graphql.json"
    /\ access_token r = token
    /\ http_method r = "POST"
    /\ content_type r = "application/json"
    /\ graphql_query r = Web.mutation
    /\ snd (Web.submit w req) = [Lookup (shop_of req) false; Request r].
Proof.
  rewrite web_submit_outline. cbn [snd]. intros H.
  apply web_outline_request in H.
  destruct H as (s & token & host & _ & _ & _ & _ & Hs & Ht & Hh & -> & E).
  exists token, host. rewrite E. cbn [snd].
  apply String.eqb_neq in Ht. repeat split; auto.
Qed.

Lemma web_requests_carry_session_token_witness :
  exists token host,
    session_findFirst (world_with FetchRejects) (shop_of valid_submission) false
    = Session token
    /\ token <> EmptyString
    /\ ToString (shop_of valid_submission) = Normal host
    /\ url (review_request Web.mutation "shpat_offline" "shop.example"
              (mk_submission (Some "gid://shopify/Product/42") (Finite 5)
                 EmptyString EmptyString EmptyString EmptyString)
              1730419200000)
       = "https://" ++ host ++ "/admin/api/2025-07/graphql.json"
    /\ access_token
         (review_request Web.mutation "shpat_offline" "shop.example"
            (mk_submission (Some "gid://shopify/Product/42") (Finite 5)
               EmptyString EmptyString EmptyString EmptyString)
            1730419200000) = token
    /\ http_method
         (review_request Web.mutation "shpat_offline" "shop.example"
            (mk_submission (Some "gid://shopify/Product/42") (Finite 5)
               EmptyString EmptyString EmptyString EmptyString)
            1730419200000) = "POST"
    /\ content_type
         (review_request Web.mutation "shpat_offline" "shop.example"
            (mk_submission (Some "gid://shopify/Product/42") (Finite 5)
               EmptyString EmptyString EmptyString EmptyString)
            1730419200000) = "application/json"
    /\ graphql_query
         (review_request Web.mutation "shpat_offline" "shop.example"
            (mk_submission (Some "gid://shopify/Product/42") (Finite 5)
               EmptyString EmptyString EmptyString EmptyString)
            1730419200000) = Web.mutation
    /\ snd (Web.submit (world_with FetchRejects) valid_submission)
       = [Lookup (shop_of valid_submission) false;
          Request
            (review_request Web.mutation "shpat_offline" "shop.example"
               (mk_submission (Some "gid://shopify/Product/42") (Finite 5)
                  EmptyString EmptyString EmptyString EmptyString)
               1730419200000)].
Proof.
  apply (web_requests_carry_session_token (world_with FetchRejects)
           valid_submission).
  vm_compute. right. left. reflexivity.
Defined.

(** ** The text fields of a review *)

Lemma converted_texts (req : request) (s : submission) :
  converted req = Normal s ->
  ToString (text_field req "title") = Normal (title s)
  /\ ToString (text_field req "body") = Normal (reviewBody s)
  /\ ToString (text_field req "author") = Normal (author s)
  /\ ToString (text_field req "email") = Normal (email s).
Proof.
  unfold converted.
  destruct (toProductGid (product_field req)); cbn [and_then]; [|discriminate].
  destruct (ToNumber _); cbn [and_then]; [|discriminate].
  do 4 (destruct (ToString (text_field req _)); cbn [and_then];
        [|discriminate]).
  intros [= <-]. cbn. auto.
Qed.

Lemma request_texts (req : request) (s : submission) (r : fetch_request)
    mutation token host t (k : string) :
  converted req = Normal s ->
  falsy (productGid s) = false ->
  r = review_request mutation token host s t ->
  In k ["title"; "body"; "author"; "email"] ->
  exists text,
    ToString (text_field req k) = Normal text /\ In (k, text) (graphql_fields r).
Proof.
  intros Hc Hp -> Hk.
  destruct (falsy_false _ Hp) as (gid & Hg).
  rewrite (review_request_fields _ _ _ _ _ _ Hg).
  destruct (converted_texts req s Hc) as (H1 & H2 & H3 & H4).
  destruct Hk as [<-|[<-|[<-|[<-|[]]]]]; eexists; (split; [eassumption|]);
    cbn; tauto.
Qed.

(** X9: title, body, author and email go to the remote side as they were
    submitted: the field sent is the string conversion of the submitted
    value, a submitted string unchanged (not trimmed, not escaped), and an
    absent or [null] value as the empty string. *)
Theorem text_fields_forwarded_verbatim (w : world) (req : request)
    (r : fetch_request) (k : string) :
  In (Request r) (snd (Web.submit w req))
  \/ In (Request r) (snd (Api.submit w req)) ->
  In k ["title"; "body"; "author"; "email"] ->
  (exists text,
     ToString (text_field req k) = Normal text
     /\ In (k, text) (graphql_fields r))
  /\ (forall t, member (body_of req) k = Str t -> In (k, t) (graphql_fields r))
  /\ (is_nullish (member (body_of req) k) = true ->
      In (k, EmptyString) (graphql_fields r)).
Proof.
  intros H Hk.
  assert (E : exists text,
             ToString (text_field req k) = Normal text
             /\ In (k, text) (graphql_fields r)).
  { rewrite web_submit_outline, api_submit_outline in H. cbn [snd] in H.
    destruct H as [H|H].
    - apply web_outline_request in H.
      destruct H as (s & token & host & _ & Hc & Hp & _ & _ & _ & _ & Hr & _).
      eapply request_texts; eauto.
    - apply api_outline_request in H.
      destruct H as (s & host & _ & _ & Hc & Hp & _ & _ & Hr & _).
      eapply request_texts; eauto. }
  split; [exact E|]. destruct E as (text & Ht & Hin). split.
  - intros t Hm. unfold text_field in Ht. rewrite Hm in Ht.
    cbn in Ht. injection Ht as <-. exact Hin.
  - intros Hn. unfold text_field, coalesce in Ht. rewrite Hn in Ht.
    cbn in Ht. injection Ht as <-. exact Hin.
Qed.

Lemma text_fields_forwarded_verbatim_witness :
  (exists text,
     ToString
       (text_field
          (submission_request "shop.example"
             [("product_id", Num (Finite 42)); ("rating", Str "5");
              ("title", Str "  <b>Great</b>  ")]) "title") = Normal text
     /\ In ("title", text)
          (graphql_fields
             (review_request Web.mutation "shpat_offline" "shop.example"
                (mk_submission (Some "gid://shopify/Product/42") (Finite 5)
                   "  <b>Great</b>  " EmptyString EmptyString EmptyString)
                1730419200000)))
  /\ (forall t,
        member
          (body_of
             (submission_request "shop.example"
                [("product_id", Num (Finite 42)); ("rating", Str "5");
                 ("title", Str "  <b>Great</b>  ")])) "title" = Str t ->
        In ("title", t)
          (graphql_fields
             (review_request Web.mutation "shpat_offline" "shop.example"
                (mk_submission (Some "gid://shopify/Product/42") (Finite 5)
                   "  <b>Great</b>  " EmptyString EmptyString EmptyString)
                1730419200000)))
  /\ (is_nullish
        (member
           (body_of
              (submission_request "shop.example"
                 [("product_id", Num (Finite 42)); ("rating", Str "5");
                  ("title", Str "  <b>Great</b>  ")])) "title") = true ->
      In ("title", EmptyString)
        (graphql_fields
           (review_request Web.mutation "shpat_offline" "shop.example"
              (mk_submission (Some "gid://shopify/Product/42") (Finite 5)
                 "  <b>Great</b>  " EmptyString EmptyString EmptyString)
              1730419200000))).
Proof.
  apply (text_fields_forwarded_verbatim (world_with FetchRejects)
           (submission_request "shop.example"
              [("product_id", Num (Finite 42)); ("rating", Str "5");
               ("title", Str "  <b>Great</b>  ")])).
  - left. vm_compute. right. left. reflexivity.
  - left. reflexivity.
Defined.

(** ** Success and the remote reply *)

Lemma reply_directive_success (rt : value) (reply : fetch_reply) (o : opts) :
  reply_directive rt reply = Normal o -> ok o = true ->
  exists raw json,
    reply = Body raw (Some json)
    /\ has_user_errors json = false
    /\ o = directive (Success (created_id json)) rt.
Proof.
  destruct reply as [| |raw [json|]]; cbn [reply_directive]; try discriminate.
  - destruct (has_user_errors json) eqn:E; intros H Hok;
      injection H as <-; [discriminate|].
    exists raw, json. auto.
  - intros H Hok. injection H as <-. discriminate.
Qed.

Lemma remote_stage_success mutation w req s token before o :
  fst (remote_stage mutation w req s token before) = Normal o ->
  ok o = true ->
  exists r raw json,
    snd (remote_stage mutation w req s token before)
    = (before ++ [Request r])%list
    /\ remote w r = Body raw (Some json)
    /\ has_user_errors json = false
    /\ o = directive (Success (created_id json)) (return_target req).
Proof.
  unfold remote_stage. destruct (ToString (shop_of req)) as [host|e];
    cbn [fst snd]; [|discriminate].
  intros H Hok.
  destruct (reply_directive_success _ _ _ H Hok) as (raw & json & R & E & ->).
  eauto 8.
Qed.

Ltac not_ok :=
  let H := fresh in
  let Hok := fresh in
  cbn [fst]; intros H Hok; injection H as <-; discriminate.

(** X10: a handler reports success only after the remote call: the
    directive has [ok: true] only if the run made its request and the reply
    parsed as JSON without user errors; its [id] is then the value at
    [data.metaobjectCreate.metaobject.id], and it has no message. *)
Theorem success_needs_clean_reply (w : world) (req : request) (o : opts) :
  (fst (Web.attempt w req []) = Normal o -> ok o = true ->
   exists r raw json,
     snd (Web.attempt w req []) = [Lookup (shop_of req) false; Request r]
     /\ remote w r = Body raw (Some json)
     /\ has_user_errors json = false
     /\ o = mk_opts true (return_target req) (created_id json) None)
  /\ (fst (Api.attempt w req []) = Normal o -> ok o = true ->
      exists r raw json,
        snd (Api.attempt w req []) = [Request r]
        /\ remote w r = Body raw (Some json)
        /\ has_user_errors json = false
        /\ o = mk_opts true (return_target req) (created_id json) None).
Proof.
  rewrite web_attempt_outline, api_attempt_outline. split.
  - unfold web_outline.
    destruct (negb (ToBoolean (shop_of req))); [not_ok|].
    destruct (converted req) as [s|e]; [|discriminate].
    destruct (falsy (productGid s)); [not_ok|].
    destruct (rating_rejected (rating s)); [not_ok|].
    destruct (session_findFirst w (shop_of req) false) as [| |token];
      [discriminate | not_ok |].
    destruct (String.eqb token EmptyString); [not_ok|].
    apply remote_stage_success.
  - unfold api_outline.
    destruct (negb (ToBoolean (shop_of req))); [not_ok|].
    destruct (api_unauthorized w req); [not_ok|].
    destruct (converted req) as [s|e]; [|discriminate].
    destruct (falsy (productGid s)); [not_ok|].
    destruct (rating_rejected (rating s)); [not_ok|].
    apply remote_stage_success.
Qed.

Lemma success_needs_clean_reply_witness :
  exists r raw json,
    snd (Api.attempt (world_with (json_reply created_reply_json))
           valid_submission []) = [Request r]
    /\ remote (world_with (json_reply created_reply_json)) r
       = Body raw (Some json)
    /\ has_user_errors json = false
    /\ mk_opts true (Str "/") (Str "gid://x/Metaobject/1") None
       = mk_opts true (return_target valid_submission) (created_id json) None.
Proof.
  apply (proj2 (success_needs_clean_reply
                  (world_with (json_reply created_reply_json))
                  valid_submission
                  (mk_opts true (Str "/") (Str "gid://x/Metaobject/1") None)));
    vm_compute; reflexivity.
Defined.

(** ** What counts as a validation error *)

Lemma length_truthy (n : nat) :
  ToBoolean (Num (Finite (inject_Z (Z.of_nat n)))) = negb (Nat.eqb n 0).
Proof.
  destruct n as [|n]; [reflexivity|].
  change (negb (Qeq_bool (inject_Z (Z.of_nat (S n))) 0) = true).
  destruct (Qeq_bool _ 0) eqn:E; [|reflexivity].
  apply Qeq_bool_iff in E. unfold Qeq in E. cbn in E. lia.
Qed.

(** X11: a parsed reply counts as a validation error exactly when its
    [userErrors] is a non-empty array, a non-empty string, or an object with
    a truthy [length]; an absent, [null], numeric or boolean [userErrors] and
    the empty array count as no error. *)
Theorem user_errors_exactly (json : value) :
  has_user_errors json = true
  <-> (exists e errs,
         get_opt (metaobjectCreate json) "userErrors" = Arr (e :: errs))
      \/ (exists s,
            get_opt (metaobjectCreate json) "userErrors" = Str s
            /\ s <> EmptyString)
      \/ (exists props l,
            get_opt (metaobjectCreate json) "userErrors" = Obj props
            /\ lookup "length" props = Some l /\ ToBoolean l = true).
Proof.
  unfold has_user_errors.
  destruct (get_opt (metaobjectCreate json) "userErrors")
    as [| |b|n|s|items|props]; cbn [coalesce is_nullish member String.eqb
                                      Ascii.eqb Bool.eqb].
  - split; [discriminate|].
    intros [(e & errs & H)|[(s & H & _)|(p & l & H & _)]]; discriminate.
  - split; [discriminate|].
    intros [(e & errs & H)|[(s & H & _)|(p & l & H & _)]]; discriminate.
  - split; [discriminate|].
    intros [(e & errs & H)|[(s & H & _)|(p & l & H & _)]]; discriminate.
  - split; [discriminate|].
    intros [(e & errs & H)|[(s & H & _)|(p & l & H & _)]]; discriminate.
  - change (member (Str s) "length")
      with (Num (Finite (inject_Z (Z.of_nat (String.length s))))).
    rewrite length_truthy. split.
    + intros H. right. left. exists s. split; [reflexivity|].
      intros ->. discriminate.
    + intros [(e & errs & H)|[(s' & H & Hne)|(p & l & H & _)]];
        try discriminate.
      injection H as <-. destruct s; [congruence | reflexivity].
  - change (member (Arr items) "length")
      with (Num (Finite (inject_Z (Z.of_nat (List.length items))))).
    rewrite length_truthy. split.
    + intros H. left. destruct items as [|e errs]; [discriminate|]. eauto.
    + intros [(e & errs & H)|[(s' & H & Hne)|(p & l & H & _)]];
        try discriminate.
      injection H as ->. reflexivity.
  - cbn [member]. split.
    + intros H. right. right. exists props.
      destruct (lookup "length" props) as [l|]; [|discriminate]. eauto.
    + intros [(e & errs & H)|[(s' & H & Hne)|(p & l & H & Hl & Ht)]];
        try discriminate.
      injection H as <-. now rewrite Hl.
Qed.

Lemma user_errors_exactly_witness :
  has_user_errors
    (Obj [("data", Obj [("metaobjectCreate",
                         Obj [("userErrors", Str "Access denied")])])])
  = true.
Proof.
  apply (proj2 (user_errors_exactly _)). right. left.
  exists "Access denied". split; [reflexivity | discriminate].
Defined.

(** ** The two entry points side by side *)

(** X12: with credentials on both sides -- the shop is the authorized dev
    store and has an offline session with a non-empty token -- and a remote
    side that answers by address and fields, the two entry points reach the
    same directive, or throw the same exception, for the same request. *)
Theorem handlers_agree_with_credentials (w : world) (req : request)
    (token : string) :
  api_unauthorized w req = false ->
  session_findFirst w (shop_of req) false = Session token ->
  token <> EmptyString ->
  answers_by_content w ->
  fst (Web.attempt w req []) = fst (Api.attempt w req []).
Proof.
  intros Ha Hs Ht Hw. rewrite web_attempt_outline, api_attempt_outline.
  unfold web_outline, api_outline. rewrite Ha, Hs.
  apply String.eqb_neq in Ht. rewrite Ht.
  destruct (negb (ToBoolean (shop_of req))); [reflexivity|].
  destruct (converted req) as [s|e]; [|reflexivity].
  destruct (falsy (productGid s)); [reflexivity|].
  destruct (rating_rejected (rating s)); [reflexivity|].
  unfold remote_stage. destruct (ToString (shop_of req)); [|reflexivity].
  cbn [fst]. f_equal. apply Hw; reflexivity.
Qed.

Lemma handlers_agree_with_credentials_witness :
  fst (Web.attempt (world_with (json_reply rejected_reply_json))
         valid_submission [])
  = fst (Api.attempt (world_with (json_reply rejected_reply_json))
           valid_submission []).
Proof.
  apply (handlers_agree_with_credentials
           (world_with (json_reply rejected_reply_json)) valid_submission
           "shpat_offline");
    [reflexivity | reflexivity | discriminate | intros r1 r2 _ _; reflexivity].
Defined.

(** ** The link and the script of the page *)

Lemma normal_injective {A} (a b : A) : Normal a = Normal b -> a = b.
Proof. congruence. Qed.

Lemma occurs_prefix (needle hay : string) :
  prefix needle hay = true -> occurs needle hay = true.
Proof. intros H. destruct hay; cbn [occurs]; now rewrite H. Qed.

Lemma occurs_append_left (needle a hay : string) :
  occurs needle hay = true -> occurs needle (a ++ hay) = true.
Proof.
  intros H. induction a as [|c a IH]; [exact H|].
  cbn [append occurs]. rewrite IH. apply orb_true_r.
Qed.

Lemma prefix_append_both (a needle hay : string) :
  prefix needle hay = true -> prefix (a ++ needle) (a ++ hay) = true.
Proof.
  intros H. induction a as [|c a IH]; [exact H|].
  cbn [append prefix]. destruct (ascii_dec c c); [exact IH | congruence].
Qed.

Lemma prefix_reflexive (s : string) : prefix s s = true.
Proof.
  induction s as [|c s IH]; [reflexivity|].
  cbn [prefix]. destruct (ascii_dec c c); [exact IH | congruence].
Qed.

Ltac find_occurrence :=
  repeat first
    [ solve [ apply occurs_prefix;
              repeat first [ apply prefix_reflexive
                           | apply prefix_append
                           | apply prefix_append_both ] ]
    | apply occurs_append_left ].

Lemma count_quotes_append (a b : string) :
  count_quotes (a ++ b) = (count_quotes a + count_quotes b)%nat.
Proof.
  induction a as [|c a IH]; [reflexivity|].
  cbn [append count_quotes]. rewrite IH. now destruct (code c =? 34).
Qed.

Lemma length_append (a b : string) :
  String.length (a ++ b) = (String.length a + String.length b)%nat.
Proof. induction a as [|c a IH]; simpl; [reflexivity|]. now rewrite IH. Qed.

Lemma replace_quotes_count (s : string) : count_quotes (replace_quotes s) = O.
Proof.
  induction s as [|c s IH]; [reflexivity|].
  cbn [replace_quotes]. rewrite count_quotes_append, IH.
  destruct (code c =? 34) eqn:E; [reflexivity|].
  cbn [count_quotes]. now rewrite E.
Qed.

Lemma replace_quotes_length (s : string) :
  String.length (replace_quotes s)
  = (String.length s + 5 * count_quotes s)%nat.
Proof.
  induction s as [|c s IH]; [reflexivity|].
  cbn [replace_quotes count_quotes]. rewrite length_append, IH.
  destruct (code c =? 34); cbn [String.length]; lia.
Qed.

Lemma replace_quotes_append (a b : string) :
  replace_quotes (a ++ b) = replace_quotes a ++ replace_quotes b.
Proof.
  induction a as [|c a IH]; [reflexivity|].
  cbn [append replace_quotes]. rewrite IH.
  destruct (code c =? 34); reflexivity.
Qed.

Lemma replace_quotes_fixed (s : string) :
  count_quotes s = O -> replace_quotes s = s.
Proof.
  induction s as [|c s IH]; [reflexivity|].
  cbn [count_quotes replace_quotes].
  destruct (code c =? 34); [discriminate|].
  intros H. cbn. now rewrite IH.
Qed.

(** X13: [esc] leaves no double quote: whatever the value, the text it
    returns has none, and is 5 characters longer per quote replaced; so the
    [href] of the link on a page of [web/index.ts] cannot be closed by the
    return target. *)
Theorem esc_leaves_no_quote :
  (forall v h, Web.esc v = Normal h -> count_quotes h = O)
  /\ (forall s,
        Web.esc (Str s) = Normal (replace_quotes s)
        /\ String.length (replace_quotes s)
           = (String.length s + 5 * count_quotes s)%nat)
  /\ (forall o page,
        Web.sendHtml o = Normal page ->
        exists href,
          Web.esc (default_returnTo (returnTo o)) = Normal href
          /\ count_quotes href = O
          /\ occurs ("<p><a href=" ++ quote ++ href ++ quote
                     ++ ">Continue</a></p>") (html page) = true).
Proof.
  assert (Q : forall v h, Web.esc v = Normal h -> count_quotes h = O).
  { intros v h. unfold Web.esc.
    destruct (ToString _) as [s|e]; cbn [and_then]; [|discriminate].
    intros [= <-]. apply replace_quotes_count. }
  split; [exact Q|]. split.
  - intros s. split; [reflexivity | apply replace_quotes_length].
  - intros o page. unfold Web.sendHtml.
    destruct (id_paragraph (id o)) as [id_part|]; cbn [and_then]; [|discriminate].
    destruct (Web.esc _) as [href|e] eqn:E; cbn [and_then]; [|discriminate].
    intros H. apply normal_injective in H. subst page.
    exists href. split; [reflexivity|].
    split; [exact (Q _ _ E)|]. cbn [html]. find_occurrence.
Qed.

Lemma esc_leaves_no_quote_witness :
  count_quotes "/products/a?x=&quot;1&quot;" = O.
Proof.
  apply (proj1 esc_leaves_no_quote
           (Str ("/products/a?x=" ++ quote ++ "1" ++ quote))).
  reflexivity.
Defined.

(** X14: the quote replacement of [esc] distributes over concatenation,
    is idempotent, and changes exactly the texts that hold a double quote. *)
Theorem replace_quotes_algebra :
  (forall a b, replace_quotes (a ++ b) = replace_quotes a ++ replace_quotes b)
  /\ (forall s, replace_quotes (replace_quotes s) = replace_quotes s)
  /\ (forall s, replace_quotes s = s <-> count_quotes s = O).
Proof.
  split; [exact replace_quotes_append|]. split.
  - intros s. apply replace_quotes_fixed, replace_quotes_count.
  - intros s. split.
    + intros H. rewrite <- H. apply replace_quotes_count.
    + apply replace_quotes_fixed.
Qed.

Lemma replace_quotes_algebra_witness :
  replace_quotes "/collections/all?page=2" = "/collections/all?page=2".
Proof.
  apply (proj2 (proj2 replace_quotes_algebra)). reflexivity.
Defined.

(** ** The argument of the script *)

Lemma list_ascii_of_string_append (a b : string) :
  list_ascii_of_string (a ++ b)
  = (list_ascii_of_string a ++ list_ascii_of_string b)%list.
Proof. induction a as [|c a IH]; cbn; [reflexivity | now rewrite IH]. Qed.

Lemma json_chars_escape_unit (c : ascii) (rest : list ascii) :
  json_chars (list_ascii_of_string (escape_unit c) ++ rest) = json_chars rest.
Proof. destruct c as [[] [] [] [] [] [] [] []]; reflexivity. Qed.

Lemma json_chars_escape_units (s : string) :
  json_chars (list_ascii_of_string (escape_units s)) = true.
Proof.
  induction s as [|c s IH]; [reflexivity|].
  cbn [escape_units].
  now rewrite list_ascii_of_string_append, json_chars_escape_unit.
Qed.

Lemma escape_unit_copied (c : ascii) :
  copied c = true -> escape_unit c = String c EmptyString.
Proof.
  destruct c as [[] [] [] [] [] [] [] []]; intros H;
    solve [reflexivity | vm_compute in H; discriminate H].
Qed.

Lemma escape_units_copied (s : string) :
  all_copied s = true -> escape_units s = s.
Proof.
  induction s as [|c s IH]; [reflexivity|].
  cbn [all_copied escape_units]. intros H.
  apply andb_true_iff in H. destruct H as [Hc Hs].
  now rewrite (escape_unit_copied c Hc), (IH Hs).
Qed.

(** X15: for a string return target the argument of [location.replace]
    is a JSON string literal: between its quotes there is no bare double
    quote, no control character, and a backslash only at the head of an
    escape.  Every other character is copied: a target made of such
    characters, markup included, stands unchanged between the quotes. *)
Theorem script_argument_string_literal :
  (forall s,
     exists inner,
       script_argument (Str s) = quote ++ inner ++ quote
       /\ json_chars (list_ascii_of_string inner) = true)
  /\ (forall s,
        all_copied s = true -> script_argument (Str s) = quote ++ s ++ quote).
Proof.
  split.
  - intros s. exists (escape_units s).
    split; [reflexivity | apply json_chars_escape_units].
  - intros s H. unfold script_argument. cbn [JSON_stringify].
    unfold QuoteJSONString. now rewrite (escape_units_copied s H).
Qed.

Lemma script_argument_string_literal_witness :
  script_argument (Str "/x</script><script>alert(1)</script>")
  = quote ++ "/x</script><script>alert(1)</script>" ++ quote.
Proof.
  apply (proj2 script_argument_string_literal). reflexivity.
Defined.

(** ** When a submission goes unanswered *)

Lemma web_fallback (req : request) :
  finish (Web.sendHtml (directive (Failure TransportError) (return_target req)))
  = match ToString (return_target req) with
    | Normal _ =>
        finish (Web.sendHtml
                  (directive (Failure TransportError) (return_target req)))
    | Throw e => Uncaught e
    end.
Proof.
  destruct (ToString (return_target req)) as [h|e] eqn:E; [reflexivity|].
  rewrite web_sendHtml_failure, default_return_target. unfold Web.esc.
  destruct (return_target req) eqn:R; try (rewrite E; reflexivity).
  pose proof (return_target_truthy req) as T. rewrite R in T. discriminate.
Qed.

Lemma api_fallback (req : request) :
  finish (Api.sendHtml (directive (Failure TransportError) (return_target req)))
  = match ToString (return_target req) with
    | Normal _ =>
        finish (Api.sendHtml
                  (directive (Failure TransportError) (return_target req)))
    | Throw e => Uncaught e
    end.
Proof.
  destruct (ToString (return_target req)) as [h|e] eqn:E; [reflexivity|].
  rewrite api_sendHtml_failure, default_return_target. now rewrite E.
Qed.

Lemma web_page_needs_target (o : opts) (e : exn) :
  ToString (default_returnTo (returnTo o)) = Throw e ->
  exists e', Web.sendHtml o = Throw e'.
Proof.
  intros H. unfold Web.sendHtml.
  destruct (id_paragraph (id o)); cbn [and_then]; [|eauto].
  unfold Web.esc.
  destruct (default_returnTo (returnTo o)) eqn:D;
    try (rewrite H; cbn [and_then]; eauto).
  destruct (returnTo o); discriminate.
Qed.

Lemma api_page_needs_target (o : opts) (e : exn) :
  ToString (default_returnTo (returnTo o)) = Throw e ->
  exists e', Api.sendHtml o = Throw e'.
Proof.
  intros H. unfold Api.sendHtml.
  destruct (id_paragraph (id o)); cbn [and_then]; [|eauto].
  rewrite H. cbn [and_then]. eauto.
Qed.

Lemma directive_returnTo (o : Outcome) (rt : value) :
  returnTo (directive o rt) = rt.
Proof. destruct o; reflexivity. Qed.

(** X16: a submission is left without a response exactly when the return
    target cannot be converted to a string: the handler then ends with the
    exception of that conversion, thrown again by the page of the [catch]
    block; in every other case it answers. *)
Theorem unanswered_exactly (w : world) (req : request) (e : exn) :
  (fst (Web.submit w req) = Uncaught e
   <-> ToString (return_target req) = Throw e)
  /\ (fst (Api.submit w req) = Uncaught e
      <-> ToString (return_target req) = Throw e).
Proof.
  rewrite web_submit_outline, api_submit_outline. cbn [fst]. split; split.
  - intros H.
    destruct (ToString (return_target req)) as [h|e'] eqn:E.
    + destruct (web_failure_renders TransportError _ _ E) as (p & Hp).
      destruct (respond_total Web.sendHtml (return_target req)
                  (fst (web_outline w req)) p Hp) as (page & Hpage).
      congruence.
    + assert (F := web_fallback req). rewrite E in F.
      unfold respond in H.
      destruct (fst (web_outline w req)) as [o|x];
        [destruct (Web.sendHtml o)|]; congruence.
  - intros E. assert (F := web_fallback req). rewrite E in F.
    unfold respond.
    destruct (fst (web_outline w req)) as [o|x] eqn:O; [|exact F].
    destruct (web_outline_outcome _ _ _ O) as (oc & ->).
    destruct (web_page_needs_target (directive oc (return_target req)) e)
      as (e' & ->); [|exact F].
    now rewrite directive_returnTo, default_return_target.
  - intros H.
    destruct (ToString (return_target req)) as [h|e'] eqn:E.
    + destruct (api_failure_renders TransportError _ _ E) as (p & Hp).
      destruct (respond_total Api.sendHtml (return_target req)
                  (fst (api_outline w req)) p Hp) as (page & Hpage).
      congruence.
    + assert (F := api_fallback req). rewrite E in F.
      unfold respond in H.
      destruct (fst (api_outline w req)) as [o|x];
        [destruct (Api.sendHtml o)|]; congruence.
  - intros E. assert (F := api_fallback req). rewrite E in F.
    unfold respond.
    destruct (fst (api_outline w req)) as [o|x] eqn:O; [|exact F].
    destruct (api_outline_outcome _ _ _ O) as (oc & ->).
    destruct (api_page_needs_target (directive oc (return_target req)) e)
      as (e' & ->); [|exact F].
    now rewrite directive_returnTo, default_return_target.
Qed.

Lemma unanswered_exactly_witness :
  fst (Api.submit (world_with (json_reply created_reply_json))
         (submission_request "shop.example"
            [("return_to", Arr [Obj [("toString", Str "x")]])]))
  = Uncaught TypeError.
Proof.
  apply (proj2 (unanswered_exactly
                  (world_with (json_reply created_reply_json))
                  (submission_request "shop.example"
                     [("return_to", Arr [Obj [("toString", Str "x")]])])
                  TypeError)).
  reflexivity.
Defined.

(** ** The other routes *)

Lemma query_text_string (req : request) (k s : string) :
  query_param req k = Str s -> query_text req k = Normal s.
Proof.
  intros H. unfold query_text, or_else. rewrite H. cbn [ToBoolean].
  destruct (String.eqb s EmptyString) eqn:E; cbn [negb ToString];
    [|reflexivity].
  apply String.eqb_eq in E. now subst s.
Qed.

Lemma query_text_absent (req : request) (k : string) :
  query_param req k = Undefined -> query_text req k = Normal EmptyString.
Proof. intros H. unfold query_text, or_else. now rewrite H. Qed.

(** X17: the admin home of both entry points answers whenever the [shop]
    and [host] query values convert to strings.  What goes out is status 200
    with the content type text/html in UTF-8 and the page (no body for
    [HEAD]), unless the request is a conditional [GET] or [HEAD] that
    [res.send] finds fresh, answered 304 with no content type and no body.
    The page shows the placeholders (unknown) and (missing) for empty texts,
    and holds the API key and the host text as they came, between double
    quotes in the script, unescaped. *)
Theorem home_reflects_query (c : conditions) (etag_of : string -> string)
    (req : request) (key : option string) (shop host : string) :
  query_text req "shop" = Normal shop ->
  query_text req "host" = Normal host ->
  web_home c etag_of req key
  = Normal
      (if req_fresh c 200
            (etag_of (web_home_bytes shop host (env_or_empty key)))
       then mk_wire 304 None EmptyString
       else mk_wire 200 (Some "text/html; charset=utf-8")
              (if String.eqb (req_method c) "HEAD" then EmptyString
               else web_home_bytes shop host (env_or_empty key)))
  /\ api_home c etag_of req key
     = Normal
         (if req_fresh c 200
               (etag_of (api_home_bytes shop host (env_or_empty key)))
          then mk_wire 304 None EmptyString
          else mk_wire 200 (Some "text/html; charset=utf-8")
                 (if String.eqb (req_method c) "HEAD" then EmptyString
                  else api_home_bytes shop host (env_or_empty key)))
  /\ occurs (utf8 (or_text shop "(unknown)") ++ " | host: "
             ++ utf8 (or_text host "(missing)"))
       (web_home_bytes shop host (env_or_empty key)) = true
  /\ occurs (utf8 (or_text shop "(unknown)") ++ " " ++ bullet ++ " host: "
             ++ utf8 (or_text host "(missing)"))
       (api_home_bytes shop host (env_or_empty key)) = true
  /\ occurs (quote ++ utf8 (env_or_empty key) ++ quote ++ ", host: "
             ++ quote ++ utf8 host ++ quote ++ " });")
       (web_home_bytes shop host (env_or_empty key)) = true
  /\ occurs (quote ++ utf8 (env_or_empty key) ++ quote ++ ", host: "
             ++ quote ++ utf8 host ++ quote ++ " });")
       (api_home_bytes shop host (env_or_empty key)) = true.
Proof.
  intros Hs Hh. unfold web_home, api_home. rewrite Hs, Hh. cbn [and_then].
  unfold send_bytes.
  split; [|split].
  - destruct (req_fresh c 200 _); reflexivity.
  - destruct (req_fresh c 200 _); reflexivity.
  - unfold web_home_bytes, api_home_bytes.
    split; [|split; [|split]]; find_occurrence.
Qed.

Lemma home_reflects_query_witness :
  web_home plain_post body_tag (mk_request [("host", Str "x")] None Undefined)
    None
  = Normal
      (if req_fresh plain_post 200
            (body_tag (web_home_bytes EmptyString "x" (env_or_empty None)))
       then mk_wire 304 None EmptyString
       else mk_wire 200 (Some "text/html; charset=utf-8")
              (if String.eqb (req_method plain_post) "HEAD" then EmptyString
               else web_home_bytes EmptyString "x" (env_or_empty None)))
  /\ api_home plain_post body_tag
       (mk_request [("host", Str "x")] None Undefined) None
     = Normal
         (if req_fresh plain_post 200
               (body_tag (api_home_bytes EmptyString "x" (env_or_empty None)))
          then mk_wire 304 None EmptyString
          else mk_wire 200 (Some "text/html; charset=utf-8")
                 (if String.eqb (req_method plain_post) "HEAD"
                  then EmptyString
                  else api_home_bytes EmptyString "x" (env_or_empty None)))
  /\ occurs (utf8 (or_text EmptyString "(unknown)") ++ " | host: "
             ++ utf8 (or_text "x" "(missing)"))
       (web_home_bytes EmptyString "x" (env_or_empty None)) = true
  /\ occurs (utf8 (or_text EmptyString "(unknown)") ++ " " ++ bullet
             ++ " host: " ++ utf8 (or_text "x" "(missing)"))
       (api_home_bytes EmptyString "x" (env_or_empty None)) = true
  /\ occurs (quote ++ utf8 (env_or_empty None) ++ quote ++ ", host: "
             ++ quote ++ utf8 "x" ++ quote ++ " });")
       (web_home_bytes EmptyString "x" (env_or_empty None)) = true
  /\ occurs (quote ++ utf8 (env_or_empty None) ++ quote ++ ", host: "
             ++ quote ++ utf8 "x" ++ quote ++ " });")
       (api_home_bytes EmptyString "x" (env_or_empty None)) = true.
Proof.
  apply (home_reflects_query plain_post body_tag
           (mk_request [("host", Str "x")] None Undefined)
           None EmptyString "x"); reflexivity.
Defined.

Lemma append_associative (a b c : string) : (a ++ b) ++ c = a ++ b ++ c.
Proof. induction a as [|x a IH]; cbn; [reflexivity | now rewrite IH]. Qed.

Lemma escape_units_append (a b : string) :
  escape_units (a ++ b) = escape_units a ++ escape_units b.
Proof.
  induction a as [|c a IH]; [reflexivity|].
  cbn [append escape_units]. now rewrite IH, append_associative.
Qed.

Lemma all_copied_append (a b : string) :
  all_copied (a ++ b) = all_copied a && all_copied b.
Proof.
  induction a as [|c a IH]; [reflexivity|].
  cbn [append all_copied]. now rewrite IH, andb_assoc.
Qed.

(** X18: the last route of [web/index.ts] answers with status 404 and a
    JSON object whose only member, [error], is a JSON string literal for the
    text No route: followed by method and path, whatever characters the path
    has; method and path made of copied characters stand unchanged. *)
Theorem not_found_is_json (method path : string) :
  status (web_not_found method path) = 404
  /\ media_type (web_not_found method path) = "application/json"
  /\ (exists inner,
        html (web_not_found method path)
        = "{" ++ quote ++ "error" ++ quote ++ ":" ++ quote ++ inner ++ quote
          ++ "}"
        /\ json_chars (list_ascii_of_string inner) = true
        /\ inner = escape_units ("No route: " ++ method ++ " " ++ path))
  /\ (all_copied method = true -> all_copied path = true ->
      html (web_not_found method path)
      = "{" ++ quote ++ "error" ++ quote ++ ":" ++ quote
        ++ ("No route: " ++ method ++ " " ++ path) ++ quote ++ "}").
Proof.
  assert (E : html (web_not_found method path)
              = "{" ++ quote ++ "error" ++ quote ++ ":" ++ quote
                ++ escape_units ("No route: " ++ method ++ " " ++ path)
                ++ quote ++ "}").
  { cbn [web_not_found html JSON_stringify comma_join].
    unfold QuoteJSONString. cbn [escape_units].
    change (escape_unit "e" ++ escape_unit "r" ++ escape_unit "r"
            ++ escape_unit "o" ++ escape_unit "r" ++ EmptyString)
      with "error".
    unfold quote. cbn [append]. rewrite !append_associative. reflexivity. }
  split; [reflexivity|]. split; [reflexivity|]. split.
  - eexists. split; [exact E|]. split; [apply json_chars_escape_units|].
    reflexivity.
  - intros Hm Hp. rewrite E. rewrite escape_units_copied; [reflexivity|].
    rewrite !all_copied_append, Hm, Hp. reflexivity.
Qed.

Lemma not_found_is_json_witness :
  html (web_not_found "GET" "/reviews/list")
  = "{" ++ quote ++ "error" ++ quote ++ ":" ++ quote
    ++ "No route: GET /reviews/list" ++ quote ++ "}".
Proof.
  apply (proj2 (proj2 (proj2 (not_found_is_json "GET" "/reviews/list"))));
    reflexivity.
Defined.

(** X19: the listen port of [web/index.ts] is never falsy: it is 3000
    when [PORT] is not set, is empty, or reads as zero or as no number, and
    the number [PORT] reads as otherwise. *)
Theorem listen_port_fallback (PORT : option string) :
  exists n,
    web_port PORT = Normal (Num n)
    /\ ToBoolean (Num n) = true
    /\ (PORT = None -> n = Finite 3000)
    /\ (forall s,
          PORT = Some s ->
          n = if ToBoolean (Num (StringToNumber s))
              then StringToNumber s else Finite 3000).
Proof.
  destruct PORT as [s|]; unfold web_port; cbn [env_value ToNumber and_then].
  - unfold or_else.
    destruct (ToBoolean (Num (StringToNumber s))) eqn:E.
    + exists (StringToNumber s). split; [reflexivity|]. split; [exact E|].
      split; [discriminate|]. intros s' [= <-]. now rewrite E.
    + exists (Finite 3000). split; [reflexivity|]. split; [reflexivity|].
      split; [reflexivity|]. intros s' [= <-]. now rewrite E.
  - exists (Finite 3000). split; [reflexivity|]. split; [reflexivity|].
    split; [reflexivity | discriminate].
Qed.

Lemma listen_port_fallback_witness :
  web_port (Some "8080") = Normal (Num (Finite 8080))
  /\ web_port (Some EmptyString) = Normal (Num (Finite 3000))
  /\ web_port (Some "eighty") = Normal (Num (Finite 3000))
  /\ web_port None = Normal (Num (Finite 3000)).
Proof.
  split; [|split; [|split]];
    match goal with
    | |- web_port ?p = _ =>
        destruct (listen_port_fallback p) as (n & -> & _ & Hnone & Hsome);
        first [ rewrite (Hnone eq_refl)
              | rewrite (Hsome _ eq_refl) ];
        vm_compute; reflexivity
    end.
Defined.
